(** * Training-data generator: renderers, JSON-lines writer and format validator

    A shallow embedding of [scripts/generate-training-data.py].  Python
    strings are sequences of Unicode code points; a scenario is a Python
    dict, here a finite map from keys to Python values; exceptions are
    an explicit error result. *)

From Stdlib Require Import String Ascii NArith ZArith DecimalString Lia.
From stdpp Require Import gmap list.

Set Default Proof Using "Type".

(** ** Python strings *)

(** A Python [str] is a sequence of code points. *)
Abbreviation char := N (only parsing).
Abbreviation str := (list N) (only parsing).

(** An ASCII literal of the source, as a [str]. *)
Definition lit (s : string) : str := List.map N_of_ascii (list_ascii_of_string s).
Arguments lit s%_string.

Definition LF : char := 10%N.
Definition CR : char := 13%N.
Definition DQ : char := 34%N.
Definition BSL : char := 92%N.
Definition SP : char := 32%N.
(** The two non-ASCII characters of the prompt template. *)
Definition sigma : char := 963%N.
Definition plus_minus : char := 177%N.

Definition str_eqb (a b : str) : bool := bool_decide (a = b).

(** [sep.join(parts)] *)
Fixpoint str_join (sep : str) (parts : list str) : str :=
  match parts with
  | [] => []
  | [p] => p
  | p :: rest => p ++ sep ++ str_join sep rest
  end.

(** [s.startswith(prefix)] *)
Fixpoint startswith (prefix s : str) : bool :=
  match prefix, s with
  | [], _ => true
  | _ :: _, [] => false
  | p :: prefix', c :: s' => (p =? c)%N && startswith prefix' s'
  end.

(** [needle in hay] for two strings: substring search. *)
Fixpoint str_contains (needle hay : str) : bool :=
  startswith needle hay ||
  match hay with
  | [] => false
  | _ :: hay' => str_contains needle hay'
  end.

(** The decimal text of a Python [int]. *)
Definition int_str (z : Z) : str := lit (NilZero.string_of_int (Z.to_int z)).

(** The interpreter converts no [int] of more than 4300 digits to or
    from text: [sys.int_info.default_max_str_digits]. *)
Definition max_str_digits : Z := 4300.

(** The least number of more than [max_str_digits] digits, ten to the
    power [max_str_digits], evaluated once. *)
Definition max_str_bound : Z := Eval vm_compute in (10 ^ max_str_digits)%Z.

Definition exceeds_max_str_digits (z : Z) : bool :=
  (max_str_bound <=? Z.abs z)%Z.

(** ** Exceptions *)

Inductive exn :=
| KeyError (k : str)
| TypeError
| ValueError
| JSONDecodeError
| RecursionError
| FileNotFoundError
| UnicodeEncodeError.

Inductive result (A : Type) :=
| Ok (a : A)
| Raise (e : exn).
Arguments Ok {A} a.
Arguments Raise {A} e.

Definition bind {A B} (r : result A) (k : A -> result B) : result B :=
  match r with
  | Ok a => k a
  | Raise e => Raise e
  end.

Notation "x <- r ;; k" := (bind r (fun x => k))
  (at level 20, r at level 99, k at level 200).
Notation "' p <- r ;; k" := (bind r (fun x => let 'p := x in k))
  (at level 20, p pattern, r at level 99, k at level 200).

(** ** Builtins taken as given

    Binary floating point and the [repr] of a string are not modelled:
    the float type, its shortest round-trip [repr], its classification
    and [float(text)], and [repr] on [str], are an interface.  So is
    the room the recursion limit of the interpreter leaves: [repr] can
    walk [S repr_depth] levels of nested lists and dicts, [json.dumps]
    [S json_depth] levels. *)

Inductive float_class := FNaN | FPosInf | FNegInf | FFinite.

Class PyBuiltins := {
  float : Type;
  float_repr : float -> str;
  float_classify : float -> float_class;
  float_of_str : str -> float;
  str_repr : str -> str;
  repr_depth : nat;
  json_depth : nat
}.

Section Python.
Context `{PyBuiltins}.

(** ** Python values *)

Inductive pyval :=
| VNone
| VBool (b : bool)
| VInt (z : Z)
| VFloat (x : float)
| VStr (s : str)
| VList (l : list pyval)
| VDict (d : list (str * pyval)).

(** Python dicts keep insertion order; a dict that is serialized is an
    association list with [dict_set] as item assignment. *)
Fixpoint dict_get (k : str) (d : list (str * pyval)) : option pyval :=
  match d with
  | [] => None
  | (k', v) :: d' => if str_eqb k k' then Some v else dict_get k d'
  end.

Fixpoint dict_set (k : str) (v : pyval) (d : list (str * pyval)) : list (str * pyval) :=
  match d with
  | [] => [(k, v)]
  | (k', v') :: d' => if str_eqb k k' then (k', v) :: d' else (k', v') :: dict_set k v d'
  end.

(** [dict(pairs)] *)
Definition dict_of_pairs (pairs : list (str * pyval)) : list (str * pyval) :=
  fold_left (fun d kv => dict_set (fst kv) (snd kv) d) pairs [].

(** ** Formatting: [str(v)] and [repr(v)], as f-strings use them *)

Fixpoint py_repr (v : pyval) : str :=
  match v with
  | VNone => lit "None"
  | VBool true => lit "True"
  | VBool false => lit "False"
  | VInt z => int_str z
  | VFloat x => float_repr x
  | VStr s => str_repr s
  | VList l => lit "[" ++ str_join (lit ", ") (List.map py_repr l) ++ lit "]"
  | VDict d =>
      lit "{" ++
      str_join (lit ", ")
        (List.map (fun kv => str_repr (fst kv) ++ lit ": " ++ py_repr (snd kv)) d) ++
      lit "}"
  end.

(** The text of [str(v)]. *)
Definition py_str (v : pyval) : str :=
  match v with
  | VStr s => s
  | _ => py_repr v
  end.

(** What stops [repr] and [json.dumps] on their walk through a value:
    an [int] of too many digits raises [ValueError], a list or dict
    nested deeper than [depth] levels raises [RecursionError].  The walk
    is depth first, in order, and the first error ends it. *)
Fixpoint check_value (depth : nat) (v : pyval) {struct v} : result unit :=
  match v with
  | VNone | VBool _ | VFloat _ | VStr _ => Ok tt
  | VInt z => if exceeds_max_str_digits z then Raise ValueError else Ok tt
  | VList l =>
      match depth with
      | 0 => Raise RecursionError
      | S depth' =>
          (fix each (l : list pyval) : result unit :=
             match l with
             | [] => Ok tt
             | x :: l' => _ <- check_value depth' x ;; each l'
             end) l
      end
  | VDict d =>
      match depth with
      | 0 => Raise RecursionError
      | S depth' =>
          (fix each (d : list (str * pyval)) : result unit :=
             match d with
             | [] => Ok tt
             | kv :: d' => _ <- check_value depth' (snd kv) ;; each d'
             end) d
      end
  end.

(** [f"{v}"] is [format(v, "")], which is [str(v)]. *)
Definition py_format (v : pyval) : result str :=
  _ <- check_value (S repr_depth) v ;; Ok (py_str v).

(** Iterating a value, as a generator expression does. *)
Definition py_iter (v : pyval) : result (list pyval) :=
  match v with
  | VList l => Ok l
  | VStr s => Ok (List.map (fun c => VStr [c]) s)
  | VDict d => Ok (List.map (fun kv => VStr (fst kv)) d)
  | VNone | VBool _ | VInt _ | VFloat _ => Raise TypeError
  end.

(** [s[k]] on a scenario. *)
Definition getitem (s : gmap str pyval) (k : str) : result pyval :=
  match s !! k with
  | Some v => Ok v
  | None => Raise (KeyError k)
  end.

(** ** [json.dumps]

    The encoder of the standard library: [ensure_ascii] selects the
    escaping of non-ASCII characters, [indent] the pretty-printing. *)

Definition hexdigit (n : N) : char :=
  if (n <? 10)%N then (48 + n)%N else (87 + n)%N.

(** ['{0:04x}'.format(n)] for [n < 0x10000] *)
Definition hex4 (n : N) : str :=
  [hexdigit (n / 4096 mod 16); hexdigit (n / 256 mod 16);
   hexdigit (n / 16 mod 16); hexdigit (n mod 16)]%N.

Definition u_escape (n : N) : str := BSL :: 117%N :: hex4 n.

Definition escape_char (ensure_ascii : bool) (c : char) : str :=
  if (c =? 34)%N then [BSL; DQ]
  else if (c =? 92)%N then [BSL; BSL]
  else if (c =? 10)%N then [BSL; 110%N]
  else if (c =? 13)%N then [BSL; 114%N]
  else if (c =? 9)%N then [BSL; 116%N]
  else if (c =? 12)%N then [BSL; 102%N]
  else if (c =? 8)%N then [BSL; 98%N]
  else if (c <? 32)%N then u_escape c
  else if ensure_ascii && (126 <? c)%N then
    if (c <? 65536)%N then u_escape c
    else
      let n := (c - 65536)%N in
      u_escape (N.lor 55296 (N.land (N.shiftr n 10) 1023)) ++
      u_escape (N.lor 56320 (N.land n 1023))
  else [c].

Definition escape_body (ensure_ascii : bool) (s : str) : str :=
  concat (List.map (escape_char ensure_ascii) s).

Definition encode_basestring (ensure_ascii : bool) (s : str) : str :=
  DQ :: escape_body ensure_ascii s ++ [DQ].

Definition json_float (x : float) : str :=
  match float_classify x with
  | FNaN => lit "NaN"
  | FPosInf => lit "Infinity"
  | FNegInf => lit "-Infinity"
  | FFinite => float_repr x
  end.

Definition newline_indent (indent level : nat) : str :=
  LF :: repeat SP (indent * level).

Fixpoint json_encode (ensure_ascii : bool) (indent : option nat) (level : nat)
    (v : pyval) : str :=
  match v with
  | VNone => lit "null"
  | VBool true => lit "true"
  | VBool false => lit "false"
  | VInt z => int_str z
  | VFloat x => json_float x
  | VStr s => encode_basestring ensure_ascii s
  | VList [] => lit "[]"
  | VList l =>
      match indent with
      | Some n =>
          lit "[" ++ newline_indent n (S level) ++
          str_join (lit "," ++ newline_indent n (S level))
            (List.map (json_encode ensure_ascii indent (S level)) l) ++
          newline_indent n level ++ lit "]"
      | None =>
          lit "[" ++
          str_join (lit ", ") (List.map (json_encode ensure_ascii indent level) l) ++
          lit "]"
      end
  | VDict [] => lit "{}"
  | VDict d =>
      match indent with
      | Some n =>
          lit "{" ++ newline_indent n (S level) ++
          str_join (lit "," ++ newline_indent n (S level))
            (List.map (fun kv => encode_basestring ensure_ascii (fst kv) ++ lit ": " ++
                                 json_encode ensure_ascii indent (S level) (snd kv)) d) ++
          newline_indent n level ++ lit "}"
      | None =>
          lit "{" ++
          str_join (lit ", ")
            (List.map (fun kv => encode_basestring ensure_ascii (fst kv) ++ lit ": " ++
                                 json_encode ensure_ascii indent level (snd kv)) d) ++
          lit "}"
      end
  end.

(** The text of [json.dumps(v, ensure_ascii=..., indent=...)]. *)
Definition json_dumps (ensure_ascii : bool) (indent : option nat) (v : pyval) : str :=
  json_encode ensure_ascii indent 0 v.

(** The call [json.dumps(v, ensure_ascii=..., indent=...)]. *)
Definition py_json_dumps (ensure_ascii : bool) (indent : option nat) (v : pyval)
    : result str :=
  _ <- check_value (S json_depth) v ;; Ok (json_dumps ensure_ascii indent v).

(** ** [json.loads]

    The decoder of the standard library, in strict mode.  A parser
    returns the value read and the rest of the text. *)

Definition is_ws (c : char) : bool :=
  ((c =? 32) || (c =? 9) || (c =? 10) || (c =? 13))%N.

Fixpoint skip_ws (s : str) : str :=
  match s with
  | [] => []
  | c :: s' => if is_ws c then skip_ws s' else s
  end.

Definition is_digit (c : char) : bool := ((48 <=? c) && (c <=? 57))%N.

Definition hexval (c : char) : option N :=
  if is_digit c then Some (c - 48)%N
  else if ((97 <=? c) && (c <=? 102))%N then Some (c - 87)%N
  else if ((65 <=? c) && (c <=? 70))%N then Some (c - 55)%N
  else None.

Definition decode_uXXXX (h1 h2 h3 h4 : char) : result N :=
  match hexval h1, hexval h2, hexval h3, hexval h4 with
  | Some a, Some b, Some c, Some d => Ok (a * 4096 + b * 256 + c * 16 + d)%N
  | _, _, _, _ => Raise JSONDecodeError
  end.

(** The one-letter escapes. *)
Definition unescape (e : char) : option char :=
  if (e =? 34)%N then Some DQ
  else if (e =? 92)%N then Some BSL
  else if (e =? 47)%N then Some 47%N
  else if (e =? 98)%N then Some 8%N
  else if (e =? 102)%N then Some 12%N
  else if (e =? 110)%N then Some LF
  else if (e =? 114)%N then Some CR
  else if (e =? 116)%N then Some 9%N
  else None.

Definition is_high_surrogate (u : N) : bool := ((55296 <=? u) && (u <=? 56319))%N.
Definition is_low_surrogate (u : N) : bool := ((56320 <=? u) && (u <=? 57343))%N.

(** [scanstring]: the text after an opening quote, up to the closing one. *)
Fixpoint scanstring (s : str) : result (str * str) :=
  match s with
  | [] => Raise JSONDecodeError
  | c :: s1 =>
      if (c =? 34)%N then Ok ([], s1)
      else if (c =? 92)%N then
        match s1 with
        | [] => Raise JSONDecodeError
        | e :: s2 =>
            if (e =? 117)%N then
              match s2 with
              | h1 :: h2 :: h3 :: h4 :: s3 =>
                  uni <- decode_uXXXX h1 h2 h3 h4 ;;
                  match s3 with
                  | b :: u :: s4 =>
                      if is_high_surrogate uni && (b =? 92)%N && (u =? 117)%N then
                        match s4 with
                        | g1 :: g2 :: g3 :: g4 :: s5 =>
                            uni2 <- decode_uXXXX g1 g2 g3 g4 ;;
                            if is_low_surrogate uni2 then
                              '(t, r) <- scanstring s5 ;;
                              Ok ((65536 + N.lor (N.shiftl (uni - 55296) 10) (uni2 - 56320))%N :: t, r)
                            else
                              '(t, r) <- scanstring s3 ;; Ok (uni :: t, r)
                        | _ => Raise JSONDecodeError
                        end
                      else
                        '(t, r) <- scanstring s3 ;; Ok (uni :: t, r)
                  | _ => '(t, r) <- scanstring s3 ;; Ok (uni :: t, r)
                  end
              | _ => Raise JSONDecodeError
              end
            else
              match unescape e with
              | Some ch => '(t, r) <- scanstring s2 ;; Ok (ch :: t, r)
              | None => Raise JSONDecodeError
              end
        end
      else if (c <? 32)%N then Raise JSONDecodeError
      else '(t, r) <- scanstring s1 ;; Ok (c :: t, r)
  end.

(** Numbers: an optional minus sign, then 0 or a digit string that does
    not start with 0; then optionally a point and digits; then optionally
    an exponent, e or E with an optional sign and digits. *)
Fixpoint span_digits (s : str) : str * str :=
  match s with
  | [] => ([], [])
  | c :: s' =>
      if is_digit c then let '(ds, r) := span_digits s' in (c :: ds, r) else ([], s)
  end.

Definition match_integer (s : str) : option (str * str) :=
  let '(sign, s1) :=
    match s with
    | c :: s' => if (c =? 45)%N then ([c], s') else ([], s)
    | [] => ([], s)
    end in
  match s1 with
  | [] => None
  | d :: s2 =>
      if (d =? 48)%N then Some (sign ++ [d], s2)
      else if is_digit d then let '(ds, r) := span_digits s2 in Some (sign ++ d :: ds, r)
      else None
  end.

Definition match_frac (s : str) : option (str * str) :=
  match s with
  | c :: s1 =>
      if (c =? 46)%N then
        match span_digits s1 with
        | ([], _) => None
        | (ds, r) => Some (c :: ds, r)
        end
      else None
  | [] => None
  end.

Definition match_exp (s : str) : option (str * str) :=
  match s with
  | e :: s1 =>
      if ((e =? 101) || (e =? 69))%N then
        let '(sign, s2) :=
          match s1 with
          | c :: s' => if ((c =? 45) || (c =? 43))%N then ([c], s') else ([], s1)
          | [] => ([], s1)
          end in
        match span_digits s2 with
        | ([], _) => None
        | (ds, r) => Some (e :: sign ++ ds, r)
        end
      else None
  | [] => None
  end.

(** [int(text)] on the text of an integer literal. *)
Definition int_of_str (s : str) : Z :=
  let digits ds := fold_left (fun acc c => (10 * acc + Z.of_N (c - 48))%Z) ds 0%Z in
  match s with
  | c :: s' => if (c =? 45)%N then (- digits s')%Z else digits s
  | [] => 0%Z
  end.

Definition match_number (s : str) : option (pyval * str) :=
  match match_integer s with
  | None => None
  | Some (integer, r1) =>
      let '(frac, r2) := match match_frac r1 with Some (f, r) => (f, r) | None => ([], r1) end in
      let '(exp, r3) := match match_exp r2 with Some (e, r) => (e, r) | None => ([], r2) end in
      match frac, exp with
      | [], [] => Some (VInt (int_of_str integer), r3)
      | _, _ => Some (VFloat (float_of_str (integer ++ frac ++ exp)), r3)
      end
  end.

(** The members of an object, from after the opening quote of a key.
    [scan] reads one value; [k] bounds the number of members. *)
Fixpoint parse_members (scan : str -> result (pyval * str)) (k : nat) (s : str)
    : result (list (str * pyval) * str) :=
  match k with
  | 0 => Raise RecursionError
  | S k' =>
      '(key, s1) <- scanstring s ;;
      match skip_ws s1 with
      | c :: s2 =>
          if (c =? 58)%N then
            '(v, s3) <- scan (skip_ws s2) ;;
            match skip_ws s3 with
            | d :: s4 =>
                if (d =? 125)%N then Ok ([(key, v)], s4)
                else if (d =? 44)%N then
                  match skip_ws s4 with
                  | q :: s5 =>
                      if (q =? 34)%N then
                        '(rest, r) <- parse_members scan k' s5 ;; Ok ((key, v) :: rest, r)
                      else Raise JSONDecodeError
                  | [] => Raise JSONDecodeError
                  end
                else Raise JSONDecodeError
            | [] => Raise JSONDecodeError
            end
          else Raise JSONDecodeError
      | [] => Raise JSONDecodeError
      end
  end.

(** An object, from after its opening brace. *)
Definition parse_object (scan : str -> result (pyval * str)) (k : nat) (s : str)
    : result (list (str * pyval) * str) :=
  match skip_ws s with
  | c :: s1 =>
      if (c =? 125)%N then Ok ([], s1)
      else if (c =? 34)%N then parse_members scan k s1
      else Raise JSONDecodeError
  | [] => Raise JSONDecodeError
  end.

(** The elements of a non-empty array. *)
Fixpoint parse_elements (scan : str -> result (pyval * str)) (k : nat) (s : str)
    : result (list pyval * str) :=
  match k with
  | 0 => Raise RecursionError
  | S k' =>
      '(v, s1) <- scan s ;;
      match skip_ws s1 with
      | d :: s2 =>
          if (d =? 93)%N then Ok ([v], s2)
          else if (d =? 44)%N then
            '(rest, r) <- parse_elements scan k' (skip_ws s2) ;; Ok (v :: rest, r)
          else Raise JSONDecodeError
      | [] => Raise JSONDecodeError
      end
  end.

(** An array, from after its opening bracket. *)
Definition parse_array (scan : str -> result (pyval * str)) (k : nat) (s : str)
    : result (list pyval * str) :=
  match skip_ws s with
  | c :: s1 => if (c =? 93)%N then Ok ([], s1) else parse_elements scan k (c :: s1)
  | [] => Raise JSONDecodeError
  end.

(** One value at the head of the text.  [fuel] bounds the nesting. *)
Fixpoint scan_once (fuel : nat) (s : str) : result (pyval * str) :=
  match fuel with
  | 0 => Raise RecursionError
  | S fuel' =>
      match s with
      | [] => Raise JSONDecodeError
      | c :: s1 =>
          if (c =? 34)%N then
            '(t, r) <- scanstring s1 ;; Ok (VStr t, r)
          else if (c =? 123)%N then
            '(pairs, r) <- parse_object (scan_once fuel') fuel' s1 ;;
            Ok (VDict (dict_of_pairs pairs), r)
          else if (c =? 91)%N then
            '(items, r) <- parse_array (scan_once fuel') fuel' s1 ;;
            Ok (VList items, r)
          else if startswith (lit "null") s then Ok (VNone, drop 4 s)
          else if startswith (lit "true") s then Ok (VBool true, drop 4 s)
          else if startswith (lit "false") s then Ok (VBool false, drop 5 s)
          else
            match match_number s with
            | Some (VInt z, r) =>
                if exceeds_max_str_digits z then Raise ValueError else Ok (VInt z, r)
            | Some vr => Ok vr
            | None =>
                if startswith (lit "NaN") s then
                  Ok (VFloat (float_of_str (lit "nan")), drop 3 s)
                else if startswith (lit "Infinity") s then
                  Ok (VFloat (float_of_str (lit "inf")), drop 8 s)
                else if startswith (lit "-Infinity") s then
                  Ok (VFloat (float_of_str (lit "-inf")), drop 9 s)
                else Raise JSONDecodeError
            end
      end
  end.

(** [json.loads(text)]: one value, with white space around it and
    nothing else.  The length of the text is fuel enough: every level
    of nesting and every member consumes a character. *)
Definition json_loads (s : str) : result pyval :=
  if startswith [65279%N] s then Raise JSONDecodeError
  else
    '(v, r) <- scan_once (S (length s)) (skip_ws s) ;;
    match skip_ws r with
    | [] => Ok v
    | _ :: _ => Raise JSONDecodeError
    end.

(** ** The renderers *)

(** An f-string formats each field as it reads it: a field that cannot
    be formatted raises before the next key is looked up. *)
Definition build_instruction (s : gmap str pyval) : result str :=
  service <- getitem s (lit "service") ;;
  service <- py_format service ;;
  operation <- getitem s (lit "operation") ;;
  operation <- py_format operation ;;
  duration <- getitem s (lit "duration") ;;
  duration <- py_format duration ;;
  expected_mean <- getitem s (lit "expected_mean") ;;
  expected_mean <- py_format expected_mean ;;
  expected_std <- getitem s (lit "expected_std") ;;
  expected_std <- py_format expected_std ;;
  deviation <- getitem s (lit "deviation") ;;
  deviation <- py_format deviation ;;
  severity <- getitem s (lit "severity") ;;
  severity <- py_format severity ;;
  severity_name <- getitem s (lit "severity_name") ;;
  severity_name <- py_format severity_name ;;
  attributes <- getitem s (lit "attributes") ;;
  attributes <- py_json_dumps true (Some 2) attributes ;;
  Ok (lit "You are an expert in distributed systems and observability. Analyze this performance anomaly:

## Anomaly Details
- Service: " ++ service ++ lit "
- Operation: " ++ operation ++ lit "
- Duration: " ++ duration ++ lit "ms (expected: " ++ expected_mean ++
      lit "ms " ++ [plus_minus] ++ lit " " ++ expected_std ++ lit "ms)
- Deviation: " ++ deviation ++ [sigma] ++ lit " (standard deviations from mean)
- Severity: SEV" ++ severity ++ lit " (" ++ severity_name ++ lit ")

## Span Attributes
" ++ attributes ++ lit "

Based on the trace data AND correlated metrics, provide:
1. A brief summary (1-2 sentences) of what likely caused this anomaly
2. 2-3 possible root causes (consider resource utilization if metrics show issues)
3. 2-3 actionable recommendations

Format your response as:
SUMMARY: [your summary]
CAUSES:
- [cause 1]
- [cause 2]
RECOMMENDATIONS:
- [recommendation 1]
- [recommendation 2]
CONFIDENCE: [low/medium/high]").

(** [f"- {c}"] *)
Definition bullet (c : pyval) : result str :=
  c <- py_format c ;; Ok (lit "- " ++ c).

(** [f"- {c}" for c in cs], as [join] consumes it. *)
Fixpoint bullets (cs : list pyval) : result (list str) :=
  match cs with
  | [] => Ok []
  | c :: cs' => b <- bullet c ;; bs <- bullets cs' ;; Ok (b :: bs)
  end.

Definition build_output (s : gmap str pyval) : result str :=
  cs <- getitem s (lit "causes") ;;
  cs <- py_iter cs ;;
  cs <- bullets cs ;;
  let causes := str_join [LF] cs in
  rs <- getitem s (lit "recommendations") ;;
  rs <- py_iter rs ;;
  rs <- bullets rs ;;
  let recs := str_join [LF] rs in
  summary <- getitem s (lit "summary") ;;
  summary <- py_format summary ;;
  confidence <- getitem s (lit "confidence") ;;
  confidence <- py_format confidence ;;
  Ok (lit "SUMMARY: " ++ summary ++ lit "
CAUSES:
" ++ causes ++ lit "
RECOMMENDATIONS:
" ++ recs ++ lit "
CONFIDENCE: " ++ confidence).

(** ** The script: generation, then validation

    The state the script acts on is the text of the output file and the
    console.  The file is opened with the utf-8 encoding: a text that
    holds a surrogate code point cannot be encoded, and what was encoded
    is read back as it was written. *)

Inductive printed :=
| PGenerated (n : nat)
| PValidationHeader
| PReport (i : nat) (ok : bool) (len : nat) (has_summary has_causes has_recs has_conf : bool)
| PVerdict (all_good : bool).

Record world := World {
  output_file : option str;
  console : list printed
}.

Definition print (w : world) (p : printed) : world :=
  World (output_file w) (console w ++ [p]).

(** The dict literal of the generation loop. *)
Definition make_entry (scenario : gmap str pyval) : result pyval :=
  instruction <- build_instruction scenario ;;
  output <- build_output scenario ;;
  Ok (VDict [(lit "instruction", VStr instruction);
             (lit "input", VStr []);
             (lit "output", VStr output)]).

Definition is_surrogate (c : char) : bool := ((55296 <=? c) && (c <=? 57343))%N.

(** A text the utf-8 codec encodes. *)
Definition utf8_encodable (text : str) : bool :=
  forallb (fun c => negb (is_surrogate c)) text.

(** [f.write(text)]: the text is encoded as a whole, then appended. *)
Definition file_write (f : str) (text : str) : result str :=
  if utf8_encodable text then Ok (f ++ text) else Raise UnicodeEncodeError.

(** The body of the generation loop. *)
Definition write_entry (scenario : gmap str pyval) (f : str) : result str :=
  entry <- make_entry scenario ;;
  line <- py_json_dumps false None entry ;;
  file_write f (line ++ [LF]).

(** The body of [with open(output_file, 'w') as f]: [f] is the text
    written so far.  An exception leaves what was written. *)
Fixpoint write_entries (scenarios : list (gmap str pyval)) (f : str) : str * result unit :=
  match scenarios with
  | [] => (f, Ok tt)
  | scenario :: rest =>
      match write_entry scenario f with
      | Ok f' => write_entries rest f'
      | Raise e => (f, Raise e)
      end
  end.

(** Opening with ['w'] creates the file or truncates it. *)
Definition generate (scenarios : list (gmap str pyval)) (w : world) : world * result unit :=
  let '(f, r) := write_entries scenarios [] in
  (World (Some f) (console w), r).

(** [f.readlines()] in text mode: lines keep their terminator, and
    each of LF, CR LF and CR ends a line and is read as LF. *)
Fixpoint readlines_from (cur : str) (s : str) : list str :=
  match s with
  | [] => match cur with [] => [] | _ :: _ => [cur] end
  | c :: s' =>
      if (c =? 10)%N then (cur ++ [LF]) :: readlines_from [] s'
      else if (c =? 13)%N then
        match s' with
        | d :: s'' =>
            if (d =? 10)%N then (cur ++ [LF]) :: readlines_from [] s''
            else (cur ++ [LF]) :: readlines_from [] s'
        | [] => [cur ++ [LF]]
        end
      else readlines_from (cur ++ [c]) s'
  end.

Definition readlines (s : str) : list str := readlines_from [] s.

(** [d[k]], [needle in v] and [len(v)] on a decoded value. *)
Definition py_getitem (d : pyval) (k : str) : result pyval :=
  match d with
  | VDict items =>
      match dict_get k items with
      | Some v => Ok v
      | None => Raise (KeyError k)
      end
  | _ => Raise TypeError
  end.

Definition py_in (needle : str) (v : pyval) : result bool :=
  match v with
  | VStr s => Ok (str_contains needle s)
  | VList l =>
      Ok (existsb (fun x => match x with VStr s => str_eqb needle s | _ => false end) l)
  | VDict d => Ok (existsb (fun kv => str_eqb needle (fst kv)) d)
  | VNone | VBool _ | VInt _ | VFloat _ => Raise TypeError
  end.

Definition py_len (v : pyval) : result nat :=
  match v with
  | VStr s => Ok (length s)
  | VList l => Ok (length l)
  | VDict d => Ok (length d)
  | VNone | VBool _ | VInt _ | VFloat _ => Raise TypeError
  end.

(** One iteration of the validation loop: the line's flags, as printed. *)
Definition check_line (i : nat) (line : str) : result (bool * printed) :=
  d <- json_loads line ;;
  out <- py_getitem d (lit "output") ;;
  has_summary <- py_in (lit "SUMMARY:") out ;;
  has_causes <- py_in (lit "CAUSES:") out ;;
  has_recs <- py_in (lit "RECOMMENDATIONS:") out ;;
  has_conf <- py_in (lit "CONFIDENCE:") out ;;
  let ok := has_summary && has_causes && has_recs && has_conf in
  len <- py_len out ;;
  Ok (ok, PReport i ok len has_summary has_causes has_recs has_conf).

(** [for i, line in enumerate(lines)], threading [all_good] and the console. *)
Fixpoint validate_loop (i : nat) (lines : list str) (all_good : bool) (w : world)
    : bool * world * result unit :=
  match lines with
  | [] => (all_good, w, Ok tt)
  | line :: rest =>
      match check_line i line with
      | Ok (ok, report) =>
          validate_loop (S i) rest (if negb ok then false else all_good) (print w report)
      | Raise e => (all_good, w, Raise e)
      end
  end.

Definition validate (w : world) : world * result bool :=
  match output_file w with
  | None => (w, Raise FileNotFoundError)
  | Some f =>
      let lines := readlines f in
      let w := print w PValidationHeader in
      let '(all_good, w, r) := validate_loop 0 lines true w in
      match r with
      | Ok _ => (print w (PVerdict all_good), Ok all_good)
      | Raise e => (w, Raise e)
      end
  end.

(** The whole script. *)
Definition main (scenarios : list (gmap str pyval)) (w : world) : world * result bool :=
  let '(w, r) := generate scenarios w in
  match r with
  | Raise e => (w, Raise e)
  | Ok _ => validate (print w (PGenerated (length scenarios)))
  end.

End Python.

(** ** Anomaly records

    The typed view of a scenario: the thirteen fields the renderers
    read, with the types the data model gives them. *)

Section Records.
Context `{PyBuiltins}.

Record AnomalyRecord := {
  service : str;
  operation : str;
  duration : float;
  expected_mean : float;
  expected_std : float;
  deviation : float;
  severity : Z;
  severity_name : str;
  attributes : list (str * pyval);
  summary : str;
  causes : list str;
  recommendations : list str;
  confidence : str
}.

(** The scenario [s] carries the record's prompt fields. *)
Definition prompt_fields (s : gmap str pyval) (R : AnomalyRecord) : Prop :=
  s !! lit "service" = Some (VStr (service R)) /\
  s !! lit "operation" = Some (VStr (operation R)) /\
  s !! lit "duration" = Some (VFloat (duration R)) /\
  s !! lit "expected_mean" = Some (VFloat (expected_mean R)) /\
  s !! lit "expected_std" = Some (VFloat (expected_std R)) /\
  s !! lit "deviation" = Some (VFloat (deviation R)) /\
  s !! lit "severity" = Some (VInt (severity R)) /\
  s !! lit "severity_name" = Some (VStr (severity_name R)) /\
  s !! lit "attributes" = Some (VDict (attributes R)).

(** The scenario [s] carries the record's response fields. *)
Definition response_fields (s : gmap str pyval) (R : AnomalyRecord) : Prop :=
  s !! lit "summary" = Some (VStr (summary R)) /\
  s !! lit "causes" = Some (VList (List.map VStr (causes R))) /\
  s !! lit "recommendations" = Some (VList (List.map VStr (recommendations R))) /\
  s !! lit "confidence" = Some (VStr (confidence R)).

Definition represents (s : gmap str pyval) (R : AnomalyRecord) : Prop :=
  prompt_fields s R /\ response_fields s R.

Definition is_scalar (v : pyval) : bool :=
  match v with
  | VList _ | VDict _ => false
  | VNone | VBool _ | VInt _ | VFloat _ | VStr _ => true
  end.

Definition confidence_labels : list str := [lit "low"; lit "medium"; lit "high"].

(** The constraints of the data model: severity 1 to 4, scalar
    attributes under distinct keys, two or three causes and
    recommendations, a confidence label among the three.  The
    constraints on the floats (a positive duration, a non-negative mean
    and deviation) are left out: floats are abstract here, and the
    renderers only format them. *)
Definition valid (R : AnomalyRecord) : bool :=
  (1 <=? severity R)%Z && (severity R <=? 4)%Z &&
  forallb (fun kv => is_scalar (snd kv)) (attributes R) &&
  bool_decide (NoDup (List.map fst (attributes R))) &&
  (2 <=? length (causes R)) && (length (causes R) <=? 3) &&
  (2 <=? length (recommendations R)) && (length (recommendations R) <=? 3) &&
  existsb (str_eqb (confidence R)) confidence_labels.

(** A text without a line feed. *)
Definition single_line (t : str) : bool := forallb (fun c => negb (c =? 10)%N) t.

Definition single_line_texts (R : AnomalyRecord) : bool :=
  single_line (summary R) &&
  forallb single_line (causes R) &&
  forallb single_line (recommendations R).

(** ** The response, as the specification words it *)

(** [text.split("\n")] *)
Fixpoint split_lines (t : str) : list str :=
  match t with
  | [] => [[]]
  | c :: t' =>
      if (c =? 10)%N then [] :: split_lines t'
      else
        match split_lines t' with
        | l :: ls => (c :: l) :: ls
        | [] => [[c]]
        end
  end.

(** The lines of the four blocks of the response. *)
Definition response_lines (R : AnomalyRecord) : list str :=
  [lit "SUMMARY: " ++ summary R; lit "CAUSES:"] ++
  List.map (app (lit "- ")) (causes R) ++
  [lit "RECOMMENDATIONS:"] ++
  List.map (app (lit "- ")) (recommendations R) ++
  [lit "CONFIDENCE: " ++ confidence R].

(** The four-block shape of a response: its lines are the four blocks
    in order, none of them blank, and the text does not end in a line
    feed. *)
Definition four_blocks (R : AnomalyRecord) (out : str) : Prop :=
  split_lines out = response_lines R /\
  ~ In [] (split_lines out) /\
  last out <> Some LF.

(** The lines after the first line that is [marker]. *)
Fixpoint lines_after (marker : str) (lines : list str) : list str :=
  match lines with
  | [] => []
  | l :: rest => if str_eqb l marker then rest else lines_after marker rest
  end.

(** The leading lines that begin with a dash and a space. *)
Fixpoint take_bullets (lines : list str) : list str :=
  match lines with
  | [] => []
  | l :: rest => if startswith (lit "- ") l then l :: take_bullets rest else []
  end.

(** The bullet lines under a marker of a response. *)
Definition bullets_under (marker : str) (out : str) : list str :=
  take_bullets (lines_after marker (split_lines out)).

(** The bullet lines under a marker are the given texts, one line
    each, in order. *)
Definition bullets_match (marker : str) (texts : list str) (out : str) : Prop :=
  length (bullets_under marker out) = length texts /\
  forall i t, texts !! i = Some t -> bullets_under marker out !! i = Some (lit "- " ++ t).

(** The four marker checks of the validator. *)
Definition has_all_markers (out : str) : bool :=
  str_contains (lit "SUMMARY:") out && str_contains (lit "CAUSES:") out &&
  str_contains (lit "RECOMMENDATIONS:") out && str_contains (lit "CONFIDENCE:") out.

(** ** The prompt, as the specification words it *)

(** The fixed template: the framing text around the data-bearing
    segments. *)
Definition instruction_template
    (service operation duration mean std deviation severity attributes_block : str) : str :=
  lit "You are an expert in distributed systems and observability. Analyze this performance anomaly:

## Anomaly Details
- Service: " ++ service ++ lit "
- Operation: " ++ operation ++ lit "
- Duration: " ++ duration ++ lit "ms (expected: " ++ mean ++ lit "ms " ++ [plus_minus] ++
  lit " " ++ std ++ lit "ms)
- Deviation: " ++ deviation ++ [sigma] ++ lit " (standard deviations from mean)
- Severity: " ++ severity ++ lit "

## Span Attributes
" ++ attributes_block ++ lit "

Based on the trace data AND correlated metrics, provide:
1. A brief summary (1-2 sentences) of what likely caused this anomaly
2. 2-3 possible root causes (consider resource utilization if metrics show issues)
3. 2-3 actionable recommendations

Format your response as:
SUMMARY: [your summary]
CAUSES:
- [cause 1]
- [cause 2]
RECOMMENDATIONS:
- [recommendation 1]
- [recommendation 2]
CONFIDENCE: [low/medium/high]".

(** [SEV<level> (<name>)] *)
Definition severity_text (level : Z) (name : str) : str :=
  lit "SEV" ++ int_str level ++ lit " (" ++ name ++ lit ")".

(** A scalar attribute value as structured text. *)
Definition scalar_text (v : pyval) : str :=
  match v with
  | VNone => lit "null"
  | VBool true => lit "true"
  | VBool false => lit "false"
  | VInt z => int_str z
  | VFloat x => json_float x
  | VStr s => encode_basestring true s
  | VList _ | VDict _ => []
  end.

(** One attribute: two spaces, the quoted key, a colon and the value. *)
Definition attribute_line (kv : str * pyval) : str :=
  lit "  " ++ encode_basestring true (fst kv) ++ lit ": " ++ scalar_text (snd kv).

(** The attributes mapping: one indented line per attribute, in
    insertion order, between braces. *)
Definition attributes_block (attrs : list (str * pyval)) : str :=
  match attrs with
  | [] => lit "{}"
  | _ :: _ =>
      lit "{" ++ [LF] ++
      str_join (lit "," ++ [LF]) (List.map attribute_line attrs) ++
      [LF] ++ lit "}"
  end.

(** The prompt of a record. *)
Definition prompt_text (R : AnomalyRecord) : str :=
  instruction_template (service R) (operation R)
    (float_repr (duration R)) (float_repr (expected_mean R))
    (float_repr (expected_std R)) (float_repr (deviation R))
    (severity_text (severity R) (severity_name R))
    (attributes_block (attributes R)).

(** The text [build_output] returns, piece by piece. *)
Definition response_text (R : AnomalyRecord) : str :=
  lit "SUMMARY: " ++ summary R ++ [LF] ++ lit "CAUSES:" ++ [LF] ++
  str_join [LF] (List.map (app (lit "- ")) (causes R)) ++ [LF] ++
  lit "RECOMMENDATIONS:" ++ [LF] ++
  str_join [LF] (List.map (app (lit "- ")) (recommendations R)) ++ [LF] ++
  lit "CONFIDENCE: " ++ confidence R.

(** A character that is not a control character. *)
Definition printable (c : char) : Prop := (32 <= c)%N.

(** The keys each renderer reads. *)
Definition prompt_keys : list str :=
  [lit "service"; lit "operation"; lit "duration"; lit "expected_mean";
   lit "expected_std"; lit "deviation"; lit "severity"; lit "severity_name";
   lit "attributes"].

Definition response_keys : list str :=
  [lit "summary"; lit "causes"; lit "recommendations"; lit "confidence"].

(** Two scenarios agree on a set of keys. *)
Definition agree_on (keys : list str) (s1 s2 : gmap str pyval) : Prop :=
  forall k, In k keys -> s1 !! k = s2 !! k.

(** A line of the file decodes to an object whose output is [out]. *)
Definition line_output (line out : str) : Prop :=
  exists d, json_loads line = Ok d /\ py_getitem d (lit "output") = Ok (VStr out).

(** What the validator prints for the line at index [i]. *)
Definition report_of (i : nat) (out : str) : printed :=
  PReport i (has_all_markers out) (length out)
    (str_contains (lit "SUMMARY:") out) (str_contains (lit "CAUSES:") out)
    (str_contains (lit "RECOMMENDATIONS:") out) (str_contains (lit "CONFIDENCE:") out).

Fixpoint reports_from (i : nat) (outs : list str) : list printed :=
  match outs with
  | [] => []
  | out :: outs' => report_of i out :: reports_from (S i) outs'
  end.

(** The dict of a record. *)
Definition scenario_of (R : AnomalyRecord) : gmap str pyval :=
  list_to_map [
    (lit "service", VStr (service R));
    (lit "operation", VStr (operation R));
    (lit "duration", VFloat (duration R));
    (lit "expected_mean", VFloat (expected_mean R));
    (lit "expected_std", VFloat (expected_std R));
    (lit "deviation", VFloat (deviation R));
    (lit "severity", VInt (severity R));
    (lit "severity_name", VStr (severity_name R));
    (lit "attributes", VDict (attributes R));
    (lit "summary", VStr (summary R));
    (lit "causes", VList (List.map VStr (causes R)));
    (lit "recommendations", VList (List.map VStr (recommendations R)));
    (lit "confidence", VStr (confidence R))].

(** The training example of a record. *)
Definition example_of (instruction output : str) : pyval :=
  VDict [(lit "instruction", VStr instruction);
         (lit "input", VStr []);
         (lit "output", VStr output)].

(** ** Further notions *)

(** A scalar other than a float. *)
Definition is_plain (v : pyval) : bool :=
  match v with
  | VNone | VBool _ | VInt _ | VStr _ => true
  | VFloat _ | VList _ | VDict _ => false
  end.

(** A text of Unicode scalar values: no surrogate code point, and
    nothing above the last code point, U+10FFFF. *)
Definition scalar_values (t : str) : bool :=
  forallb (fun c => negb (is_surrogate c) && (c <? 1114112)%N) t.

(** An ASCII character. *)
Definition ascii_char (c : char) : Prop := (c < 128)%N.

(** The end of the prompt template: the skeleton of a response. *)
Definition response_skeleton : str :=
  lit "SUMMARY: [your summary]
CAUSES:
- [cause 1]
- [cause 2]
RECOMMENDATIONS:
- [recommendation 1]
- [recommendation 2]
CONFIDENCE: [low/medium/high]".

(** An [int] attribute whose digits the interpreter converts. *)
Definition bounded_int (v : pyval) : bool :=
  match v with
  | VInt z => negb (exceeds_max_str_digits z)
  | _ => true
  end.

Definition bounded_ints (R : AnomalyRecord) : bool :=
  forallb (fun kv => bounded_int (snd kv)) (attributes R).

(** The prompt and the response of the record hold no surrogate code
    point. *)
Definition encodable_texts (R : AnomalyRecord) : bool :=
  utf8_encodable (prompt_text R) && utf8_encodable (response_text R).

(** The generation loop can write the scenario, as the line of [e]. *)
Definition written_as (s : gmap str pyval) (e : pyval) : Prop :=
  make_entry s = Ok e /\ utf8_encodable (json_dumps false None e) = true.

(** The lines written for a list of entries. *)
Definition lines_of (entries : list pyval) : list str :=
  List.map (fun e => json_dumps false None e ++ [LF]) entries.

End Records.

(** ** Concrete inputs

    A reference interpretation of the builtins, in which a float is
    its decimal text, and scenarios to run the model on. *)

Definition text_builtins : PyBuiltins := {|
  float := str;
  float_repr := fun x => x;
  float_classify := fun t =>
    if str_eqb t (lit "nan") then FNaN
    else if str_eqb t (lit "inf") then FPosInf
    else if str_eqb t (lit "-inf") then FNegInf
    else FFinite;
  float_of_str := fun t => t;
  str_repr := fun s => lit "'" ++ s ++ lit "'";
  repr_depth := 8;
  json_depth := 8
|}.

Module Corpus.
#[local] Existing Instance text_builtins.

(** The first scenario of the script's corpus. *)
Definition record_0 : AnomalyRecord := {|
  service := lit "kx-exchange";
  operation := lit "pg-pool.connect";
  duration := lit "276.32";
  expected_mean := lit "2.58";
  expected_std := lit "1.82";
  deviation := lit "6.89";
  severity := 3;
  severity_name := lit "Warning";
  attributes := [(lit "db.system", VStr (lit "postgresql"));
                 (lit "db.connection_string", VStr (lit "pg-pool.connect"))];
  summary := lit "The pg-pool.connect operation took 276ms instead of the expected 2.58ms, indicating a connection pool exhaustion event. This is typically caused by either a burst of concurrent requests depleting available connections, or by idle connections being reaped by PostgreSQL while the pool was not replenished.";
  causes := [
    lit "Connection pool exhaustion due to a sudden spike in concurrent database requests exceeding the max pool size";
    lit "PostgreSQL's idle connection timeout may have closed stale connections, forcing new TCP handshakes";
    lit "DNS resolution delay for the database host during connection establishment"];
  recommendations := [
    lit "Increase the connection pool's min and max size to handle traffic spikes (current max may be too low for peak load)";
    lit "Configure connection pool idle timeout to match PostgreSQL's idle_in_transaction_session_timeout";
    lit "Add connection pool metrics (available, waiting, total) to the monitoring dashboard for early warning"];
  confidence := lit "high"
|}.

Definition scenario_0 : gmap str pyval := scenario_of record_0.

(** A small record, and variants of it. *)
Definition record_small : AnomalyRecord := {|
  service := lit "api";
  operation := lit "GET /";
  duration := lit "12.5";
  expected_mean := lit "3.0";
  expected_std := lit "1.5";
  deviation := lit "6.33";
  severity := 2;
  severity_name := lit "Major";
  attributes := [(lit "http.status_code", VInt 200)];
  summary := lit "slow";
  causes := [lit "load"; lit "gc"];
  recommendations := [lit "scale"; lit "tune"];
  confidence := lit "low"
|}.

(** The second cause ends in a line feed. *)
Definition record_trailing_lf : AnomalyRecord := {|
  service := service record_small;
  operation := operation record_small;
  duration := duration record_small;
  expected_mean := expected_mean record_small;
  expected_std := expected_std record_small;
  deviation := deviation record_small;
  severity := severity record_small;
  severity_name := severity_name record_small;
  attributes := attributes record_small;
  summary := summary record_small;
  causes := [lit "load"; lit "gc" ++ [LF]];
  recommendations := recommendations record_small;
  confidence := confidence record_small
|}.

(** The first cause spans two lines, the second of which begins with
    a dash and a space. *)
Definition record_two_line_cause : AnomalyRecord := {|
  service := service record_small;
  operation := operation record_small;
  duration := duration record_small;
  expected_mean := expected_mean record_small;
  expected_std := expected_std record_small;
  deviation := deviation record_small;
  severity := severity record_small;
  severity_name := severity_name record_small;
  attributes := attributes record_small;
  summary := summary record_small;
  causes := [lit "load" ++ [LF] ++ lit "- spike"; lit "gc"];
  recommendations := recommendations record_small;
  confidence := confidence record_small
|}.

(** Ten to the power 5000, a number of 5001 digits; minus ten to the
    power 4300, with the 4301 digits of the shortest numbers the
    interpreter refuses; and the largest number of 4300 digits. *)
Definition int_5001_digits : Z := Eval vm_compute in (10 ^ 5000)%Z.
Definition int_4301_digits : Z := Eval vm_compute in (- 10 ^ 4300)%Z.
Definition int_4300_digits : Z := Eval vm_compute in (10 ^ 4300 - 1)%Z.

(** The small record with each of them as an attribute. *)
Definition record_huge_attribute : AnomalyRecord := {|
  service := service record_small;
  operation := operation record_small;
  duration := duration record_small;
  expected_mean := expected_mean record_small;
  expected_std := expected_std record_small;
  deviation := deviation record_small;
  severity := severity record_small;
  severity_name := severity_name record_small;
  attributes := [(lit "http.response_content_length", VInt int_5001_digits)];
  summary := summary record_small;
  causes := causes record_small;
  recommendations := recommendations record_small;
  confidence := confidence record_small
|}.

Definition record_4301_digits : AnomalyRecord := {|
  service := service record_small;
  operation := operation record_small;
  duration := duration record_small;
  expected_mean := expected_mean record_small;
  expected_std := expected_std record_small;
  deviation := deviation record_small;
  severity := severity record_small;
  severity_name := severity_name record_small;
  attributes := [(lit "http.status_code", VInt 200); (lit "offset", VInt int_4301_digits)];
  summary := summary record_small;
  causes := causes record_small;
  recommendations := recommendations record_small;
  confidence := confidence record_small
|}.

Definition record_4300_digits : AnomalyRecord := {|
  service := service record_small;
  operation := operation record_small;
  duration := duration record_small;
  expected_mean := expected_mean record_small;
  expected_std := expected_std record_small;
  deviation := deviation record_small;
  severity := severity record_small;
  severity_name := severity_name record_small;
  attributes := [(lit "offset", VInt int_4300_digits)];
  summary := summary record_small;
  causes := causes record_small;
  recommendations := recommendations record_small;
  confidence := confidence record_small
|}.

(** The small record with a lone surrogate code point in its summary. *)
Definition record_surrogate : AnomalyRecord := {|
  service := service record_small;
  operation := operation record_small;
  duration := duration record_small;
  expected_mean := expected_mean record_small;
  expected_std := expected_std record_small;
  deviation := deviation record_small;
  severity := severity record_small;
  severity_name := severity_name record_small;
  attributes := attributes record_small;
  summary := lit "slow " ++ [55296%N];
  causes := causes record_small;
  recommendations := recommendations record_small;
  confidence := confidence record_small
|}.

(** The small record with other response fields, and with other prompt
    fields. *)
Definition record_other_response : AnomalyRecord := {|
  service := service record_small;
  operation := operation record_small;
  duration := duration record_small;
  expected_mean := expected_mean record_small;
  expected_std := expected_std record_small;
  deviation := deviation record_small;
  severity := severity record_small;
  severity_name := severity_name record_small;
  attributes := attributes record_small;
  summary := lit "very slow";
  causes := [lit "disk"; lit "lock"; lit "dns"];
  recommendations := [lit "cache"; lit "index"];
  confidence := lit "high"
|}.

Definition record_other_prompt : AnomalyRecord := {|
  service := lit "db";
  operation := lit "SELECT";
  duration := lit "99.0";
  expected_mean := lit "1.0";
  expected_std := lit "0.5";
  deviation := lit "196.0";
  severity := 1;
  severity_name := lit "Critical";
  attributes := [];
  summary := summary record_small;
  causes := causes record_small;
  recommendations := recommendations record_small;
  confidence := confidence record_small
|}.

(** A file of three lines, the second of which lacks three markers. *)
Definition complete_output : str :=
  lit "SUMMARY: a" ++ [LF] ++ lit "CAUSES:" ++ [LF] ++ lit "- b" ++ [LF] ++
  lit "RECOMMENDATIONS:" ++ [LF] ++ lit "- c" ++ [LF] ++ lit "CONFIDENCE: low".



(** The small record with the two lines of the first cause of
    [record_two_line_cause] as two causes. *)
Definition record_three_causes : AnomalyRecord := {|
  service := service record_small;
  operation := operation record_small;
  duration := duration record_small;
  expected_mean := expected_mean record_small;
  expected_std := expected_std record_small;
  deviation := deviation record_small;
  severity := severity record_small;
  severity_name := severity_name record_small;
  attributes := attributes record_small;
  summary := summary record_small;
  causes := [lit "load"; lit "spike"; lit "gc"];
  recommendations := recommendations record_small;
  confidence := confidence record_small
|}.


(** Scenario 1 of the corpus (line 33 of the script). *)
Definition record_1 : AnomalyRecord := {|
  service := lit "kx-exchange";
  operation := lit "pg.query:SELECT";
  duration := lit "845.12";
  expected_mean := lit "12.34";
  expected_std := lit "5.67";
  deviation := lit "14.7";
  severity := 2;
  severity_name := lit "Major";
  attributes := [(lit "db.system", VStr (lit "postgresql"));
                 (lit "db.statement", VStr (lit "SELECT * FROM orders WHERE user_id = $1"))];
  summary := lit "A SELECT query on the orders table took 845ms, far exceeding the 12ms baseline. This extreme deviation suggests the query hit a sequential scan instead of using the expected index, likely due to table bloat or an outdated query plan after a large batch of inserts.";
  causes := [
    lit "Missing or stale index on the orders table's user_id column, forcing a sequential scan";
    lit "PostgreSQL autovacuum has not run recently, causing table bloat and inflated page reads";
    lit "Lock contention from a concurrent long-running transaction holding a share lock on the orders table"];
  recommendations := [
    lit "Run EXPLAIN ANALYZE on the slow query to confirm whether the index is being used, and re-create the index if necessary";
    lit "Check pg_stat_user_tables for dead tuple count and trigger a manual VACUUM ANALYZE if autovacuum is lagging";
    lit "Consider adding a composite index on (user_id, created_at) for time-bounded order queries"];
  confidence := lit "high"
|}.

(** Scenario 2 of the corpus (line 56 of the script). *)
Definition record_2 : AnomalyRecord := {|
  service := lit "api-gateway";
  operation := lit "kong.proxy";
  duration := lit "1523.45";
  expected_mean := lit "45.2";
  expected_std := lit "22.1";
  deviation := lit "6.7";
  severity := 3;
  severity_name := lit "Warning";
  attributes := [(lit "http.method", VStr (lit "POST"));
                 (lit "http.route", VStr (lit "/api/v1/orders"));
                 (lit "http.status_code", VInt 200)];
  summary := lit "The Kong API gateway proxy took 1.5s to route a POST request to the orders endpoint, far above the 45ms baseline. This indicates downstream service latency rather than a gateway issue, as the request ultimately succeeded with a 200 status.";
  causes := [
    lit "The downstream kx-exchange service was experiencing high latency due to database connection pool exhaustion";
    lit "Kong's upstream health checks may have marked the primary target as unhealthy, causing a failover to a slower backup";
    lit "Network latency spike between the Kong gateway container and the upstream service container"];
  recommendations := [
    lit "Check the kx-exchange service's latency metrics around the same timestamp to identify if the delay originates from the application layer";
    lit "Review Kong's upstream health check configuration to ensure timeouts and thresholds are tuned for the expected response times";
    lit "Add request-level tracing correlation between Kong and downstream services for faster root cause isolation"];
  confidence := lit "medium"
|}.

(** Scenario 3 of the corpus (line 79 of the script). *)
Definition record_3 : AnomalyRecord := {|
  service := lit "kx-exchange";
  operation := lit "rabbitmq.publish";
  duration := lit "312.78";
  expected_mean := lit "3.45";
  expected_std := lit "2.11";
  deviation := lit "14.6";
  severity := 2;
  severity_name := lit "Major";
  attributes := [(lit "messaging.system", VStr (lit "rabbitmq"));
                 (lit "messaging.destination", VStr (lit "order.matched"))];
  summary := lit "Publishing a message to the RabbitMQ order.matched queue took 312ms instead of the expected 3.4ms. This suggests either a TCP connection re-establishment to the broker, publisher confirms blocking due to queue backpressure, or a RabbitMQ cluster partition event.";
  causes := [
    lit "AMQP connection was closed by RabbitMQ due to heartbeat timeout, forcing a reconnection during the publish attempt";
    lit "Publisher confirms mode is enabled and the broker is applying backpressure due to slow consumers on the order.matched queue";
    lit "RabbitMQ's memory alarm was triggered, causing all publishers to be temporarily blocked"];
  recommendations := [
    lit "Check RabbitMQ management UI for memory and disk alarms around the anomaly timestamp";
    lit "Review the consumer count and consumer utilization rate for the order.matched queue to identify potential bottlenecks";
    lit "Implement connection pooling and heartbeat monitoring for the AMQP client to detect and recover from silent disconnections faster"];
  confidence := lit "medium"
|}.

(** Scenario 4 of the corpus (line 102 of the script). *)
Definition record_4 : AnomalyRecord := {|
  service := lit "payment-processor";
  operation := lit "process.payment";
  duration := lit "2341.56";
  expected_mean := lit "125.8";
  expected_std := lit "45.3";
  deviation := lit "4.9";
  severity := 3;
  severity_name := lit "Warning";
  attributes := [(lit "payment.method", VStr (lit "crypto"));
                 (lit "payment.currency", VStr (lit "BTC"));
                 (lit "payment.amount", VStr (lit "0.5"))];
  summary := lit "Payment processing took 2.3s instead of the expected 125ms. Given the crypto payment method, this likely reflects blockchain confirmation latency or an external API call timeout to the price oracle, not an application-level issue.";
  causes := [
    lit "Bitcoin network congestion increasing the time to verify the transaction against the mempool";
    lit "External price oracle API (e.g., Binance) responded slowly due to rate limiting or temporary degradation";
    lit "Wallet balance verification required an additional RPC call to the Bitcoin node, adding round-trip latency"];
  recommendations := [
    lit "Implement circuit breaker pattern around external blockchain API calls with a fallback to cached prices";
    lit "Add a separate timeout for blockchain verification vs. internal payment logic to prevent cascading delays";
    lit "Consider asynchronous payment confirmation with webhook notifications instead of synchronous blocking"];
  confidence := lit "medium"
|}.

(** Scenario 5 of the corpus (line 125 of the script). *)
Definition record_5 : AnomalyRecord := {|
  service := lit "kx-exchange";
  operation := lit "order.match";
  duration := lit "567.89";
  expected_mean := lit "8.92";
  expected_std := lit "4.15";
  deviation := lit "13.5";
  severity := 1;
  severity_name := lit "Critical";
  attributes := [(lit "order.type", VStr (lit "limit"));
                 (lit "order.pair", VStr (lit "BTC/USDT"));
                 (lit "order.side", VStr (lit "buy"))];
  summary := lit "Order matching took 567ms instead of the expected 8.9ms, a critical 13.5" ++ [sigma] ++ lit " deviation. This indicates the order book data structure is severely degraded, likely due to an excessive number of open orders at similar price levels causing O(n) scans instead of the expected O(log n) tree lookups.";
  causes := [
    lit "Order book fragmentation with an unusually high number of limit orders at adjacent price levels, degrading the matching algorithm's performance";
    lit "A market data replay or bulk order import flooded the order book, temporarily overloading the matching engine";
    lit "Memory pressure causing the JIT-compiled matching logic to be deoptimized, falling back to interpreted execution"];
  recommendations := [
    lit "Profile the order book data structure under high cardinality scenarios and consider switching to a more cache-friendly implementation";
    lit "Implement order book depth limits that reject or queue new orders when the book exceeds a configurable threshold";
    lit "Add real-time order book depth metrics to the monitoring dashboard to detect saturation before it impacts matching latency"];
  confidence := lit "high"
|}.

(** Scenario 6 of the corpus (line 148 of the script). *)
Definition record_6 : AnomalyRecord := {|
  service := lit "kx-exchange";
  operation := lit "http.request";
  duration := lit "3125.0";
  expected_mean := lit "180.5";
  expected_std := lit "65.2";
  deviation := lit "4.5";
  severity := 4;
  severity_name := lit "Minor";
  attributes := [(lit "http.method", VStr (lit "GET"));
                 (lit "http.url", VStr (lit "/api/v1/market/orderbook/BTC-USDT"));
                 (lit "http.status_code", VInt 200)];
  summary := lit "The order book API endpoint took 3.1 seconds to respond, well above the 180ms baseline. The successful 200 status code rules out upstream failures; this is likely an application-level performance regression, possibly related to serializing a large order book response payload.";
  causes := [
    lit "Large order book payload (potentially tens of thousands of price levels) causing high JSON serialization overhead";
    lit "Node.js event loop blocking due to synchronous computation during order book aggregation";
    lit "Garbage collection pause in the V8 engine triggered by high memory allocation during response construction"];
  recommendations := [
    lit "Implement server-side pagination or depth limits for order book API responses to cap payload size";
    lit "Profile the order book serialization path with clinicjs or 0x to identify CPU-bound bottlenecks";
    lit "Consider pre-serializing and caching the order book snapshot and invalidating on book changes rather than constructing it per-request"];
  confidence := lit "medium"
|}.

(** Scenario 7 of the corpus (line 171 of the script). *)
Definition record_7 : AnomalyRecord := {|
  service := lit "kx-exchange";
  operation := lit "tcp.connect";
  duration := lit "450.23";
  expected_mean := lit "1.2";
  expected_std := lit "0.8";
  deviation := lit "56.1";
  severity := 1;
  severity_name := lit "Critical";
  attributes := [(lit "net.peer.name", VStr (lit "app-database"));
                 (lit "net.peer.port", VInt 5432)];
  summary := lit "TCP connection to the PostgreSQL database took 450ms instead of the expected 1.2ms. This extreme 56" ++ [sigma] ++ lit " deviation indicates a network-level issue, not an application bug. The container networking layer likely experienced a DNS resolution timeout or a TCP SYN retransmission.";
  causes := [
    lit "Docker DNS resolution timeout for the 'app-database' container hostname, possibly due to Docker's embedded DNS cache expiry";
    lit "TCP SYN packet loss causing a retransmission cycle with exponential backoff";
    lit "The app-database container was briefly unreachable during a Docker network reconfiguration or container restart"];
  recommendations := [
    lit "Add explicit /etc/hosts entries or use static IPs for critical database containers to avoid DNS resolution delays";
    lit "Monitor container restart events and correlate them with connection anomalies to identify infrastructure instability";
    lit "Implement connection pre-warming on service startup to detect database connectivity issues before handling traffic"];
  confidence := lit "high"
|}.

(** Scenario 8 of the corpus (line 194 of the script). *)
Definition record_8 : AnomalyRecord := {|
  service := lit "kx-exchange";
  operation := lit "pg.query:INSERT";
  duration := lit "189.45";
  expected_mean := lit "5.67";
  expected_std := lit "3.12";
  deviation := lit "5.9";
  severity := 3;
  severity_name := lit "Warning";
  attributes := [(lit "db.system", VStr (lit "postgresql"));
                 (lit "db.statement", VStr (lit "INSERT INTO transactions"))];
  summary := lit "An INSERT into the transactions table took 189ms instead of the expected 5.7ms. This is consistent with PostgreSQL's autovacuum running concurrently on the transactions table, causing I/O contention and increased write latency.";
  causes := [
    lit "Autovacuum running on the transactions table, competing for I/O bandwidth with the INSERT operation";
    lit "WAL (Write-Ahead Log) sync delay due to high write throughput exceeding the disk's sustained IOPS capacity";
    lit "Row-level lock contention from a concurrent transaction holding a lock on the same partition"];
  recommendations := [
    lit "Tune autovacuum parameters for the transactions table (reduce vacuum_cost_delay, increase vacuum_cost_limit) to minimize I/O impact";
    lit "Monitor WAL write latency and consider moving the WAL directory to a dedicated SSD if write latency is consistently high";
    lit "Consider table partitioning by date for the transactions table to reduce lock contention and autovacuum scope"];
  confidence := lit "medium"
|}.

(** Scenario 9 of the corpus (line 217 of the script). *)
Definition record_9 : AnomalyRecord := {|
  service := lit "kx-exchange";
  operation := lit "redis.get";
  duration := lit "125.67";
  expected_mean := lit "0.45";
  expected_std := lit "0.22";
  deviation := lit "56.9";
  severity := 2;
  severity_name := lit "Major";
  attributes := [(lit "db.system", VStr (lit "redis"));
                 (lit "db.operation", VStr (lit "GET"));
                 (lit "db.redis.key", VStr (lit "session:user:*"))];
  summary := lit "A Redis GET operation took 125ms instead of the expected 0.45ms. Redis is single-threaded, so this extreme latency indicates either a blocking command (KEYS, SAVE) running concurrently, or a Redis cluster failover in progress.";
  causes := [
    lit "A blocking command like KEYS or DEBUG SLEEP was executed by another client, blocking the event loop for all operations";
    lit "Redis RDB persistence (BGSAVE) was triggered, causing a fork and temporary memory pressure that delayed command processing";
    lit "Network partition between the application container and the Redis container caused a connection retry cycle"];
  recommendations := [
    lit "Replace KEYS usage with SCAN in all application code to prevent blocking the Redis event loop";
    lit "Switch from RDB snapshots to AOF persistence with everysec fsync to avoid BGSAVE-related latency spikes";
    lit "Add Redis SLOWLOG monitoring and alert when commands exceed 10ms to catch blocking operations early"];
  confidence := lit "high"
|}.

(** Scenario 10 of the corpus (line 240 of the script). *)
Definition record_10 : AnomalyRecord := {|
  service := lit "api-gateway";
  operation := lit "kong.auth";
  duration := lit "890.12";
  expected_mean := lit "15.3";
  expected_std := lit "8.7";
  deviation := lit "10.1";
  severity := 2;
  severity_name := lit "Major";
  attributes := [(lit "http.method", VStr (lit "POST"));
                 (lit "http.route", VStr (lit "/api/v1/orders"));
                 (lit "kong.plugin", VStr (lit "jwt"))];
  summary := lit "JWT authentication in Kong took 890ms instead of the expected 15ms. This suggests the JWT plugin's public key retrieval failed and triggered a retry, or the Kong database lookup for consumer credentials experienced a slow query.";
  causes := [
    lit "JWT public key cache miss forcing Kong to fetch the key from the database, which was under high load";
    lit "Kong's PostgreSQL database connection pool was exhausted, delaying the consumer credentials lookup";
    lit "DNS resolution failure for the JWKS endpoint causing a timeout and retry before falling back to cached keys"];
  recommendations := [
    lit "Increase Kong's JWT key cache TTL to reduce database lookups for public keys during traffic spikes";
    lit "Monitor Kong's database connection pool utilization and increase the pool size if it frequently hits the limit";
    lit "Pre-cache JWT keys on Kong startup and implement a background refresh instead of on-demand fetching"];
  confidence := lit "medium"
|}.

(** Scenario 11 of the corpus (line 263 of the script). *)
Definition record_11 : AnomalyRecord := {|
  service := lit "kx-exchange";
  operation := lit "websocket.broadcast";
  duration := lit "456.78";
  expected_mean := lit "2.1";
  expected_std := lit "1.5";
  deviation := lit "30.3";
  severity := 2;
  severity_name := lit "Major";
  attributes := [(lit "ws.clients", VInt 847);
                 (lit "ws.message_type", VStr (lit "orderbook_update"))];
  summary := lit "Broadcasting an order book update to 847 WebSocket clients took 456ms instead of the expected 2.1ms. The message fan-out is creating significant event loop blocking, likely because messages are being serialized individually per client instead of using a shared buffer.";
  causes := [
    lit "JSON serialization performed per-client instead of once, multiplying CPU work by the number of connected clients";
    lit "Node.js event loop saturation from synchronous iteration over 847 WebSocket connections in a tight loop";
    lit "TCP send buffer saturation for clients on slow connections, causing ws.send() to block waiting for drainage"];
  recommendations := [
    lit "Serialize the order book update once and broadcast the pre-serialized buffer to all clients to avoid redundant JSON.stringify calls";
    lit "Implement batched broadcasting with setImmediate() between chunks to yield the event loop and prevent blocking";
    lit "Add slow-client detection and disconnect clients that consistently fail to drain their send buffers within a threshold"];
  confidence := lit "high"
|}.

(** Scenario 12 of the corpus (line 286 of the script). *)
Definition record_12 : AnomalyRecord := {|
  service := lit "kx-exchange";
  operation := lit "pg.transaction";
  duration := lit "1234.56";
  expected_mean := lit "35.0";
  expected_std := lit "15.0";
  deviation := lit "8.0";
  severity := 2;
  severity_name := lit "Major";
  attributes := [(lit "db.system", VStr (lit "postgresql"));
                 (lit "db.operation", VStr (lit "transaction"));
                 (lit "transaction.type", VStr (lit "order_settlement"))];
  summary := lit "An order settlement transaction took 1.2s instead of the expected 35ms. The transaction involves multiple table updates (orders, wallets, transactions) and the delay is consistent with a deadlock retry, where two concurrent settlements competed for the same wallet rows.";
  causes := [
    lit "Deadlock between two concurrent order settlement transactions both attempting to update the same wallet balances in different orders";
    lit "A long-running read query holding a shared lock on the wallets table, blocking the exclusive lock needed for the balance update";
    lit "PostgreSQL serialization failure under SERIALIZABLE isolation level, causing an automatic retry with accumulated latency"];
  recommendations := [
    lit "Implement consistent lock ordering by always acquiring wallet locks in ascending user_id order to prevent circular deadlocks";
    lit "Use SELECT ... FOR UPDATE SKIP LOCKED to gracefully handle contention instead of blocking on locked rows";
    lit "Add deadlock detection metrics and log the deadlock graph details for post-mortem analysis of contention patterns"];
  confidence := lit "high"
|}.

(** Scenario 13 of the corpus (line 309 of the script). *)
Definition record_13 : AnomalyRecord := {|
  service := lit "kx-exchange";
  operation := lit "crypto.wallet.balance";
  duration := lit "678.9";
  expected_mean := lit "18.5";
  expected_std := lit "9.2";
  deviation := lit "7.2";
  severity := 3;
  severity_name := lit "Warning";
  attributes := [(lit "wallet.currency", VStr (lit "ETH"));
                 (lit "wallet.operation", VStr (lit "balance_check"))];
  summary := lit "Wallet balance check took 678ms instead of the expected 18ms. The delay likely stems from an uncached balance aggregation query that sums all transactions for the wallet instead of using a pre-computed balance column.";
  causes := [
    lit "Balance calculation using a SUM aggregate over the transactions table instead of reading a pre-computed balance column";
    lit "The transactions table has grown significantly and the aggregate query is performing a full table scan on the user's partition";
    lit "Connection pool starvation caused the balance check to wait for an available database connection"];
  recommendations := [
    lit "Implement a materialized balance column on the wallets table that is updated atomically during each transaction, eliminating the need for SUM aggregation";
    lit "Add a Redis cache layer for wallet balances with write-through invalidation on balance changes";
    lit "Create a partial index on transactions(wallet_id) WHERE settled = true to speed up balance aggregation queries"];
  confidence := lit "medium"
|}.

(** Scenario 14 of the corpus (line 332 of the script). *)
Definition record_14 : AnomalyRecord := {|
  service := lit "kx-exchange";
  operation := lit "jwt.verify";
  duration := lit "234.5";
  expected_mean := lit "1.8";
  expected_std := lit "0.9";
  deviation := lit "25.8";
  severity := 2;
  severity_name := lit "Major";
  attributes := [(lit "auth.method", VStr (lit "jwt"));
                 (lit "auth.token_length", VInt 1024)];
  summary := lit "JWT token verification took 234ms instead of the expected 1.8ms. This extreme deviation suggests the JWK key cache expired and a synchronous HTTP fetch to the JWKS endpoint was needed, or the token payload was unusually large requiring more computation.";
  causes := [
    lit "JWKS endpoint cache miss triggering a synchronous HTTP call to fetch the public key, adding network round-trip latency";
    lit "The JWT token contained an unusually large payload with embedded permissions, increasing cryptographic verification time";
    lit "Node.js crypto module contention due to multiple concurrent JWT verifications saturating the thread pool"];
  recommendations := [
    lit "Pre-fetch and cache JWKS keys on startup with a background refresh interval instead of on-demand fetching";
    lit "Limit JWT payload size by moving detailed permissions to a database lookup instead of embedding them in the token";
    lit "Use the UV_THREADPOOL_SIZE environment variable to increase the Node.js crypto thread pool for high-concurrency scenarios"];
  confidence := lit "high"
|}.

(** Scenario 15 of the corpus (line 355 of the script). *)
Definition record_15 : AnomalyRecord := {|
  service := lit "kx-exchange";
  operation := lit "market.data.aggregate";
  duration := lit "1890.23";
  expected_mean := lit "45.0";
  expected_std := lit "20.0";
  deviation := lit "9.2";
  severity := 2;
  severity_name := lit "Major";
  attributes := [(lit "market.pair", VStr (lit "BTC/USDT"));
                 (lit "market.timeframe", VStr (lit "1h"));
                 (lit "market.candles", VInt 720)];
  summary := lit "Market data aggregation for 720 hourly candles took 1.89s instead of the expected 45ms. The 30-day lookback window is generating a large dataset that requires significant CPU time for OHLCV calculation, exacerbated by the lack of pre-aggregated candlestick data.";
  causes := [
    lit "Computing OHLCV candles from raw trade data on every request instead of using pre-aggregated materialized views";
    lit "The trades table lacks a proper composite index on (pair, timestamp) for efficient range scans over the 30-day window";
    lit "Event loop blocking during the synchronous aggregation of 720 candle buckets from potentially millions of raw trades"];
  recommendations := [
    lit "Implement pre-computed candlestick data using PostgreSQL materialized views or a dedicated time-series store like TimescaleDB";
    lit "Add a composite index on trades(pair, created_at) and use a covering index that includes price and volume columns";
    lit "Offload heavy aggregation to a worker thread or background job and serve pre-computed results from cache"];
  confidence := lit "high"
|}.

(** Scenario 16 of the corpus (line 378 of the script). *)
Definition record_16 : AnomalyRecord := {|
  service := lit "kx-exchange";
  operation := lit "email.send";
  duration := lit "5432.1";
  expected_mean := lit "250.0";
  expected_std := lit "100.0";
  deviation := lit "5.2";
  severity := 4;
  severity_name := lit "Minor";
  attributes := [(lit "email.type", VStr (lit "order_confirmation"));
                 (lit "email.provider", VStr (lit "maildev"))];
  summary := lit "Sending an order confirmation email took 5.4 seconds instead of the expected 250ms. Since this is a development environment using MailDev, the delay is likely due to the MailDev container being under memory pressure or the SMTP connection timing out and retrying.";
  causes := [
    lit "MailDev container memory limit reached, causing slow response to incoming SMTP connections";
    lit "SMTP connection timeout and retry due to MailDev not responding to the initial connection attempt";
    lit "DNS resolution delay for the maildev container hostname in the Docker network"];
  recommendations := [
    lit "Move email sending to an async background queue so it does not block the order confirmation response";
    lit "Add SMTP connection health checks and pre-warm the SMTP connection pool on service startup";
    lit "In production, use a managed email service (e.g., SES, SendGrid) with async delivery and webhook confirmations"];
  confidence := lit "low"
|}.

(** Scenario 17 of the corpus (line 401 of the script). *)
Definition record_17 : AnomalyRecord := {|
  service := lit "kx-exchange";
  operation := lit "otel.export";
  duration := lit "789.0";
  expected_mean := lit "10.0";
  expected_std := lit "5.0";
  deviation := lit "15.6";
  severity := 3;
  severity_name := lit "Warning";
  attributes := [(lit "otel.exporter", VStr (lit "otlp"));
                 (lit "otel.spans_count", VInt 45);
                 (lit "otel.endpoint", VStr (lit "jaeger:4317"))];
  summary := lit "Exporting 45 spans via OTLP to Jaeger took 789ms instead of the expected 10ms. The telemetry pipeline is experiencing backpressure, likely because the Jaeger collector's gRPC endpoint is overloaded or the batch export buffer exceeded its configured size.";
  causes := [
    lit "Jaeger collector gRPC endpoint (port 4317) is saturated with incoming spans from multiple services simultaneously";
    lit "The OTLP batch exporter exceeded its maxQueueSize, triggering a synchronous flush that blocked the export operation";
    lit "Network congestion between the application container and the Jaeger container on the Docker bridge network"];
  recommendations := [
    lit "Increase the OTLP batch exporter's maxExportBatchSize and scheduledDelayMillis to reduce export frequency";
    lit "Monitor Jaeger collector's spans received/dropped rate and scale the collector if drops are occurring";
    lit "Ensure telemetry export is non-blocking by using an async export strategy that does not impact application request latency"];
  confidence := lit "medium"
|}.

(** Scenario 18 of the corpus (line 424 of the script). *)
Definition record_18 : AnomalyRecord := {|
  service := lit "kx-exchange";
  operation := lit "user.register";
  duration := lit "1567.89";
  expected_mean := lit "120.0";
  expected_std := lit "40.0";
  deviation := lit "3.6";
  severity := 4;
  severity_name := lit "Minor";
  attributes := [(lit "auth.method", VStr (lit "email"));
                 (lit "user.role", VStr (lit "trader"))];
  summary := lit "User registration took 1.5s instead of the expected 120ms. The registration flow involves password hashing (bcrypt), database insert, and welcome email, and the deviation is consistent with bcrypt's work factor being set higher than optimal for the server's CPU.";
  causes := [
    lit "Bcrypt password hashing with a high cost factor (e.g., 12+) consuming significant CPU time on the single-threaded event loop";
    lit "The welcome email send is synchronous and blocking the registration response while waiting for SMTP acknowledgment";
    lit "Database constraint checks (unique email, username) requiring full index scans on a large users table"];
  recommendations := [
    lit "Offload bcrypt hashing to a worker thread using worker_threads or a dedicated hashing microservice to avoid blocking the event loop";
    lit "Make the welcome email send asynchronous (fire-and-forget or queue-based) so registration completes immediately";
    lit "Review the bcrypt cost factor and calibrate it to complete within 100-250ms on the production hardware"];
  confidence := lit "medium"
|}.

(** Scenario 19 of the corpus (line 447 of the script). *)
Definition record_19 : AnomalyRecord := {|
  service := lit "kx-exchange";
  operation := lit "pg.query:UPDATE";
  duration := lit "423.0";
  expected_mean := lit "8.0";
  expected_std := lit "4.0";
  deviation := lit "10.4";
  severity := 2;
  severity_name := lit "Major";
  attributes := [(lit "db.system", VStr (lit "postgresql"));
                 (lit "db.statement", VStr (lit "UPDATE wallets SET balance = balance + $1 WHERE id = $2"))];
  summary := lit "A wallet balance UPDATE took 423ms instead of the expected 8ms. The row-level lock on the wallet was likely held by a concurrent transaction (e.g., another order settlement), causing this UPDATE to wait for lock acquisition before proceeding.";
  causes := [
    lit "Row-level lock contention on the wallet row: another concurrent transaction held a FOR UPDATE lock on the same wallet ID";
    lit "PostgreSQL's automatic deadlock detection triggered a rollback and retry cycle for this transaction";
    lit "The wallets table TOAST storage was triggered for a large JSONB metadata column, adding I/O overhead"];
  recommendations := [
    lit "Use advisory locks or application-level queuing for wallet balance updates to serialize access without relying on row locks";
    lit "Add pg_stat_activity monitoring for lock waits exceeding 100ms and alert on sustained lock contention";
    lit "Consider using optimistic concurrency control (version column) instead of pessimistic locking for wallet balance updates"];
  confidence := lit "high"
|}.

(** Scenario 20 of the corpus (line 470 of the script). *)
Definition record_20 : AnomalyRecord := {|
  service := lit "kx-exchange";
  operation := lit "price.feed.update";
  duration := lit "890.0";
  expected_mean := lit "5.0";
  expected_std := lit "3.0";
  deviation := lit "29.5";
  severity := 1;
  severity_name := lit "Critical";
  attributes := [(lit "feed.source", VStr (lit "binance"));
                 (lit "feed.pair", VStr (lit "BTC/USDT"));
                 (lit "feed.type", VStr (lit "websocket"))];
  summary := lit "Price feed update processing took 890ms instead of the expected 5ms. At 29.5" ++ [sigma] ++ lit " deviation, this is a critical anomaly indicating the WebSocket feed from Binance was interrupted and a full reconnection cycle occurred, including re-subscribing to all trading pairs.";
  causes := [
    lit "Binance WebSocket connection dropped due to Binance's 24-hour connection limit policy, necessitating a full reconnection";
    lit "Network instability caused the WebSocket ping/pong heartbeat to timeout, triggering an automatic reconnection";
    lit "The incoming price data burst after reconnection overwhelmed the message processing queue, creating a backlog"];
  recommendations := [
    lit "Implement proactive WebSocket reconnection before hitting Binance's 24-hour limit (reconnect at 23 hours)";
    lit "Add a fallback to the REST API for latest prices during WebSocket reconnection to prevent stale price display";
    lit "Buffer and deduplicate incoming price updates after reconnection to avoid processing the burst of catchup messages"];
  confidence := lit "high"
|}.

(** Scenario 21 of the corpus (line 493 of the script). *)
Definition record_21 : AnomalyRecord := {|
  service := lit "kx-exchange";
  operation := lit "middleware.rateLimit";
  duration := lit "345.67";
  expected_mean := lit "0.5";
  expected_std := lit "0.3";
  deviation := lit "115.1";
  severity := 1;
  severity_name := lit "Critical";
  attributes := [(lit "rate_limit.key", VStr (lit "user:1234"));
                 (lit "rate_limit.window", VStr (lit "60s"));
                 (lit "rate_limit.limit", VInt 100)];
  summary := lit "Rate limiting middleware took 345ms instead of the expected 0.5ms. This 115" ++ [sigma] ++ lit " deviation indicates the rate limiter's backing store (likely Redis or in-memory map) is experiencing severe latency, making every API request pay the cost of the rate limit check.";
  causes := [
    lit "The rate limiter is using a Redis-backed store and the Redis connection was lost, triggering reconnection and timeout";
    lit "An in-memory rate limiter's cleanup timer fired during the request, synchronously evicting expired entries from a large map";
    lit "The rate limiting algorithm (sliding window log) is performing O(n) operations on a large request log for high-traffic users"];
  recommendations := [
    lit "Switch to a fixed window or token bucket algorithm with O(1) lookup complexity instead of sliding window log";
    lit "Add a circuit breaker around the rate limiter: if the backing store is slow, fail open rather than adding latency to all requests";
    lit "Monitor rate limiter latency as a separate metric and alert when p99 exceeds 10ms"];
  confidence := lit "high"
|}.

(** The corpus of the script, in its order. *)
Definition records : list AnomalyRecord :=
  [record_0; record_1; record_2; record_3; record_4; record_5;
   record_6; record_7; record_8; record_9; record_10; record_11;
   record_12; record_13; record_14; record_15; record_16; record_17;
   record_18; record_19; record_20; record_21].

Definition scenarios : list (gmap str pyval) := List.map scenario_of records.

End Corpus.

(** * Properties *)

Section Properties.
Context `{PyBuiltins}.

(** ** Strings *)

Lemma startswith_app (m b : str) : startswith m (m ++ b) = true.
Proof.
  induction m as [|c m IH]; simpl; [reflexivity|].
  rewrite N.eqb_refl. exact IH.
Qed.

Lemma str_contains_app (a m b : str) : str_contains m (a ++ m ++ b) = true.
Proof.
  induction a as [|c a IH]; simpl.
  - pose proof (startswith_app m b) as Hp.
    destruct (m ++ b); simpl; rewrite Hp; reflexivity.
  - rewrite IH. apply orb_true_r.
Qed.

Lemma str_contains_at (a b m t : str) : t = a ++ m ++ b -> str_contains m t = true.
Proof. intros ->. apply str_contains_app. Qed.

Lemma getitem_Some (s : gmap str pyval) k v : s !! k = Some v -> getitem s k = Ok v.
Proof. unfold getitem. intros ->. reflexivity. Qed.

Lemma getitem_None (s : gmap str pyval) k : s !! k = None -> getitem s k = Raise (KeyError k).
Proof. unfold getitem. intros ->. reflexivity. Qed.

(** ** Formatting *)

Lemma max_str_bound_power : max_str_bound = (10 ^ max_str_digits)%Z.
Proof. vm_compute. reflexivity. Qed.

(** An [int] is refused exactly when it is, in absolute value, at
    least ten to the power 4300. *)
Lemma exceeds_max_str_digits_spec (z : Z) :
  exceeds_max_str_digits z = true <-> (10 ^ 4300 <= Z.abs z)%Z.
Proof.
  unfold exceeds_max_str_digits. rewrite max_str_bound_power. apply Z.leb_le.
Qed.

Lemma max_str_digits_bound (z : Z) :
  (Z.abs z < 10)%Z -> exceeds_max_str_digits z = false.
Proof.
  intros Hz. unfold exceeds_max_str_digits. apply Z.leb_gt.
  rewrite max_str_bound_power.
  pose proof (Z.pow_le_mono_r 10 1 max_str_digits ltac:(lia)
                ltac:(unfold max_str_digits; lia)) as Hb.
  rewrite Z.pow_1_r in Hb.
  generalize dependent (10 ^ max_str_digits)%Z. intros; lia.
Qed.

Lemma py_format_str (t : str) : py_format (VStr t) = Ok t.
Proof. reflexivity. Qed.

Lemma py_format_float (x : float) : py_format (VFloat x) = Ok (float_repr x).
Proof. reflexivity. Qed.

Lemma py_format_int (z : Z) :
  exceeds_max_str_digits z = false -> py_format (VInt z) = Ok (int_str z).
Proof. intros Hz. unfold py_format. cbn [check_value]. rewrite Hz. reflexivity. Qed.

Lemma bullets_texts (l : list str) :
  bullets (List.map VStr l) = Ok (List.map (app (lit "- ")) l).
Proof.
  induction l as [|t l IH]; [reflexivity|].
  cbn [List.map bullets]. unfold bullet. rewrite py_format_str. cbn [bind].
  rewrite IH. reflexivity.
Qed.

(** ** The response renderer on a record *)

Lemma build_output_text s R :
  response_fields s R -> build_output s = Ok (response_text R).
Proof.
  intros (Hsum & Hc & Hr & Hconf). unfold build_output.
  rewrite (getitem_Some _ _ _ Hc), (getitem_Some _ _ _ Hr),
    (getitem_Some _ _ _ Hsum), (getitem_Some _ _ _ Hconf).
  cbn [bind py_iter]. rewrite !bullets_texts. cbn [bind].
  rewrite !py_format_str. cbn [bind].
  unfold response_text. f_equal.
Qed.

Lemma response_text_markers R : has_all_markers (response_text R) = true.
Proof.
  unfold has_all_markers.
  set (cs := str_join [LF] (List.map (app (lit "- ")) (causes R))).
  set (rs := str_join [LF] (List.map (app (lit "- ")) (recommendations R))).
  rewrite (str_contains_at [] (lit " " ++ summary R ++ [LF] ++ lit "CAUSES:" ++ [LF] ++
             cs ++ [LF] ++ lit "RECOMMENDATIONS:" ++ [LF] ++ rs ++ [LF] ++
             lit "CONFIDENCE: " ++ confidence R)) by reflexivity.
  rewrite (str_contains_at (lit "SUMMARY: " ++ summary R ++ [LF])
             ([LF] ++ cs ++ [LF] ++ lit "RECOMMENDATIONS:" ++ [LF] ++ rs ++ [LF] ++
              lit "CONFIDENCE: " ++ confidence R))
    by (unfold response_text; fold cs rs; rewrite <- !app_assoc; reflexivity).
  rewrite (str_contains_at (lit "SUMMARY: " ++ summary R ++ [LF] ++ lit "CAUSES:" ++ [LF] ++
              cs ++ [LF])
             ([LF] ++ rs ++ [LF] ++ lit "CONFIDENCE: " ++ confidence R))
    by (unfold response_text; fold cs rs; rewrite <- !app_assoc; reflexivity).
  rewrite (str_contains_at (lit "SUMMARY: " ++ summary R ++ [LF] ++ lit "CAUSES:" ++ [LF] ++
              cs ++ [LF] ++ lit "RECOMMENDATIONS:" ++ [LF] ++ rs ++ [LF])
             (lit " " ++ confidence R))
    by (unfold response_text; fold cs rs; rewrite <- !app_assoc; reflexivity).
  reflexivity.
Qed.

(** ** Decoding what the encoder wrote *)

Lemma below_32 (P : N -> Prop) :
  List.Forall P (List.map N.of_nat (seq 0 32)) -> forall c, (c < 32)%N -> P c.
Proof.
  intros HF c Hc. rewrite List.Forall_forall in HF. apply HF.
  apply List.in_map_iff. exists (N.to_nat c). split; [lia|].
  apply List.in_seq. lia.
Qed.

(** One escaped character is read back as the character. *)
Lemma scanstring_escape_char (c : char) (rest : str) :
  scanstring (escape_char false c ++ rest) =
  ('(t, r) <- scanstring rest ;; Ok (c :: t, r)).
Proof.
  destruct (N.ltb_spec c 32) as [Hlt|Hge].
  - revert c Hlt rest. apply (below_32 (fun c => forall rest, _ = _)).
    repeat constructor; intros [|b [|u s4]]; reflexivity.
  - unfold escape_char.
    destruct (N.eqb_spec c 34) as [->|H34]; [reflexivity|].
    destruct (N.eqb_spec c 92) as [->|H92]; [reflexivity|].
    destruct (N.eqb_spec c 10) as [->|_]; [reflexivity|].
    destruct (N.eqb_spec c 13) as [->|_]; [reflexivity|].
    destruct (N.eqb_spec c 9) as [->|_]; [reflexivity|].
    destruct (N.eqb_spec c 12) as [->|_]; [reflexivity|].
    destruct (N.eqb_spec c 8) as [->|_]; [reflexivity|].
    destruct (N.ltb_spec c 32) as [Hlt|_]; [lia|].
    cbn [andb app scanstring].
    destruct (N.eqb_spec c 34) as [?|_]; [contradiction|].
    destruct (N.eqb_spec c 92) as [?|_]; [contradiction|].
    destruct (N.ltb_spec c 32) as [Hlt|_]; [lia|].
    reflexivity.
Qed.

Lemma escape_body_cons b c s :
  escape_body b (c :: s) = escape_char b c ++ escape_body b s.
Proof. reflexivity. Qed.

(** A string body, up to its closing quote, is read back as the string. *)
Lemma scanstring_escape_body (s rest : str) :
  scanstring (escape_body false s ++ DQ :: rest) = Ok (s, rest).
Proof.
  induction s as [|c s IH].
  - reflexivity.
  - rewrite escape_body_cons, <- app_assoc, scanstring_escape_char, IH.
    reflexivity.
Qed.

Lemma scan_once_string fuel (s rest : str) :
  scan_once (S fuel) (DQ :: escape_body false s ++ DQ :: rest) = Ok (VStr s, rest).
Proof.
  cbn [scan_once]. change (DQ =? 34)%N with true. cbn iota.
  rewrite scanstring_escape_body. reflexivity.
Qed.

Lemma parse_members_last fuel k (key v rest : str) :
  parse_members (scan_once (S fuel)) (S k)
    (escape_body false key ++ DQ :: 58%N :: 32%N :: DQ ::
     escape_body false v ++ DQ :: 125%N :: rest)
  = Ok ([(key, VStr v)], rest).
Proof.
  cbn [parse_members]. rewrite scanstring_escape_body. cbn [bind].
  simpl skip_ws.
  change (58 =? 58)%N with true. cbn iota. simpl skip_ws.
  rewrite scan_once_string. cbn [bind]. reflexivity.
Qed.

Lemma parse_members_more fuel k (key v more : str) :
  parse_members (scan_once (S fuel)) (S k)
    (escape_body false key ++ DQ :: 58%N :: 32%N :: DQ ::
     escape_body false v ++ DQ :: 44%N :: 32%N :: DQ :: more)
  = ('(rest, r) <- parse_members (scan_once (S fuel)) k more ;;
     Ok ((key, VStr v) :: rest, r)).
Proof.
  cbn [parse_members]. rewrite scanstring_escape_body. cbn [bind].
  simpl skip_ws.
  change (58 =? 58)%N with true. cbn iota. simpl skip_ws.
  rewrite scan_once_string. cbn [bind]. reflexivity.
Qed.

Lemma scan_once_object fuel (s1 : str) :
  scan_once (S fuel) (123%N :: s1) =
  ('(pairs, r) <- parse_object (scan_once fuel) fuel s1 ;;
   Ok (VDict (dict_of_pairs pairs), r)).
Proof. reflexivity. Qed.

(** An object of three string members, as the encoder lays it out. *)
Lemma scan_once_object3 fuel (k1 v1 k2 v2 k3 v3 rest : str) :
  scan_once (S (S (S (S fuel))))
    (123%N :: DQ :: escape_body false k1 ++ DQ :: 58%N :: 32%N :: DQ ::
     escape_body false v1 ++ DQ :: 44%N :: 32%N :: DQ ::
     escape_body false k2 ++ DQ :: 58%N :: 32%N :: DQ ::
     escape_body false v2 ++ DQ :: 44%N :: 32%N :: DQ ::
     escape_body false k3 ++ DQ :: 58%N :: 32%N :: DQ ::
     escape_body false v3 ++ DQ :: 125%N :: rest) =
  Ok (VDict (dict_of_pairs [(k1, VStr v1); (k2, VStr v2); (k3, VStr v3)]), rest).
Proof.
  rewrite scan_once_object. unfold parse_object. simpl skip_ws.
  change (DQ =? 125)%N with false. change (DQ =? 34)%N with true. cbn iota.
  rewrite !parse_members_more, parse_members_last. reflexivity.
Qed.

(** The text of a serialized example, as the decoder walks it. *)
Lemma dumps_example_text (i o : str) :
  json_dumps false None (example_of i o) =
  123%N :: DQ :: escape_body false (lit "instruction") ++ DQ :: 58%N :: 32%N :: DQ ::
  escape_body false i ++ DQ :: 44%N :: 32%N :: DQ ::
  escape_body false (lit "input") ++ DQ :: 58%N :: 32%N :: DQ ::
  escape_body false [] ++ DQ :: 44%N :: 32%N :: DQ ::
  escape_body false (lit "output") ++ DQ :: 58%N :: 32%N :: DQ ::
  escape_body false o ++ DQ :: [125%N].
Proof.
  unfold json_dumps, example_of. cbn [json_encode List.map str_join fst snd].
  unfold encode_basestring.
  repeat first [rewrite <- List.app_assoc | rewrite <- List.app_comm_cons].
  reflexivity.
Qed.

Lemma scan_once_example fuel (i o rest : str) :
  4 <= fuel ->
  scan_once fuel (json_dumps false None (example_of i o) ++ rest) =
  Ok (example_of i o, rest).
Proof.
  intros Hfuel. destruct fuel as [|[|[|[|fuel]]]]; try lia.
  rewrite dumps_example_text.
  repeat first [rewrite <- List.app_assoc | rewrite <- List.app_comm_cons].
  exact (scan_once_object3 fuel (lit "instruction") i (lit "input") []
           (lit "output") o rest).
Qed.

Lemma dumps_example_length (i o : str) :
  4 <= length (json_dumps false None (example_of i o)).
Proof.
  rewrite dumps_example_text. cbn [length]. rewrite !length_app. cbn [length]. lia.
Qed.

(** A serialized example, with white space after it, decodes to the
    example. *)
Lemma loads_example (i o ws : str) :
  skip_ws ws = [] ->
  json_loads (json_dumps false None (example_of i o) ++ ws) = Ok (example_of i o).
Proof.
  intros Hws. unfold json_loads.
  assert (Hhead : exists t, json_dumps false None (example_of i o) = 123%N :: t)
    by (rewrite dumps_example_text; eauto).
  destruct Hhead as [t Ht].
  assert (Hbom : startswith [65279%N] (json_dumps false None (example_of i o) ++ ws)
                 = false) by (rewrite Ht; reflexivity).
  assert (Hskip : skip_ws (json_dumps false None (example_of i o) ++ ws)
                  = json_dumps false None (example_of i o) ++ ws)
    by (rewrite Ht; reflexivity).
  rewrite Hbom, Hskip, scan_once_example.
  - cbn [bind]. rewrite Hws. reflexivity.
  - pose proof (dumps_example_length i o). rewrite length_app. lia.
Qed.

Lemma loads_example_line (i o : str) :
  json_loads (json_dumps false None (example_of i o) ++ [LF]) = Ok (example_of i o).
Proof. apply loads_example. reflexivity. Qed.

(** ** Lines of the written file *)

Lemma hexdigit_printable n : printable (hexdigit n).
Proof. unfold printable, hexdigit. destruct (n <? 10)%N; lia. Qed.

Lemma escape_char_printable c : Forall printable (escape_char false c).
Proof.
  unfold escape_char.
  repeat match goal with
         | |- context [if (?a =? ?b)%N then _ else _] =>
             destruct (N.eqb_spec a b) as [->|?];
             [repeat constructor; unfold printable, BSL, DQ; lia|]
         end.
  destruct (N.ltb_spec c 32) as [_|Hc].
  - unfold u_escape, hex4.
    repeat constructor; try apply hexdigit_printable; unfold printable, BSL; lia.
  - cbn [andb]. repeat constructor. exact Hc.
Qed.

Lemma escape_body_printable s : Forall printable (escape_body false s).
Proof.
  induction s as [|c s IH]; [constructor|].
  rewrite escape_body_cons. apply Forall_app. split; [apply escape_char_printable|exact IH].
Qed.

(** A serialized example holds no control character, hence no line break. *)
Lemma dumps_example_printable (i o : str) :
  Forall printable (json_dumps false None (example_of i o)).
Proof.
  rewrite dumps_example_text.
  repeat first
    [ apply Forall_cons; split; [unfold printable, DQ; lia|]
    | apply Forall_app; split; [apply escape_body_printable|]
    | apply Forall_nil ].
  constructor.
Qed.

Lemma readlines_from_line (body : str) :
  Forall printable body ->
  forall cur rest,
    readlines_from cur (body ++ LF :: rest) = (cur ++ body ++ [LF]) :: readlines_from [] rest.
Proof.
  induction 1 as [|c body Hc _ IH]; intros cur rest.
  - reflexivity.
  - cbn [app readlines_from]. unfold printable in Hc.
    destruct (N.eqb_spec c 10) as [->|_]; [lia|].
    destruct (N.eqb_spec c 13) as [->|_]; [lia|].
    rewrite IH, <- app_assoc. reflexivity.
Qed.

Lemma readlines_lines (bodies : list str) :
  Forall (Forall printable) bodies ->
  readlines (concat (List.map (fun b => b ++ [LF]) bodies)) =
  List.map (fun b => b ++ [LF]) bodies.
Proof.
  unfold readlines. induction 1 as [|b bodies Hb _ IH]; [reflexivity|].
  cbn [List.map concat]. rewrite <- app_assoc. cbn [app].
  rewrite (readlines_from_line b Hb), IH. reflexivity.
Qed.

(** ** The generation loop *)

Lemma make_entry_shape s e :
  make_entry s = Ok e -> exists i o, e = example_of i o.
Proof.
  unfold make_entry. destruct (build_instruction s) as [i|]; [|discriminate].
  destruct (build_output s) as [o|]; [|discriminate].
  cbn [bind]. intros [= <-]. eauto.
Qed.

Lemma py_json_dumps_example (i o : str) :
  py_json_dumps false None (example_of i o) = Ok (json_dumps false None (example_of i o)).
Proof. reflexivity. Qed.

Lemma utf8_encodable_app (a b : str) :
  utf8_encodable (a ++ b) = utf8_encodable a && utf8_encodable b.
Proof. apply forallb_app. Qed.

(** The body of the loop, on a scenario whose entry is [e]: the line
    of [e] is written. *)
Lemma write_entry_line s e (f : str) :
  make_entry s = Ok e ->
  write_entry s f = file_write f (json_dumps false None e ++ [LF]).
Proof.
  intros He. destruct (make_entry_shape s e He) as (i & o & ->).
  unfold write_entry. rewrite He. cbn [bind]. rewrite py_json_dumps_example. reflexivity.
Qed.

Lemma write_entry_ok s e (f : str) :
  written_as s e -> write_entry s f = Ok (f ++ json_dumps false None e ++ [LF]).
Proof.
  intros [He Henc]. rewrite (write_entry_line s e f He). unfold file_write.
  rewrite utf8_encodable_app, Henc. reflexivity.
Qed.

Lemma write_entry_acc s (f : str) :
  write_entry s f = (t <- write_entry s [] ;; Ok (f ++ t)).
Proof.
  unfold write_entry. destruct (make_entry s) as [e|x]; [|reflexivity]. cbn [bind].
  destruct (py_json_dumps false None e) as [line|x]; [|reflexivity]. cbn [bind].
  unfold file_write. destruct (utf8_encodable (line ++ [LF])); reflexivity.
Qed.

Lemma write_entries_acc scenarios (f : str) :
  write_entries scenarios f =
  (f ++ fst (write_entries scenarios []), snd (write_entries scenarios [])).
Proof.
  revert f. induction scenarios as [|s scenarios IH]; intros f; cbn [write_entries].
  - rewrite app_nil_r. reflexivity.
  - rewrite (write_entry_acc s f).
    destruct (write_entry s []) as [t|x]; cbn [bind fst snd].
    + rewrite (IH (f ++ t)), (IH t). cbn [fst snd].
      rewrite <- app_assoc. reflexivity.
    + rewrite app_nil_r. reflexivity.
Qed.

(** When every entry can be built and encoded, the file is the lines
    of the entries, in order. *)
Lemma write_entries_ok scenarios (entries : list pyval) :
  Forall2 written_as scenarios entries ->
  write_entries scenarios [] =
  (concat (List.map (fun e => json_dumps false None e ++ [LF]) entries), Ok tt).
Proof.
  induction 1 as [|s e scenarios entries Hs _ IH]; [reflexivity|].
  cbn [write_entries]. rewrite (write_entry_ok s e [] Hs), write_entries_acc, IH.
  reflexivity.
Qed.

(** ** The prompt renderer on a record *)

Lemma str_join_indent (ind sep : str) (parts : list str) :
  parts <> [] ->
  ind ++ str_join (sep ++ ind) parts = str_join sep (List.map (app ind) parts).
Proof.
  induction parts as [|p parts IH]; [congruence|]. intros _.
  destruct parts as [|q parts]; [reflexivity|].
  change (str_join (sep ++ ind) (p :: q :: parts))
    with (p ++ (sep ++ ind) ++ str_join (sep ++ ind) (q :: parts)).
  change (str_join sep (List.map (app ind) (p :: q :: parts)))
    with ((ind ++ p) ++ sep ++ str_join sep (List.map (app ind) (q :: parts))).
  rewrite <- IH by congruence. rewrite <- !app_assoc. reflexivity.
Qed.

Lemma indent_block (opening closing ind sep : str) (parts : list str) :
  parts <> [] ->
  opening ++ ([LF] ++ ind) ++ str_join (sep ++ [LF] ++ ind) parts ++ [LF] ++ closing =
  opening ++ [LF] ++ str_join (sep ++ [LF]) (List.map (app ind) parts) ++ [LF] ++ closing.
Proof.
  intros Hne. rewrite <- (str_join_indent ind (sep ++ [LF])) by exact Hne.
  rewrite <- !app_assoc. reflexivity.
Qed.

Lemma encode_scalar level (v : pyval) :
  is_scalar v = true -> json_encode true (Some 2) level v = scalar_text v.
Proof. destruct v as [| [|] | | | | |]; try reflexivity; discriminate. Qed.

(** [json.dumps(attributes, indent=2)] on a flat mapping is the
    attributes block. *)
Lemma dumps_attributes (attrs : list (str * pyval)) :
  forallb (fun kv => is_scalar (snd kv)) attrs = true ->
  json_dumps true (Some 2) (VDict attrs) = attributes_block attrs.
Proof.
  intros Hflat. destruct attrs as [|kv attrs]; [reflexivity|].
  unfold json_dumps, attributes_block. cbn [json_encode].
  set (l := kv :: attrs) in *.
  assert (Hl : l <> []) by (subst l; congruence).
  assert (Hlines :
    List.map (fun kv => encode_basestring true (fst kv) ++ lit ": " ++
                        json_encode true (Some 2) 1 (snd kv)) l =
    List.map (fun kv => encode_basestring true (fst kv) ++ lit ": " ++ scalar_text (snd kv)) l).
  { apply List.map_ext_in. intros kv' Hin.
    rewrite List.forallb_forall in Hflat. rewrite (encode_scalar 1); [reflexivity|].
    apply Hflat. exact Hin. }
  rewrite Hlines.
  change (newline_indent 2 1) with ([LF] ++ lit "  ").
  change (newline_indent 2 0) with [LF].
  rewrite (indent_block (lit "{") (lit "}") (lit "  ") (lit ","))
    by (subst l; discriminate).
  rewrite List.map_map. reflexivity.
Qed.

(** [build_instruction] on a scenario that carries a record: the
    template around the formatted fields. *)
Lemma check_value_flat depth (attrs : list (str * pyval)) :
  forallb (fun kv => is_scalar (snd kv)) attrs = true ->
  forallb (fun kv => bounded_int (snd kv)) attrs = true ->
  check_value (S depth) (VDict attrs) = Ok tt.
Proof.
  cbn [check_value]. induction attrs as [|[k v] attrs IH]; [reflexivity|].
  cbn [forallb snd]. intros [Hv Hflat]%andb_prop [Hb Hbounded]%andb_prop.
  rewrite (IH Hflat Hbounded).
  destruct v as [| | z | | | |]; try reflexivity; try discriminate.
  cbn [check_value]. cbn [bounded_int] in Hb. apply negb_true_iff in Hb.
  rewrite Hb. reflexivity.
Qed.

Lemma build_instruction_fields s R :
  prompt_fields s R ->
  exceeds_max_str_digits (severity R) = false ->
  check_value (S json_depth) (VDict (attributes R)) = Ok tt ->
  build_instruction s =
  Ok (instruction_template (service R) (operation R)
        (float_repr (duration R)) (float_repr (expected_mean R))
        (float_repr (expected_std R)) (float_repr (deviation R))
        (severity_text (severity R) (severity_name R))
        (json_dumps true (Some 2) (VDict (attributes R)))).
Proof.
  intros (H1 & H2 & H3 & H4 & H5 & H6 & H7 & H8 & H9) Hsev Hattrs.
  unfold build_instruction.
  rewrite (getitem_Some _ _ _ H1), (getitem_Some _ _ _ H2), (getitem_Some _ _ _ H3),
    (getitem_Some _ _ _ H4), (getitem_Some _ _ _ H5), (getitem_Some _ _ _ H6),
    (getitem_Some _ _ _ H7), (getitem_Some _ _ _ H8), (getitem_Some _ _ _ H9).
  cbn [bind]. rewrite !py_format_str, !py_format_float, (py_format_int _ Hsev).
  unfold py_json_dumps. rewrite Hattrs. cbn [bind].
  unfold instruction_template, severity_text. f_equal.
  rewrite <- !app_assoc. reflexivity.
Qed.

(** ** Lines of the response *)

Lemma single_line_app (a b : str) :
  single_line (a ++ b) = single_line a && single_line b.
Proof. apply forallb_app. Qed.

Lemma split_lines_single (t : str) : single_line t = true -> split_lines t = [t].
Proof.
  induction t as [|c t IH]; [reflexivity|]. cbn [single_line forallb split_lines].
  intros [Hc Ht]%andb_prop. destruct (c =? 10)%N; [discriminate|].
  unfold single_line in IH. rewrite (IH Ht). reflexivity.
Qed.

Lemma split_lines_line (t rest : str) :
  single_line t = true -> split_lines (t ++ LF :: rest) = t :: split_lines rest.
Proof.
  induction t as [|c t IH]; [reflexivity|]. cbn [single_line forallb split_lines app].
  intros [Hc Ht]%andb_prop. destruct (c =? 10)%N; [discriminate|].
  unfold single_line in IH. rewrite (IH Ht). reflexivity.
Qed.

Lemma str_join_cons (sep p : str) (parts : list str) :
  parts <> [] -> str_join sep (p :: parts) = p ++ sep ++ str_join sep parts.
Proof. destruct parts; [congruence|reflexivity]. Qed.

Lemma str_join_app (sep : str) (l1 l2 : list str) :
  l1 <> [] -> l2 <> [] ->
  str_join sep (l1 ++ l2) = str_join sep l1 ++ sep ++ str_join sep l2.
Proof.
  intros H1 H2. induction l1 as [|p l1 IH]; [congruence|].
  destruct l1 as [|q l1].
  - cbn [app]. rewrite str_join_cons by exact H2. reflexivity.
  - change ((p :: q :: l1) ++ l2) with (p :: (q :: l1) ++ l2).
    rewrite str_join_cons by discriminate. rewrite IH by discriminate.
    rewrite (str_join_cons sep p (q :: l1)) by discriminate.
    rewrite <- !app_assoc. reflexivity.
Qed.

(** Joining single lines and splitting again gives the lines back. *)
Lemma split_lines_join (lines : list str) :
  lines <> [] -> forallb single_line lines = true ->
  split_lines (str_join [LF] lines) = lines.
Proof.
  induction lines as [|l lines IH]; [congruence|]. intros _.
  cbn [forallb]. intros [Hl Hrest]%andb_prop.
  destruct lines as [|l' lines].
  - apply split_lines_single. exact Hl.
  - rewrite str_join_cons by discriminate. cbn [app].
    rewrite split_lines_line by exact Hl. rewrite IH by (discriminate || exact Hrest).
    reflexivity.
Qed.

(** The rendered text is the lines of the four blocks, joined. *)
Lemma response_text_join R :
  causes R <> [] -> recommendations R <> [] ->
  response_text R = str_join [LF] (response_lines R).
Proof.
  intros Hc Hr. unfold response_text, response_lines.
  assert (Hc' : List.map (app (lit "- ")) (causes R) <> [])
    by (destruct (causes R); [congruence|discriminate]).
  assert (Hr' : List.map (app (lit "- ")) (recommendations R) <> [])
    by (destruct (recommendations R); [congruence|discriminate]).
  rewrite (str_join_app [LF] [_; _]) by (discriminate || (destruct (List.map _ (causes R)); [congruence|discriminate])).
  rewrite (str_join_app [LF] (List.map _ (causes R))) by (exact Hc' || discriminate).
  rewrite (str_join_app [LF] [_]) by (discriminate || (destruct (List.map _ (recommendations R)); [congruence|discriminate])).
  rewrite (str_join_app [LF] (List.map _ (recommendations R))) by (exact Hr' || discriminate).
  cbn [str_join]. rewrite <- !app_assoc. reflexivity.
Qed.

Lemma valid_causes R : valid R = true -> 2 <= length (causes R) <= 3.
Proof.
  unfold valid. rewrite !andb_true_iff. intros H0.
  destruct H0 as [[[[[_ H1] H2] _] _] _].
  apply Nat.leb_le in H1, H2. lia.
Qed.

Lemma valid_recommendations R : valid R = true -> 2 <= length (recommendations R) <= 3.
Proof.
  unfold valid. rewrite !andb_true_iff. intros H0.
  destruct H0 as [[[_ H1] H2] _].
  apply Nat.leb_le in H1, H2. lia.
Qed.

Lemma valid_confidence R :
  valid R = true ->
  confidence R = lit "low" \/ confidence R = lit "medium" \/ confidence R = lit "high".
Proof.
  unfold valid. rewrite !andb_true_iff. intros [_ Hc].
  unfold confidence_labels in Hc. cbn [existsb] in Hc. unfold str_eqb in Hc.
  rewrite !orb_true_iff, !bool_decide_eq_true in Hc.
  destruct Hc as [Hc|[Hc|[Hc|Hc]]]; [tauto|tauto|tauto|discriminate].
Qed.

Lemma valid_attributes R :
  valid R = true -> forallb (fun kv => is_scalar (snd kv)) (attributes R) = true.
Proof.
  unfold valid. rewrite !andb_true_iff. tauto.
Qed.

Lemma valid_severity R : valid R = true -> exceeds_max_str_digits (severity R) = false.
Proof.
  unfold valid. rewrite !andb_true_iff.
  intros ((((((((H1 & H4) & _) & _) & _) & _) & _) & _) & _).
  apply max_str_digits_bound. lia.
Qed.

(** [build_instruction] on a valid record whose integers can be
    converted: the prompt of the record. *)
Lemma build_instruction_text s R :
  prompt_fields s R -> valid R = true -> bounded_ints R = true ->
  build_instruction s = Ok (prompt_text R).
Proof.
  intros Hp Hv Hb.
  rewrite (build_instruction_fields s R Hp (valid_severity R Hv)
             (check_value_flat _ _ (valid_attributes R Hv) Hb)).
  rewrite (dumps_attributes _ (valid_attributes R Hv)). reflexivity.
Qed.

Lemma forallb_single_line_bullets (texts : list str) :
  forallb single_line (List.map (app (lit "- ")) texts) = forallb single_line texts.
Proof.
  induction texts as [|x texts IH]; [reflexivity|].
  cbn [List.map forallb]. rewrite IH, single_line_app. reflexivity.
Qed.

Lemma response_lines_single R :
  valid R = true -> single_line_texts R = true ->
  forallb single_line (response_lines R) = true.
Proof.
  intros Hv Hs. unfold single_line_texts in Hs.
  apply andb_prop in Hs as [Hs Hr]. apply andb_prop in Hs as [Hsum Hc].
  unfold response_lines. rewrite !forallb_app, !forallb_single_line_bullets, Hc, Hr.
  cbn [forallb]. rewrite !single_line_app, Hsum.
  destruct (valid_confidence R Hv) as [-> | [-> | ->]]; reflexivity.
Qed.

Lemma response_lines_not_blank R : ~ In [] (response_lines R).
Proof.
  unfold response_lines. intros Hin.
  repeat (apply List.in_app_or in Hin as [Hin|Hin]);
    try (apply List.in_map_iff in Hin as (x & Hx & _); discriminate Hx);
    cbn [In] in Hin; intuition discriminate.
Qed.

Lemma response_text_end R :
  valid R = true -> last (response_text R) <> Some LF.
Proof.
  intros Hv. unfold response_text. rewrite !app_assoc, <- (app_assoc _ (lit "CONFIDENCE: ")).
  rewrite last_app.
  destruct (valid_confidence R Hv) as [-> | [-> | ->]]; discriminate.
Qed.

Lemma lookup_map {A B} (f : A -> B) (l : list A) (i : nat) (a : A) :
  l !! i = Some a -> List.map f l !! i = Some (f a).
Proof.
  revert i. induction l as [|x l IH]; intros [|i]; cbn; try discriminate.
  - intros [= ->]. reflexivity.
  - apply IH.
Qed.

Lemma take_bullets_block (texts : list str) (l : str) (rest : list str) :
  startswith (lit "- ") l = false ->
  take_bullets (List.map (app (lit "- ")) texts ++ l :: rest) =
  List.map (app (lit "- ")) texts.
Proof.
  intros Hl. induction texts as [|x texts IH]; cbn [List.map app take_bullets].
  - rewrite Hl. reflexivity.
  - rewrite startswith_app, IH. reflexivity.
Qed.

Lemma lines_after_bullets (marker : str) (texts : list str) (rest : list str) :
  startswith (lit "- ") marker = false ->
  lines_after marker (List.map (app (lit "- ")) texts ++ rest) = lines_after marker rest.
Proof.
  intros Hm. induction texts as [|x texts IH]; [reflexivity|].
  cbn [List.map app lines_after]. unfold str_eqb.
  rewrite bool_decide_eq_false_2; [exact IH|].
  intros E. rewrite <- E, startswith_app in Hm. discriminate.
Qed.

(** Under each marker of the lines of a response stand its bullets. *)
Lemma bullets_of_response_lines R :
  take_bullets (lines_after (lit "CAUSES:") (response_lines R)) =
    List.map (app (lit "- ")) (causes R) /\
  take_bullets (lines_after (lit "RECOMMENDATIONS:") (response_lines R)) =
    List.map (app (lit "- ")) (recommendations R).
Proof.
  unfold response_lines. split.
  - cbn [app lines_after]. unfold str_eqb.
    rewrite bool_decide_eq_false_2 by discriminate.
    rewrite bool_decide_eq_true_2 by reflexivity.
    apply take_bullets_block. reflexivity.
  - cbn [app lines_after]. unfold str_eqb.
    rewrite bool_decide_eq_false_2 by discriminate.
    rewrite bool_decide_eq_false_2 by discriminate.
    rewrite lines_after_bullets by reflexivity.
    cbn [lines_after]. unfold str_eqb. rewrite bool_decide_eq_true_2 by reflexivity.
    apply take_bullets_block. reflexivity.
Qed.

(** ** The response renderer *)

Lemma response_text_lines R :
  valid R = true -> single_line_texts R = true ->
  split_lines (response_text R) = response_lines R.
Proof.
  intros Hv Hsl.
  pose proof (valid_causes R Hv) as Hc. pose proof (valid_recommendations R Hv) as Hr.
  rewrite response_text_join.
  - apply split_lines_join; [discriminate|].
    apply response_lines_single; assumption.
  - intros E. rewrite E in Hc. cbn in Hc. lia.
  - intros E. rewrite E in Hr. cbn in Hr. lia.
Qed.

(** C1, as amended: for every valid record whose summary, causes and
    recommendations hold no line feed, [build_output] returns a text
    whose lines are exactly the four blocks in order (the summary line,
    the causes marker and one bullet line per cause, the recommendations
    marker and one bullet line per recommendation, the confidence line),
    with no blank line and no line feed at the end. *)
Theorem build_output_four_blocks (s : gmap str pyval) (R : AnomalyRecord) :
  represents s R -> valid R = true -> single_line_texts R = true ->
  exists out, build_output s = Ok out /\ four_blocks R out.
Proof.
  intros [_ Hs] Hv Hsl. exists (response_text R).
  split; [apply build_output_text; exact Hs|].
  unfold four_blocks. rewrite (response_text_lines R Hv Hsl).
  split; [reflexivity|]. split; [apply response_lines_not_blank|].
  apply response_text_end. exact Hv.
Qed.

(** C2: the rendered response of a record holds the four markers: each
    of the validator's four checks on it is true, and the line written
    for it passes the validator's check of a line. *)
Theorem rendered_response_passes_validator (s : gmap str pyval) (R : AnomalyRecord) :
  represents s R ->
  exists out,
    build_output s = Ok out /\
    py_in (lit "SUMMARY:") (VStr out) = Ok true /\
    py_in (lit "CAUSES:") (VStr out) = Ok true /\
    py_in (lit "RECOMMENDATIONS:") (VStr out) = Ok true /\
    py_in (lit "CONFIDENCE:") (VStr out) = Ok true /\
    forall i instruction,
      check_line i (json_dumps false None (example_of instruction out) ++ [LF]) =
      Ok (true, PReport i true (length out) true true true true).
Proof.
  intros [_ Hs]. exists (response_text R).
  split; [apply build_output_text; exact Hs|].
  pose proof (response_text_markers R) as Hm. unfold has_all_markers in Hm.
  apply andb_prop in Hm as [Hm H4]. apply andb_prop in Hm as [Hm H3].
  apply andb_prop in Hm as [H1 H2].
  cbn [py_in]. rewrite H1, H2, H3, H4. repeat (split; [reflexivity|]).
  intros i instruction. unfold check_line.
  rewrite loads_example_line. cbn [bind]. unfold example_of.
  cbn [py_getitem]. change (dict_get (lit "output") _) with (Some (VStr (response_text R))).
  cbn [bind py_in py_len]. rewrite H1, H2, H3, H4. reflexivity.
Qed.

(** C3, as amended: for every valid record whose summary, causes and
    recommendations hold no line feed, the bullet lines under the
    causes marker are as many as the causes, the i-th being a dash, a
    space and the i-th cause; and likewise the bullet lines under the
    recommendations marker for the recommendations. *)
Theorem build_output_bullets (s : gmap str pyval) (R : AnomalyRecord) :
  represents s R -> valid R = true -> single_line_texts R = true ->
  exists out,
    build_output s = Ok out /\
    bullets_match (lit "CAUSES:") (causes R) out /\
    bullets_match (lit "RECOMMENDATIONS:") (recommendations R) out.
Proof.
  intros [_ Hs] Hv Hsl. exists (response_text R).
  split; [apply build_output_text; exact Hs|].
  destruct (bullets_of_response_lines R) as [Hc Hr].
  unfold bullets_match, bullets_under.
  rewrite (response_text_lines R Hv Hsl), Hc, Hr, !length_map.
  split; (split; [reflexivity|]); intros i x Hx; apply lookup_map; exact Hx.
Qed.

(** ** Serialization *)

(** C4: a serialized example, alone or as a line of the file, decodes
    to the example itself, an object with the fields instruction, input
    and output in this order and with the same strings; the text of the
    line has the three fields in this order; the input of every entry
    the generation loop builds is the empty string. *)
Theorem example_json_round_trip (instruction output : str) :
  json_loads (json_dumps false None (example_of instruction output) ++ [LF]) =
    Ok (VDict [(lit "instruction", VStr instruction);
               (lit "input", VStr []);
               (lit "output", VStr output)]) /\
  json_loads (json_dumps false None (example_of instruction output)) =
    Ok (example_of instruction output) /\
  json_dumps false None (example_of instruction output) =
    lit "{" ++ [DQ] ++ lit "instruction" ++ [DQ] ++ lit ": " ++
    encode_basestring false instruction ++ lit ", " ++
    [DQ] ++ lit "input" ++ [DQ] ++ lit ": " ++ [DQ; DQ] ++ lit ", " ++
    [DQ] ++ lit "output" ++ [DQ] ++ lit ": " ++
    encode_basestring false output ++ lit "}" /\
  forall s : gmap str pyval,
    make_entry s =
    (i <- build_instruction s ;; o <- build_output s ;; Ok (example_of i o)).
Proof.
  split; [apply loads_example_line|].
  split.
  { rewrite <- (app_nil_r (json_dumps _ _ _)). apply loads_example. reflexivity. }
  split; [|reflexivity].
  rewrite dumps_example_text. unfold encode_basestring.
  repeat first [rewrite <- List.app_assoc | rewrite <- List.app_comm_cons].
  reflexivity.
Qed.

(** ** The prompt renderer *)

(** C5: for every valid record whose integer attributes have at most
    4300 digits, [build_instruction] returns the fixed
    template around the data-bearing segments: service and operation as
    they are, the duration with the expected mean and the expected
    standard deviation inline, the deviation before the sigma, the severity as SEV, the level, and the
    name in parentheses, and the attributes as a block of lines indented
    by two spaces, in insertion order.  The framing text is that of the
    template, whatever the record. *)
Theorem build_instruction_template (s : gmap str pyval) (R : AnomalyRecord) :
  represents s R -> valid R = true -> bounded_ints R = true ->
  build_instruction s =
  Ok (instruction_template
        (service R) (operation R)
        (float_repr (duration R)) (float_repr (expected_mean R))
        (float_repr (expected_std R)) (float_repr (deviation R))
        (lit "SEV" ++ int_str (severity R) ++ lit " (" ++ severity_name R ++ lit ")")
        (match attributes R with
         | [] => lit "{}"
         | _ :: _ =>
             lit "{" ++ [LF] ++
             str_join (lit "," ++ [LF])
               (List.map (fun kv => lit "  " ++ encode_basestring true (fst kv) ++
                                    lit ": " ++ scalar_text (snd kv))
                  (attributes R)) ++
             [LF] ++ lit "}"
         end)).
Proof.
  intros [Hp _] Hv Hb.
  apply (build_instruction_text s R Hp Hv Hb).
Qed.

(** ** The generation loop and the file *)

Lemma make_entry_record s R :
  represents s R -> valid R = true -> bounded_ints R = true ->
  make_entry s = Ok (example_of (prompt_text R) (response_text R)).
Proof.
  intros [Hp Hr] Hv Hb. unfold make_entry.
  rewrite (build_instruction_text s R Hp Hv Hb), (build_output_text s R Hr).
  reflexivity.
Qed.

Lemma escape_char_encodable (c : char) :
  is_surrogate c = false -> utf8_encodable (escape_char false c) = true.
Proof.
  intros Hc. destruct (N.ltb_spec c 32) as [Hlt|Hge].
  - clear Hc. revert c Hlt. apply below_32. repeat constructor.
  - unfold escape_char.
    repeat match goal with
           | |- context [if (?a =? ?b)%N then _ else _] =>
               destruct (N.eqb_spec a b) as [->|?]; [reflexivity|]
           end.
    destruct (N.ltb_spec c 32) as [Hlt|_]; [lia|].
    cbn [andb utf8_encodable forallb]. rewrite Hc. reflexivity.
Qed.

Lemma escape_body_encodable (t : str) :
  utf8_encodable t = true -> utf8_encodable (escape_body false t) = true.
Proof.
  induction t as [|c t IH]; [reflexivity|].
  cbn [utf8_encodable forallb]. intros [Hc Ht]%andb_prop.
  rewrite escape_body_cons, utf8_encodable_app, (IH Ht), andb_true_r.
  apply escape_char_encodable. apply negb_true_iff. exact Hc.
Qed.

(** The line of an example is encodable when its two texts are. *)
Lemma dumps_example_encodable (i o : str) :
  utf8_encodable i = true -> utf8_encodable o = true ->
  utf8_encodable (json_dumps false None (example_of i o)) = true.
Proof.
  intros Hi Ho. rewrite dumps_example_text.
  pose proof (escape_body_encodable i Hi) as Hi'.
  pose proof (escape_body_encodable o Ho) as Ho'.
  repeat first
    [ rewrite utf8_encodable_app
    | rewrite Hi' | rewrite Ho'
    | match goal with
      | |- context [utf8_encodable (?c :: ?t)] =>
          change (utf8_encodable (c :: t)) with (negb (is_surrogate c) && utf8_encodable t)
      end ].
  reflexivity.
Qed.

Lemma written_as_record s R :
  represents s R ->
  valid R = true -> bounded_ints R = true -> encodable_texts R = true ->
  written_as s (example_of (prompt_text R) (response_text R)).
Proof.
  intros Hrep Hv Hb [Hi Ho]%andb_prop. split.
  - exact (make_entry_record s R Hrep Hv Hb).
  - exact (dumps_example_encodable _ _ Hi Ho).
Qed.

(** When every entry can be built and encoded, the lines of the file
    are the serialized entries, in order. *)
Lemma generate_lines scenarios entries w :
  Forall2 written_as scenarios entries ->
  exists f,
    generate scenarios w = (World (Some f) (console w), Ok tt) /\
    readlines f = List.map (fun e => json_dumps false None e ++ [LF]) entries.
Proof.
  intros Hall. exists (concat (List.map (fun e => json_dumps false None e ++ [LF]) entries)).
  unfold generate. rewrite (write_entries_ok _ _ Hall). split; [reflexivity|].
  rewrite <- (List.map_map (json_dumps false None) (fun b => b ++ [LF])).
  apply readlines_lines. apply List.Forall_forall. intros b Hb.
  apply List.in_map_iff in Hb as (e & <- & He).
  assert (Hshape : exists i o, e = example_of i o).
  { clear -Hall He. induction Hall as [|s e' ss es [Hs _] _ IH]; [destruct He|].
    destruct He as [->|He]; [eapply make_entry_shape; exact Hs|exact (IH He)]. }
  destruct Hshape as (i & o & ->). apply dumps_example_printable.
Qed.

(** The records the generation loop writes: valid, with integer
    attributes of at most 4300 digits and texts without a surrogate code
    point. *)
Lemma written_as_records scenarios Rs :
  Forall2 represents scenarios Rs ->
  Forall (fun R => valid R = true /\ bounded_ints R = true /\ encodable_texts R = true) Rs ->
  Forall2 written_as scenarios
    (List.map (fun R => example_of (prompt_text R) (response_text R)) Rs).
Proof.
  induction 1 as [|s R ss Rs' Hs _ IH]; intros Hok; [constructor|].
  apply List.Forall_cons_iff in Hok as [(Hv & Hb & He) Hok].
  cbn [List.map]. constructor; [|exact (IH Hok)].
  exact (written_as_record s R Hs Hv Hb He).
Qed.

(** C6: for every corpus of valid records whose integer attributes have
    at most 4300 digits and whose prompt and response hold no surrogate
    code point, generation succeeds and the file has one line per
    record, the n-th line being the serialized example of the n-th
    record. *)
Theorem generation_preserves_order
    (scenarios : list (gmap str pyval)) (Rs : list AnomalyRecord) (w : world) :
  Forall2 represents scenarios Rs ->
  Forall (fun R => valid R = true /\ bounded_ints R = true /\ encodable_texts R = true) Rs ->
  exists f,
    generate scenarios w = (World (Some f) (console w), Ok tt) /\
    length (readlines f) = length Rs /\
    forall n R, Rs !! n = Some R ->
      readlines f !! n =
      Some (json_dumps false None (example_of (prompt_text R) (response_text R)) ++ [LF]).
Proof.
  intros Hrep Hok. pose proof (written_as_records scenarios Rs Hrep Hok) as Hall.
  destruct (generate_lines scenarios _ w Hall) as (f & Hgen & Hlines).
  exists f. split; [exact Hgen|]. rewrite Hlines, !length_map.
  split; [reflexivity|].
  intros n R Hn. rewrite List.map_map.
  apply (lookup_map
           (fun R => json_dumps false None (example_of (prompt_text R) (response_text R)) ++ [LF])).
  exact Hn.
Qed.

(** ** The format validator *)

Lemma check_line_output i line out :
  line_output line out -> check_line i line = Ok (has_all_markers out, report_of i out).
Proof.
  intros (d & Hd & Hout). unfold check_line. rewrite Hd. cbn [bind].
  rewrite Hout. reflexivity.
Qed.

Lemma validate_loop_ok lines outs :
  Forall2 line_output lines outs ->
  forall i all_good w,
    validate_loop i lines all_good w =
    (all_good && forallb has_all_markers outs,
     World (output_file w) (console w ++ reports_from i outs), Ok tt).
Proof.
  induction 1 as [|line out lines outs Hline _ IH]; intros i all_good w.
  - cbn [validate_loop forallb reports_from]. rewrite andb_true_r, app_nil_r.
    destruct w. reflexivity.
  - cbn [validate_loop forallb reports_from]. rewrite (check_line_output i line out Hline).
    rewrite IH. unfold print. cbn [output_file console]. rewrite <- app_assoc.
    f_equal. f_equal. destruct (has_all_markers out), all_good; reflexivity.
Qed.


(** ** Errors *)

Lemma build_instruction_missing (s : gmap str pyval) k :
  In k prompt_keys -> s !! k = None -> exists e, build_instruction s = Raise e.
Proof.
  intros Hk Hnone. unfold build_instruction, getitem.
  repeat match goal with
         | |- context [s !! ?key] =>
             let E := fresh "E" in
             destruct (s !! key) eqn:E; cbn [bind]; [|eexists; reflexivity]
         | |- context [py_format ?v] =>
             destruct (py_format v); cbn [bind]; [|eexists; reflexivity]
         | |- context [py_json_dumps ?a ?b ?v] =>
             destruct (py_json_dumps a b v); cbn [bind]; [|eexists; reflexivity]
         end.
  exfalso. unfold prompt_keys in Hk. cbn [In] in Hk.
  repeat (destruct Hk as [<-|Hk]; [congruence|]). exact Hk.
Qed.

Lemma build_output_missing (s : gmap str pyval) k :
  In k response_keys -> s !! k = None -> exists e, build_output s = Raise e.
Proof.
  intros Hk Hnone. unfold build_output, getitem.
  repeat match goal with
         | |- context [s !! ?key] =>
             let E := fresh "E" in
             destruct (s !! key) eqn:E; cbn [bind]; [|eexists; reflexivity]
         | |- context [py_iter ?v] =>
             destruct (py_iter v); cbn [bind]; [|eexists; reflexivity]
         | |- context [bullets ?v] =>
             destruct (bullets v); cbn [bind]; [|eexists; reflexivity]
         | |- context [py_format ?v] =>
             destruct (py_format v); cbn [bind]; [|eexists; reflexivity]
         end.
  exfalso. unfold response_keys in Hk. cbn [In] in Hk.
  repeat (destruct Hk as [<-|Hk]; [congruence|]). exact Hk.
Qed.

(** C8: a renderer raises on a scenario that lacks one of the fields
    it reads, and returns a text, raising nothing, on every scenario
    that carries a valid record whose integer attributes have at most
    4300 digits. *)
Theorem renderers_fail_closed (s : gmap str pyval) (R : AnomalyRecord) :
  (forall k, In k prompt_keys -> s !! k = None ->
     exists e, build_instruction s = Raise e) /\
  (forall k, In k response_keys -> s !! k = None ->
     exists e, build_output s = Raise e) /\
  (represents s R -> valid R = true -> bounded_ints R = true ->
     exists instruction output,
       build_instruction s = Ok instruction /\ build_output s = Ok output).
Proof.
  split; [apply build_instruction_missing|].
  split; [apply build_output_missing|].
  intros [Hp Hr] Hv Hb. eexists; eexists. split.
  - apply (build_instruction_text s R Hp Hv Hb).
  - apply (build_output_text s R Hr).
Qed.

(** ** Determinism *)

Lemma validate_loop_file lines :
  forall i all_good w,
    output_file (snd (fst (validate_loop i lines all_good w))) = output_file w.
Proof.
  induction lines as [|line lines IH]; intros i all_good w; cbn [validate_loop].
  - reflexivity.
  - destruct (check_line i line) as [[ok report]|e]; [|reflexivity].
    rewrite IH. reflexivity.
Qed.

Lemma validate_file w : output_file (fst (validate w)) = output_file w.
Proof.
  unfold validate. destruct (output_file w) as [f|] eqn:Hf; [|exact Hf].
  pose proof (validate_loop_file (readlines f) 0 true (print w PValidationHeader)) as Hl.
  destruct (validate_loop 0 (readlines f) true (print w PValidationHeader))
    as [[all_good w'] [u|e]]; cbn [fst snd] in *; unfold print in *;
    cbn [output_file] in *; congruence.
Qed.

Lemma main_file scenarios w :
  output_file (fst (main scenarios w)) = Some (fst (write_entries scenarios [])).
Proof.
  unfold main, generate. destruct (write_entries scenarios []) as [f [u|e]]; cbn [fst].
  - rewrite validate_file. reflexivity.
  - reflexivity.
Qed.

Lemma validate_result w w' :
  output_file w = output_file w' -> snd (validate w) = snd (validate w').
Proof.
  intros Hf. unfold validate. rewrite <- Hf. destruct (output_file w) as [f|]; [|reflexivity].
  assert (Hloop : forall lines i all_good w1 w2,
    fst (fst (validate_loop i lines all_good w1)) = fst (fst (validate_loop i lines all_good w2)) /\
    snd (validate_loop i lines all_good w1) = snd (validate_loop i lines all_good w2)).
  { induction lines as [|line lines IH]; intros i all_good w1 w2; cbn [validate_loop].
    - split; reflexivity.
    - destruct (check_line i line) as [[ok report]|e]; [apply IH|split; reflexivity]. }
  destruct (Hloop (readlines f) 0 true (print w PValidationHeader) (print w' PValidationHeader))
    as [Hg Hr].
  destruct (validate_loop 0 (readlines f) true (print w PValidationHeader))
    as [[g1 w1] r1], (validate_loop 0 (readlines f) true (print w' PValidationHeader))
    as [[g2 w2] r2].
  cbn [fst snd] in Hg, Hr. subst g2 r2. destruct r1; reflexivity.
Qed.

(** C9: the file the script leaves, and its verdict, depend on the
    corpus alone: two runs on the same corpus, from any two states of
    the file and the console, leave the same file and return the same
    result; so does a second run after a first. *)
Theorem pipeline_deterministic (scenarios : list (gmap str pyval)) (w w' : world) :
  output_file (fst (main scenarios w)) = output_file (fst (main scenarios w')) /\
  snd (main scenarios w) = snd (main scenarios w') /\
  output_file (fst (main scenarios (fst (main scenarios w)))) =
    output_file (fst (main scenarios w)) /\
  snd (main scenarios (fst (main scenarios w))) = snd (main scenarios w).
Proof.
  assert (Hres : forall w1 w2, snd (main scenarios w1) = snd (main scenarios w2)).
  { intros w1 w2. unfold main, generate.
    destruct (write_entries scenarios []) as [f [u|e]]; [|reflexivity].
    apply validate_result. reflexivity. }
  rewrite !main_file. repeat split; try reflexivity; apply Hres.
Qed.

(** ** Noninterference *)

Lemma agree_lookup (ks : list str) (s1 s2 : gmap str pyval) (k : str) :
  agree_on ks s1 s2 -> In k ks -> getitem s1 k = getitem s2 k.
Proof. intros Ha Hk. unfold getitem. rewrite (Ha k Hk). reflexivity. Qed.

(** C10: [build_instruction] depends on the nine prompt fields only,
    and [build_output] on the four response fields only: scenarios that
    agree on them are rendered alike, whatever their other fields. *)
Theorem renderers_noninterference (s1 s2 : gmap str pyval) :
  (agree_on prompt_keys s1 s2 -> build_instruction s1 = build_instruction s2) /\
  (agree_on response_keys s1 s2 -> build_output s1 = build_output s2).
Proof.
  split; intros Ha.
  - unfold build_instruction.
    rewrite !(agree_lookup prompt_keys s1 s2 _ Ha) by (cbn; tauto).
    reflexivity.
  - unfold build_output.
    rewrite !(agree_lookup response_keys s1 s2 _ Ha) by (cbn; tauto).
    reflexivity.
Qed.

End Properties.

(** * Further properties of the script *)

Section Further.
Context `{PyBuiltins}.

(** ** The order in which the prompt renderer reads and formats *)

(** X2: an f-string reads and formats its fields in order: when the
    fields before a missing key are there and can be formatted,
    [build_instruction] raises the [KeyError] of that key, the first
    one missing in the order of the template. *)
Theorem build_instruction_first_missing (s : gmap str pyval)
    (before after : list str) (k : str) :
  prompt_keys = before ++ k :: after ->
  (forall k', In k' before ->
     exists v text, s !! k' = Some v /\ py_format v = Ok text) ->
  s !! k = None ->
  build_instruction s = Raise (KeyError k).
Proof.
  intros Hkeys Hbefore Hnone. unfold prompt_keys in Hkeys.
  unfold build_instruction.
  repeat (destruct before as [|b before];
          [ cbn [app] in Hkeys; injection Hkeys as <- _;
            rewrite (getitem_None _ _ Hnone); reflexivity
          | cbn [app] in Hkeys; injection Hkeys as <- Hkeys;
            let v := fresh "v" in let text := fresh "text" in
            let Hv := fresh "Hv" in let Hf := fresh "Hf" in
            destruct (Hbefore _ (or_introl eq_refl)) as (v & text & Hv & Hf);
            rewrite (getitem_Some _ _ _ Hv); cbn [bind]; rewrite Hf; cbn [bind];
            assert (Hbefore' : forall k', In k' before ->
                      exists v text, s !! k' = Some v /\ py_format v = Ok text)
              by (intros k' Hk'; apply Hbefore; right; exact Hk');
            clear Hbefore; rename Hbefore' into Hbefore ]).
  destruct before as [|b before]; cbn [app] in Hkeys.
  - injection Hkeys as <- _. rewrite (getitem_None _ _ Hnone). reflexivity.
  - injection Hkeys as _ Hkeys. destruct before; discriminate Hkeys.
Qed.

(** X20: a field that cannot be formatted stops the prompt renderer
    before it reads the next key: with an integer of more than 4300
    digits for the service, [build_instruction] raises [ValueError],
    whatever the other fields, missing ones included. *)
Theorem build_instruction_formats_in_order (s : gmap str pyval) (z : Z) :
  s !! lit "service" = Some (VInt z) ->
  exceeds_max_str_digits z = true ->
  build_instruction s = Raise ValueError.
Proof.
  intros Hs Hz. unfold build_instruction. rewrite (getitem_Some _ _ _ Hs).
  cbn [bind]. unfold py_format. cbn [check_value]. rewrite Hz. reflexivity.
Qed.

(** ** Odd inputs to the response renderer *)

Ltac keys_differ := let E := fresh in intros E; vm_compute in E; discriminate E.

(** X4: a string given for the causes is rendered as the list of its
    characters, one bullet per character, and a dict as the list of its
    keys. *)
Theorem build_output_iterates_causes (s : gmap str pyval) (t : str)
    (d : list (str * pyval)) :
  build_output (<[lit "causes" := VStr t]> s) =
    build_output (<[lit "causes" := VList (List.map (fun c => VStr [c]) t)]> s) /\
  build_output (<[lit "causes" := VDict d]> s) =
    build_output (<[lit "causes" := VList (List.map (fun kv => VStr (fst kv)) d)]> s).
Proof.
  unfold build_output, getitem.
  rewrite !lookup_insert_eq. cbn [bind py_iter].
  rewrite !(lookup_insert_ne _ (lit "causes") (lit "recommendations")) by keys_differ.
  rewrite !(lookup_insert_ne _ (lit "causes") (lit "summary")) by keys_differ.
  rewrite !(lookup_insert_ne _ (lit "causes") (lit "confidence")) by keys_differ.
  split; reflexivity.
Qed.

Lemma blank_line_between (a b : str) :
  In [] (tail (split_lines (a ++ LF :: LF :: b))).
Proof.
  induction a as [|c a IH]; cbn [app split_lines].
  - change (LF =? 10)%N with true. cbn iota. left. reflexivity.
  - destruct (c =? 10)%N.
    + cbn [tail]. destruct (split_lines (a ++ LF :: LF :: b)); [destruct IH|].
      right. exact IH.
    + destruct (split_lines (a ++ LF :: LF :: b)); [destruct IH|]. exact IH.
Qed.

Lemma blank_line_in (a b : str) : In [] (split_lines (a ++ LF :: LF :: b)).
Proof.
  pose proof (blank_line_between a b) as Hin.
  destruct (split_lines (a ++ LF :: LF :: b)); [destruct Hin|]. right. exact Hin.
Qed.

(** X5: with an empty list of causes, or of recommendations, the
    response has a blank line: the marker is followed by an empty
    block. *)
Theorem build_output_empty_block (s : gmap str pyval) (out : str) :
  s !! lit "causes" = Some (VList []) \/ s !! lit "recommendations" = Some (VList []) ->
  build_output s = Ok out ->
  In [] (split_lines out).
Proof.
  intros Hempty. unfold build_output, getitem.
  destruct (s !! lit "causes") as [cs|]; [|discriminate]. cbn [bind].
  destruct (py_iter cs) as [lc|] eqn:Hlc; [|discriminate]. cbn [bind].
  destruct (bullets lc) as [bc|] eqn:Hbc; [|discriminate]. cbn [bind].
  destruct (s !! lit "recommendations") as [rs|]; [|discriminate]. cbn [bind].
  destruct (py_iter rs) as [lr|] eqn:Hlr; [|discriminate]. cbn [bind].
  destruct (bullets lr) as [br|] eqn:Hbr; [|discriminate]. cbn [bind].
  destruct (s !! lit "summary") as [sm|]; [|discriminate]. cbn [bind].
  destruct (py_format sm) as [sm'|]; [|discriminate]. cbn [bind].
  destruct (s !! lit "confidence") as [cf|]; [|discriminate]. cbn [bind].
  destruct (py_format cf) as [cf'|]; [|discriminate]. cbn [bind].
  intros [= <-]. destruct Hempty as [[= ->]|[= ->]].
  - injection Hlc as <-. injection Hbc as <-.
    match goal with
    | |- In [] (split_lines ?o) =>
        replace o with
          ((lit "SUMMARY: " ++ sm' ++ lit "
CAUSES:") ++ LF :: LF ::
           (lit "RECOMMENDATIONS:
" ++ str_join [LF] br ++ lit "
CONFIDENCE: " ++ cf'))
          by (rewrite <- !app_assoc; reflexivity)
    end.
    apply blank_line_in.
  - injection Hlr as <-. injection Hbr as <-.
    match goal with
    | |- In [] (split_lines ?o) =>
        replace o with
          ((lit "SUMMARY: " ++ sm' ++ lit "
CAUSES:
" ++ str_join [LF] bc ++ lit "
RECOMMENDATIONS:") ++ LF :: LF :: (lit "CONFIDENCE: " ++ cf'))
          by (rewrite <- !app_assoc; reflexivity)
    end.
    apply blank_line_in.
Qed.

(** ** What the validator lets through *)

Lemma startswith_extend (m b c : str) :
  startswith m b = true -> startswith m (b ++ c) = true.
Proof.
  revert b. induction m as [|x m IH]; intros [|y b]; cbn; try congruence.
  intros [Hx Hm]%andb_prop. rewrite Hx. cbn. apply IH. exact Hm.
Qed.

Lemma str_contains_extend (m a b c : str) :
  str_contains m b = true -> str_contains m (a ++ b ++ c) = true.
Proof.
  intros Hb.
  assert (Hbc : str_contains m (b ++ c) = true).
  { clear a. induction b as [|y b IH].
    - cbn in Hb. rewrite orb_false_r in Hb. destruct m; [|discriminate].
      destruct c; reflexivity.
    - cbn [str_contains] in Hb. apply orb_prop in Hb as [Hs|Hr].
      + pose proof (startswith_extend m (y :: b) c Hs) as E. cbn [app] in E.
        cbn [app str_contains]. rewrite E. reflexivity.
      + cbn [app str_contains]. rewrite (IH Hr). apply orb_true_r. }
  induction a as [|x a IH]; [exact Hbc|].
  cbn [app str_contains]. rewrite IH. apply orb_true_r.
Qed.

Lemma has_all_markers_extend (a out c : str) :
  has_all_markers out = true -> has_all_markers (a ++ out ++ c) = true.
Proof.
  unfold has_all_markers. rewrite !andb_true_iff. intros [[[H1 H2] H3] H4].
  repeat split; apply str_contains_extend; assumption.
Qed.

Lemma check_line_example i (instruction out : str) :
  check_line i (json_dumps false None (example_of instruction out) ++ [LF]) =
  Ok (has_all_markers out, report_of i out).
Proof.
  apply check_line_output. exists (example_of instruction out).
  split; [apply loads_example_line|reflexivity].
Qed.

(** X10: the validator's check is a presence check only: an output is
    accepted whenever the four markers occur in it, in any order and
    with anything around them; so an accepted output stays accepted
    inside any longer text. *)
Theorem validator_accepts_any_order (i : nat) (instruction a b c d e : str) :
  let out := a ++ lit "CONFIDENCE:" ++ b ++ lit "RECOMMENDATIONS:" ++ c ++
             lit "CAUSES:" ++ d ++ lit "SUMMARY:" ++ e in
  check_line i (json_dumps false None (example_of instruction out) ++ [LF]) =
    Ok (true, PReport i true (length out) true true true true) /\
  forall x y, has_all_markers (x ++ out ++ y) = true.
Proof.
  intros out.
  assert (H1 : str_contains (lit "SUMMARY:") out = true).
  { apply (str_contains_at (a ++ lit "CONFIDENCE:" ++ b ++ lit "RECOMMENDATIONS:" ++ c ++
                            lit "CAUSES:" ++ d) e).
    subst out. rewrite <- !app_assoc. reflexivity. }
  assert (H2 : str_contains (lit "CAUSES:") out = true).
  { apply (str_contains_at (a ++ lit "CONFIDENCE:" ++ b ++ lit "RECOMMENDATIONS:" ++ c)
             (d ++ lit "SUMMARY:" ++ e)).
    subst out. rewrite <- !app_assoc. reflexivity. }
  assert (H3 : str_contains (lit "RECOMMENDATIONS:") out = true).
  { apply (str_contains_at (a ++ lit "CONFIDENCE:" ++ b)
             (c ++ lit "CAUSES:" ++ d ++ lit "SUMMARY:" ++ e)).
    subst out. rewrite <- !app_assoc. reflexivity. }
  assert (H4 : str_contains (lit "CONFIDENCE:") out = true).
  { apply (str_contains_at a
             (b ++ lit "RECOMMENDATIONS:" ++ c ++ lit "CAUSES:" ++ d ++ lit "SUMMARY:" ++ e)).
    reflexivity. }
  assert (Hall : has_all_markers out = true)
    by (unfold has_all_markers; rewrite H1, H2, H3, H4; reflexivity).
  split.
  - rewrite check_line_example. unfold report_of. rewrite Hall, H1, H2, H3, H4. reflexivity.
  - intros x y. apply has_all_markers_extend. exact Hall.
Qed.

Lemma Ok_inj {A} (a b : A) : Ok a = Ok b -> a = b.
Proof. congruence. Qed.

Lemma suffix_step (x y head tail_text : str) :
  y = head ++ tail_text -> x ++ y = (x ++ head) ++ tail_text.
Proof. intros ->. apply app_assoc. Qed.

Lemma build_instruction_tail (s : gmap str pyval) (text : str) :
  build_instruction s = Ok text -> exists head, text = head ++ response_skeleton.
Proof.
  unfold build_instruction.
  repeat match goal with
         | |- context [getitem s ?key] => destruct (getitem s key); [|discriminate]; cbn [bind]
         | |- context [py_format ?v] => destruct (py_format v); [|discriminate]; cbn [bind]
         | |- context [py_json_dumps ?a ?b ?v] =>
             destruct (py_json_dumps a b v); [|discriminate]; cbn [bind]
         end.
  intros E. apply Ok_inj in E. subst text. eexists.
  repeat match goal with
         | |- ?x ++ ?y = _ => apply (suffix_step x y)
         end.
  instantiate (1 := lit "

Based on the trace data AND correlated metrics, provide:
1. A brief summary (1-2 sentences) of what likely caused this anomaly
2. 2-3 possible root causes (consider resource utilization if metrics show issues)
3. 2-3 actionable recommendations

Format your response as:
").
  reflexivity.
Qed.

(** X11: every prompt [build_instruction] returns ends with the
    skeleton of a response, and so passes the validator's four checks
    itself. *)
Theorem prompt_passes_validator (s : gmap str pyval) (text : str) :
  build_instruction s = Ok text ->
  (exists head, text = head ++ response_skeleton) /\
  has_all_markers text = true /\
  forall i instruction,
    check_line i (json_dumps false None (example_of instruction text) ++ [LF]) =
    Ok (true, report_of i text).
Proof.
  intros Hok. destruct (build_instruction_tail s text Hok) as [head ->].
  assert (Hall : has_all_markers (head ++ response_skeleton) = true).
  { rewrite <- (app_nil_r response_skeleton). apply has_all_markers_extend.
    vm_compute. reflexivity. }
  split; [eauto|]. split; [exact Hall|].
  intros i instruction. rewrite check_line_example, Hall. reflexivity.
Qed.

(** ** The written file, whatever the scenarios *)

Lemma make_entry_parts s e :
  make_entry s = Ok e ->
  exists i o, build_instruction s = Ok i /\ build_output s = Ok o /\ e = example_of i o.
Proof.
  unfold make_entry. destruct (build_instruction s) as [i|]; [|discriminate].
  destruct (build_output s) as [o|]; [|discriminate].
  cbn [bind]. intros E. apply Ok_inj in E. subst e. eauto.
Qed.


(** X14: serialization loses nothing: two examples with the same
    serialized text have the same instruction and the same output. *)
Theorem serialization_injective (i o i' o' : str) :
  json_dumps false None (example_of i o) = json_dumps false None (example_of i' o') ->
  i = i' /\ o = o'.
Proof.
  intros E. pose proof (loads_example_line i o) as L. rewrite E, loads_example_line in L.
  apply Ok_inj in L. unfold example_of in L. injection L as -> ->. split; reflexivity.
Qed.

Lemma write_entries_prefix good entries :
  Forall2 written_as good entries ->
  forall rest f,
    write_entries (good ++ rest) f = write_entries rest (f ++ concat (lines_of entries)).
Proof.
  induction 1 as [|s e good entries Hs _ IH]; intros rest f.
  - cbn. rewrite app_nil_r. reflexivity.
  - cbn [app write_entries]. rewrite (write_entry_ok s e f Hs), IH.
    unfold lines_of. cbn [List.map concat].
    rewrite <- !app_assoc. reflexivity.
Qed.

Lemma written_as_shape scenarios entries :
  Forall2 written_as scenarios entries ->
  forall e, In e entries -> exists i o, e = example_of i o.
Proof.
  induction 1 as [|s e' ss es [Hs _] _ IH]; intros e He; [destruct He|].
  destruct He as [->|He]; [eapply make_entry_shape; exact Hs|exact (IH e He)].
Qed.

Lemma lines_of_readlines scenarios entries :
  Forall2 written_as scenarios entries ->
  readlines (concat (lines_of entries)) = lines_of entries.
Proof.
  intros Hall. unfold lines_of.
  rewrite <- (List.map_map (json_dumps false None) (fun b => b ++ [LF])).
  apply readlines_lines. apply List.Forall_forall. intros b Hb.
  apply List.in_map_iff in Hb as (e & <- & He).
  destruct (written_as_shape scenarios entries Hall e He) as (i & o & ->).
  apply dumps_example_printable.
Qed.

(** X7: generation stops at the first scenario that cannot be
    rendered, or whose line the utf-8 codec cannot encode: the file
    keeps the lines of the scenarios before it and nothing of the
    failing one, nothing is printed, and the script ends with that
    exception, without validating. *)
Theorem generation_stops_at_failure
    (good rest : list (gmap str pyval)) (bad : gmap str pyval)
    (entries : list pyval) (x : exn) (w : world) :
  Forall2 written_as good entries ->
  (make_entry bad = Raise x \/
   exists e, make_entry bad = Ok e /\
             utf8_encodable (json_dumps false None e) = false /\
             x = UnicodeEncodeError) ->
  main (good ++ bad :: rest) w =
    (World (Some (concat (lines_of entries))) (console w), Raise x) /\
  readlines (concat (lines_of entries)) = lines_of entries.
Proof.
  intros Hgood Hbad. split; [|exact (lines_of_readlines good entries Hgood)].
  unfold main, generate. rewrite (write_entries_prefix good entries Hgood).
  cbn [write_entries app]. destruct Hbad as [Hbad|(e & He & Henc & ->)].
  - unfold write_entry. rewrite Hbad. reflexivity.
  - rewrite (write_entry_line bad e _ He). unfold file_write.
    rewrite utf8_encodable_app, Henc. reflexivity.
Qed.

Lemma template_markers (a cs rs d : str) :
  has_all_markers (lit "SUMMARY: " ++ a ++ lit "
CAUSES:
" ++ cs ++ lit "
RECOMMENDATIONS:
" ++ rs ++ lit "
CONFIDENCE: " ++ d) = true.
Proof.
  unfold has_all_markers.
  rewrite (str_contains_at [] (lit " " ++ a ++ lit "
CAUSES:
" ++ cs ++ lit "
RECOMMENDATIONS:
" ++ rs ++ lit "
CONFIDENCE: " ++ d)) by reflexivity.
  rewrite (str_contains_at (lit "SUMMARY: " ++ a ++ [LF]) ([LF] ++ cs ++ lit "
RECOMMENDATIONS:
" ++ rs ++ lit "
CONFIDENCE: " ++ d)) by (rewrite <- !app_assoc; reflexivity).
  rewrite (str_contains_at (lit "SUMMARY: " ++ a ++ lit "
CAUSES:
" ++ cs ++ [LF]) ([LF] ++ rs ++ lit "
CONFIDENCE: " ++ d)) by (rewrite <- !app_assoc; reflexivity).
  rewrite (str_contains_at (lit "SUMMARY: " ++ a ++ lit "
CAUSES:
" ++ cs ++ lit "
RECOMMENDATIONS:
" ++ rs ++ [LF]) (lit " " ++ d)) by (rewrite <- !app_assoc; reflexivity).
  reflexivity.
Qed.

(** Whatever [build_output] returns holds the four markers. *)
Lemma build_output_markers (s : gmap str pyval) (out : str) :
  build_output s = Ok out -> has_all_markers out = true.
Proof.
  unfold build_output.
  repeat match goal with
         | |- context [getitem s ?key] => destruct (getitem s key); [|discriminate]; cbn [bind]
         | |- context [py_iter ?v] => destruct (py_iter v); [|discriminate]; cbn [bind]
         | |- context [bullets ?v] => destruct (bullets v); [|discriminate]; cbn [bind]
         | |- context [py_format ?v] => destruct (py_format v); [|discriminate]; cbn [bind]
         end.
  intros E. apply Ok_inj in E. subst out. apply template_markers.
Qed.

Lemma entries_line_outputs scenarios entries :
  Forall2 written_as scenarios entries ->
  exists outs,
    Forall2 (fun s out => build_output s = Ok out) scenarios outs /\
    Forall2 line_output (lines_of entries) outs /\
    forallb has_all_markers outs = true.
Proof.
  induction 1 as [|s e ss es [Hs _] _ (outs & Hb & Hl & Hm)].
  - exists []. repeat split; constructor.
  - destruct (make_entry_parts s e Hs) as (i & o & _ & Ho & ->).
    exists (o :: outs). split; [constructor; assumption|]. split.
    + cbn [lines_of List.map]. constructor; [|exact Hl].
      exists (example_of i o). split; [apply loads_example_line|reflexivity].
    + cbn [forallb]. rewrite (build_output_markers s o Ho), Hm. reflexivity.
Qed.

Lemma main_on_entries scenarios entries w :
  Forall2 written_as scenarios entries ->
  exists outs,
    Forall2 (fun s out => build_output s = Ok out) scenarios outs /\
    forallb has_all_markers outs = true /\
    main scenarios w =
      (World (Some (concat (lines_of entries)))
         (console w ++ [PGenerated (length scenarios); PValidationHeader] ++
          reports_from 0 outs ++ [PVerdict true]),
       Ok true).
Proof.
  intros Hall. destruct (entries_line_outputs scenarios entries Hall) as (outs & Hb & Hl & Hm).
  exists outs. split; [exact Hb|]. split; [exact Hm|].
  unfold main, generate. rewrite (write_entries_ok _ _ Hall).
  fold (lines_of entries). unfold validate, print. cbn [output_file console].
  rewrite (lines_of_readlines scenarios entries Hall).
  rewrite (validate_loop_ok _ _ Hl). cbn [output_file console andb]. rewrite Hm.
  rewrite <- !app_assoc. reflexivity.
Qed.

(** X8: when every scenario can be rendered and its line encoded as
    utf-8, the script runs to its end: it writes one line per scenario,
    reports every line as passing, with the length of its output, and
    prints the verdict that all samples are valid. *)
Theorem script_succeeds
    (scenarios : list (gmap str pyval)) (entries : list pyval) (w : world) :
  Forall2 written_as scenarios entries ->
  exists outs,
    Forall2 (fun s out => build_output s = Ok out) scenarios outs /\
    forallb has_all_markers outs = true /\
    main scenarios w =
      (World (Some (concat (lines_of entries)))
         (console w ++ [PGenerated (length scenarios); PValidationHeader] ++
          reports_from 0 outs ++ [PVerdict true]),
       Ok true).
Proof. apply main_on_entries. Qed.

Lemma write_entry_inv s (f f' : str) :
  write_entry s f = Ok f' -> exists e, written_as s e.
Proof.
  destruct (make_entry s) as [e|x] eqn:Hs.
  - rewrite (write_entry_line s e f Hs). unfold file_write.
    rewrite utf8_encodable_app.
    destruct (utf8_encodable (json_dumps false None e)) eqn:Henc; [|discriminate].
    intros _. exists e. split; assumption.
  - unfold write_entry. rewrite Hs. discriminate.
Qed.

Lemma write_entries_inv scenarios :
  forall f g u,
    write_entries scenarios f = (g, Ok u) ->
    exists entries, Forall2 written_as scenarios entries.
Proof.
  induction scenarios as [|s scenarios IH]; intros f g u; cbn [write_entries].
  - intros _. exists []. constructor.
  - destruct (write_entry s f) as [f'|x] eqn:Hs; [|discriminate].
    destruct (write_entry_inv s f f' Hs) as [e He].
    intros Hw. destruct (IH _ _ _ Hw) as [entries Hall].
    exists (e :: entries). constructor; assumption.
Qed.

(** X9: the script never ends with the verdict that some samples have
    issues: on whatever corpus, either generation raises or the verdict
    is that all samples are valid. *)
Theorem script_never_reports_failure (scenarios : list (gmap str pyval)) (w : world) :
  (exists x, snd (main scenarios w) = Raise x /\
             snd (generate scenarios w) = Raise x) \/
  snd (main scenarios w) = Ok true.
Proof.
  destruct (write_entries scenarios []) as [f [u|x]] eqn:Hw.
  - right. destruct (write_entries_inv scenarios [] f u Hw) as [entries Hall].
    destruct (main_on_entries scenarios entries w Hall) as (outs & _ & _ & ->). reflexivity.
  - left. exists x. unfold main, generate. rewrite Hw. split; reflexivity.
Qed.

(** ** The validator on lines it cannot decode *)



(** ** Non-ASCII text in the prompt *)

Lemma hexdigit_ascii n : ascii_char (hexdigit (n mod 16)).
Proof.
  unfold ascii_char, hexdigit.
  pose proof (N.mod_upper_bound n 16 ltac:(lia)).
  destruct (n mod 16 <? 10)%N; lia.
Qed.

Lemma u_escape_ascii n : Forall ascii_char (u_escape n).
Proof.
  unfold u_escape, hex4.
  repeat (apply List.Forall_cons; [first [apply hexdigit_ascii | unfold ascii_char, BSL; lia]|]).
  constructor.
Qed.

Lemma escape_char_ascii c : Forall ascii_char (escape_char true c).
Proof.
  unfold escape_char.
  repeat match goal with
         | |- context [if (?a =? ?b)%N then _ else _] =>
             destruct (N.eqb_spec a b) as [->|?];
             [repeat constructor; unfold ascii_char, BSL, DQ; lia|]
         end.
  destruct (N.ltb_spec c 32) as [_|_]; [apply u_escape_ascii|].
  cbn [andb]. destruct (N.ltb_spec 126 c) as [_|Hc].
  - destruct (c <? 65536)%N; [apply u_escape_ascii|].
    apply Forall_app. split; apply u_escape_ascii.
  - repeat constructor. unfold ascii_char. lia.
Qed.

Lemma encode_basestring_ascii s : Forall ascii_char (encode_basestring true s).
Proof.
  unfold encode_basestring, escape_body.
  apply List.Forall_cons; [unfold ascii_char, DQ; lia|].
  apply Forall_app. split; [|repeat constructor; unfold ascii_char, DQ; lia].
  induction s as [|c s IH]; [constructor|].
  cbn [List.map concat]. apply Forall_app. split; [apply escape_char_ascii|exact IH].
Qed.

Lemma uint_str_ascii (d : Decimal.uint) : Forall ascii_char (lit (NilEmpty.string_of_uint d)).
Proof.
  induction d; cbn; constructor; try assumption; unfold ascii_char; lia.
Qed.

Lemma int_str_ascii z : Forall ascii_char (int_str z).
Proof.
  unfold int_str. destruct (Z.to_int z) as [d|d]; cbn [NilZero.string_of_int].
  - destruct d; try apply (uint_str_ascii (_ _)).
    repeat constructor; unfold ascii_char; cbn; lia.
  - change (lit (String "-" (NilZero.string_of_uint d)))
      with (45%N :: lit (NilZero.string_of_uint d)).
    constructor; [unfold ascii_char; lia|].
    destruct d; try apply (uint_str_ascii (_ _)).
    repeat constructor; unfold ascii_char; cbn; lia.
Qed.

Lemma str_join_Forall (P : N -> Prop) (sep : str) (parts : list str) :
  Forall P sep -> Forall (Forall P) parts -> Forall P (str_join sep parts).
Proof.
  intros Hsep. induction 1 as [|p parts Hp Hparts IH]; [constructor|].
  destruct parts as [|q parts]; [exact Hp|].
  change (str_join sep (p :: q :: parts)) with (p ++ sep ++ str_join sep (q :: parts)).
  apply Forall_app. split; [exact Hp|]. apply Forall_app. split; [exact Hsep|exact IH].
Qed.

Lemma scalar_text_ascii (v : pyval) : is_plain v = true -> Forall ascii_char (scalar_text v).
Proof.
  destruct v as [| [|] | z | x | t | l | d]; cbn [is_plain scalar_text]; try discriminate; intros _.
  - repeat constructor; unfold ascii_char; cbn; lia.
  - repeat constructor; unfold ascii_char; cbn; lia.
  - repeat constructor; unfold ascii_char; cbn; lia.
  - apply int_str_ascii.
  - apply encode_basestring_ascii.
Qed.

Lemma attributes_block_ascii (attrs : list (str * pyval)) :
  forallb (fun kv => is_plain (snd kv)) attrs = true ->
  Forall ascii_char (attributes_block attrs).
Proof.
  intros Hplain. unfold attributes_block.
  destruct attrs as [|kv attrs]; [repeat constructor; cbn; lia|].
  set (l := kv :: attrs) in *.
  apply Forall_app. split; [repeat constructor; cbn; lia|].
  apply Forall_app. split; [repeat constructor; unfold LF; lia|].
  apply Forall_app. split; [|repeat constructor; unfold LF; cbn; lia].
  apply (str_join_Forall ascii_char); [repeat constructor; unfold ascii_char, LF; cbn; lia|].
  apply List.Forall_forall. intros line Hline.
  apply List.in_map_iff in Hline as (kv' & <- & Hkv').
  unfold attribute_line.
  apply Forall_app. split; [repeat constructor; unfold ascii_char; cbn; lia|].
  apply Forall_app. split; [apply encode_basestring_ascii|].
  apply Forall_app. split; [repeat constructor; unfold ascii_char; cbn; lia|].
  apply scalar_text_ascii. rewrite List.forallb_forall in Hplain. apply Hplain. exact Hkv'.
Qed.

(** *** Reading the escapes back *)

Lemma hexval_hexdigit d : (d < 16)%N -> hexval (hexdigit d) = Some d.
Proof.
  intros Hd. revert d Hd.
  assert (Hall : forall d, (d < 32)%N -> (d < 16)%N -> hexval (hexdigit d) = Some d).
  { apply (below_32 (fun d => (d < 16)%N -> hexval (hexdigit d) = Some d)).
    repeat (apply List.Forall_cons; [intros Hd; first [reflexivity | exfalso; cbn in Hd; lia]|]).
    apply List.Forall_nil. }
  intros d Hd. apply Hall; lia.
Qed.

Lemma decode_hex4 (n : N) :
  (n < 65536)%N ->
  decode_uXXXX (hexdigit (n / 4096 mod 16)) (hexdigit (n / 256 mod 16))
    (hexdigit (n / 16 mod 16)) (hexdigit (n mod 16)) = Ok n.
Proof.
  intros Hn. unfold decode_uXXXX.
  rewrite !hexval_hexdigit by (apply N.mod_upper_bound; lia).
  f_equal.
  assert (H4096 : (n / 4096 = n / 256 / 16)%N) by (rewrite N.Div0.div_div; reflexivity).
  assert (H256 : (n / 256 = n / 16 / 16)%N) by (rewrite N.Div0.div_div; reflexivity).
  assert (Hsmall : (n / 4096 < 16)%N) by (apply N.Div0.div_lt_upper_bound; lia).
  rewrite (N.mod_small (n / 4096) 16 Hsmall).
  pose proof (N.div_mod (n / 256) 16 ltac:(lia)) as E1.
  pose proof (N.div_mod (n / 16) 16 ltac:(lia)) as E2.
  pose proof (N.div_mod n 16 ltac:(lia)) as E3.
  rewrite <- H4096 in E1. rewrite <- H256 in E2.
  generalize dependent (n / 4096)%N. generalize dependent (n / 256)%N.
  generalize dependent (n / 16)%N. intros; lia.
Qed.

Lemma lor_disjoint (k x : N) :
  (x < 1024)%N -> N.lor (N.shiftl k 10) x = (k * 1024 + x)%N.
Proof.
  intros Hx.
  assert (Hland : N.land (N.shiftl k 10) x = 0%N).
  { apply N.bits_inj. intros i. rewrite N.land_spec, N.bits_0.
    destruct (N.ltb_spec i 10) as [Hi|Hi].
    - rewrite (N.shiftl_spec_low k 10 i Hi). reflexivity.
    - assert (Hxi : N.testbit x i = false).
      { destruct (N.eq_dec x 0%N) as [->|Hx0]; [apply N.bits_0|].
        apply N.bits_above_log2.
        assert (Hlog : (N.log2 x < 10)%N) by (apply N.log2_lt_pow2; [lia|exact Hx]).
        lia. }
      rewrite Hxi. apply andb_false_r. }
  rewrite <- (N.lxor_lor _ _ Hland), <- (N.add_nocarry_lxor _ _ Hland), N.shiftl_mul_pow2.
  reflexivity.
Qed.

Lemma scanstring_u_escape (n : N) (rest : str) :
  (n < 65536)%N -> is_high_surrogate n = false ->
  scanstring (u_escape n ++ rest) = ('(t, r) <- scanstring rest ;; Ok (n :: t, r)).
Proof.
  intros Hn Hhigh. unfold u_escape, hex4. cbn [app scanstring].
  change (BSL =? 34)%N with false. change (BSL =? 92)%N with true.
  change (117 =? 117)%N with true. cbn iota.
  rewrite (decode_hex4 n Hn). cbn [bind]. rewrite Hhigh. cbn [andb].
  destruct rest as [|b [|u s4]]; reflexivity.
Qed.

Lemma surrogate_pair (c : N) :
  (65536 <= c)%N -> (c < 1114112)%N ->
  exists a b,
    (a < 1024)%N /\ (b < 1024)%N /\
    N.lor 55296 (N.land (N.shiftr (c - 65536) 10) 1023) = (55296 + a)%N /\
    N.lor 56320 (N.land (c - 65536) 1023) = (56320 + b)%N /\
    (65536 + N.lor (N.shiftl a 10) b = c)%N.
Proof.
  intros Hlo Hhi. set (n := (c - 65536)%N).
  assert (Hn : (n < 1048576)%N) by (subst n; lia).
  exists (n / 1024)%N, (n mod 1024)%N.
  assert (Ha : (n / 1024 < 1024)%N) by (apply N.Div0.div_lt_upper_bound; lia).
  assert (Hb : (n mod 1024 < 1024)%N) by (apply N.mod_upper_bound; lia).
  assert (Hones : forall x, N.land x 1023 = (x mod 1024)%N)
    by (intros x; exact (N.land_ones x 10)).
  split; [exact Ha|]. split; [exact Hb|].
  rewrite !Hones, N.shiftr_div_pow2. change (2 ^ 10)%N with 1024%N.
  rewrite (N.mod_small _ _ Ha).
  change 55296%N with (N.shiftl 54 10). change 56320%N with (N.shiftl 55 10).
  rewrite !lor_disjoint by assumption.
  repeat split; try reflexivity.
  pose proof (N.div_mod n 1024 ltac:(lia)). subst n. lia.
Qed.

Lemma scanstring_surrogate_pair (a b : N) (rest : str) :
  (a < 1024)%N -> (b < 1024)%N ->
  scanstring (u_escape (55296 + a) ++ u_escape (56320 + b) ++ rest) =
  ('(t, r) <- scanstring rest ;; Ok ((65536 + N.lor (N.shiftl a 10) b)%N :: t, r)).
Proof.
  intros Ha Hb. unfold u_escape, hex4. cbn [app scanstring].
  change (BSL =? 34)%N with false. change (BSL =? 92)%N with true.
  change (117 =? 117)%N with true. cbn iota.
  rewrite (decode_hex4 (55296 + a)) by lia. cbn [bind].
  assert (Hhigh : is_high_surrogate (55296 + a) = true).
  { unfold is_high_surrogate. apply andb_true_intro. split; apply N.leb_le; lia. }
  rewrite Hhigh. cbn [andb]. cbn iota.
  rewrite (decode_hex4 (56320 + b)) by lia. cbn [bind].
  assert (Hlow : is_low_surrogate (56320 + b) = true).
  { unfold is_low_surrogate. apply andb_true_intro. split; apply N.leb_le; lia. }
  rewrite Hlow.
  replace (55296 + a - 55296)%N with a by lia.
  replace (56320 + b - 56320)%N with b by lia.
  reflexivity.
Qed.

Lemma escape_char_low (c : char) :
  (c <= 126)%N -> escape_char true c = escape_char false c.
Proof.
  intros Hc. unfold escape_char.
  destruct (N.ltb_spec 126 c) as [Hlt|_]; [lia|]. reflexivity.
Qed.

Lemma scanstring_escape_char_ascii (c : char) (rest : str) :
  is_surrogate c = false -> (c < 1114112)%N ->
  scanstring (escape_char true c ++ rest) =
  ('(t, r) <- scanstring rest ;; Ok (c :: t, r)).
Proof.
  intros Hs Hc. destruct (N.leb_spec c 126) as [Hlow|Hhigh].
  - rewrite (escape_char_low c Hlow). apply scanstring_escape_char.
  - unfold escape_char.
    repeat match goal with
           | |- context [if (?a =? ?b)%N then _ else _] =>
               destruct (N.eqb_spec a b) as [?|_]; [lia|]
           end.
    destruct (N.ltb_spec c 32) as [?|_]; [lia|].
    destruct (N.ltb_spec 126 c) as [_|?]; [|lia]. cbn [andb].
    destruct (N.ltb_spec c 65536) as [Hbmp|Hsup].
    + apply scanstring_u_escape; [exact Hbmp|].
      unfold is_surrogate in Hs. unfold is_high_surrogate.
      apply andb_false_iff in Hs as [Hs|Hs]; apply N.leb_gt in Hs;
        apply andb_false_iff; [left|right]; apply N.leb_gt; lia.
    + destruct (surrogate_pair c Hsup Hc) as (a & b & Ha & Hb & -> & -> & Hc').
      rewrite <- app_assoc, (scanstring_surrogate_pair a b rest Ha Hb), Hc'.
      reflexivity.
Qed.

Lemma scanstring_escape_body_ascii (s rest : str) :
  scalar_values s = true ->
  scanstring (escape_body true s ++ DQ :: rest) = Ok (s, rest).
Proof.
  induction s as [|c s IH]; [reflexivity|].
  cbn [scalar_values forallb]. intros [[Hc Hr]%andb_prop Hs]%andb_prop.
  rewrite escape_body_cons, <- app_assoc, scanstring_escape_char_ascii, (IH Hs).
  - reflexivity.
  - apply negb_true_iff. exact Hc.
  - apply N.ltb_lt. exact Hr.
Qed.

Lemma loads_encode_basestring (s : str) :
  scalar_values s = true -> json_loads (encode_basestring true s) = Ok (VStr s).
Proof.
  intros Hs. unfold json_loads, encode_basestring.
  change (startswith [65279%N] (DQ :: escape_body true s ++ [DQ])) with false.
  cbn iota. change (skip_ws (DQ :: escape_body true s ++ [DQ]))
    with (DQ :: escape_body true s ++ [DQ]).
  cbn [scan_once]. change (DQ =? 34)%N with true. cbn iota.
  rewrite (scanstring_escape_body_ascii s [] Hs). reflexivity.
Qed.

Lemma str_join_In (sep p : str) (parts : list str) :
  In p parts -> exists a b, str_join sep parts = a ++ p ++ b.
Proof.
  induction parts as [|q parts IH]; [intros []|].
  intros [->|Hin].
  - exists []. destruct parts as [|q' parts].
    + exists []. cbn. rewrite app_nil_r. reflexivity.
    + eexists. reflexivity.
  - destruct (IH Hin) as (a & b & E). destruct parts as [|q' parts]; [destruct Hin|].
    exists (q ++ sep ++ a), b.
    change (str_join sep (q :: q' :: parts)) with (q ++ sep ++ str_join sep (q' :: parts)).
    rewrite E, <- !app_assoc. reflexivity.
Qed.

(** X13: the attributes in the prompt are written in ASCII: with
    strings, integers, booleans and None as values, every character of
    the block is below 128, whatever the keys and the texts.  A string
    attribute stands in the block as its quoted key, a colon and its
    quoted text, after two spaces; and a quoted key or text of Unicode
    scalar values is read back by [json.loads] as the key or the text:
    its non-ASCII characters are written as escapes that decode to
    them. *)
Theorem prompt_attributes_are_ascii (attrs : list (str * pyval)) :
  forallb (fun kv => is_plain (snd kv)) attrs = true ->
  Forall (fun c => (c < 128)%N) (json_dumps true (Some 2) (VDict attrs)) /\
  forall k t, In (k, VStr t) attrs ->
    (exists a b,
       json_dumps true (Some 2) (VDict attrs) =
       a ++ lit "  " ++ encode_basestring true k ++ lit ": " ++
       encode_basestring true t ++ b) /\
    (scalar_values k = true -> json_loads (encode_basestring true k) = Ok (VStr k)) /\
    (scalar_values t = true -> json_loads (encode_basestring true t) = Ok (VStr t)).
Proof.
  intros Hplain.
  assert (Hscalar : forallb (fun kv => is_scalar (snd kv)) attrs = true).
  { rewrite List.forallb_forall in *. intros kv Hkv. specialize (Hplain kv Hkv).
    destruct (snd kv); try discriminate; reflexivity. }
  rewrite (dumps_attributes attrs Hscalar).
  split; [exact (attributes_block_ascii attrs Hplain)|].
  intros k t Hin. split; [|split; apply loads_encode_basestring].
  unfold attributes_block. destruct attrs as [|kv attrs]; [destruct Hin|].
  set (l := kv :: attrs) in *.
  destruct (str_join_In (lit "," ++ [LF]) (attribute_line (k, VStr t))
              (List.map attribute_line l)) as (a & b & E).
  { apply List.in_map. exact Hin. }
  rewrite E. exists (lit "{" ++ [LF] ++ a), (b ++ [LF] ++ lit "}").
  unfold attribute_line. cbn [fst snd scalar_text].
  rewrite <- !app_assoc. reflexivity.
Qed.

(** ** Reading a response back *)

Lemma map_prefix_inj (p : str) (l1 l2 : list str) :
  List.map (app p) l1 = List.map (app p) l2 -> l1 = l2.
Proof.
  revert l2. induction l1 as [|x l1 IH]; intros [|y l2]; cbn; try discriminate.
  - reflexivity.
  - intros E. injection E as Exy El. apply app_inv_head in Exy. subst y.
    rewrite (IH l2 El). reflexivity.
Qed.

(** X15: the response can be read back: two valid records with
    single-line texts that are rendered to the same response have the
    same summary, causes, recommendations and confidence. *)
Theorem response_determines_fields
    (s1 s2 : gmap str pyval) (R1 R2 : AnomalyRecord) :
  represents s1 R1 -> represents s2 R2 ->
  valid R1 = true -> valid R2 = true ->
  single_line_texts R1 = true -> single_line_texts R2 = true ->
  build_output s1 = build_output s2 ->
  summary R1 = summary R2 /\ causes R1 = causes R2 /\
  recommendations R1 = recommendations R2 /\ confidence R1 = confidence R2.
Proof.
  intros [_ Hs1] [_ Hs2] Hv1 Hv2 Hl1 Hl2 Hout.
  rewrite (build_output_text s1 R1 Hs1), (build_output_text s2 R2 Hs2) in Hout.
  apply Ok_inj in Hout.
  assert (Hlines : response_lines R1 = response_lines R2).
  { rewrite <- (response_text_lines R1 Hv1 Hl1), <- (response_text_lines R2 Hv2 Hl2), Hout.
    reflexivity. }
  destruct (bullets_of_response_lines R1) as [Hc1 Hr1].
  destruct (bullets_of_response_lines R2) as [Hc2 Hr2].
  rewrite Hlines in Hc1, Hr1. rewrite Hc2 in Hc1. rewrite Hr2 in Hr1.
  apply map_prefix_inj in Hc1, Hr1.
  split; [|split; [symmetry; exact Hc1|split; [symmetry; exact Hr1|]]].
  - unfold response_lines in Hlines. cbn [app] in Hlines.
    injection Hlines as Hsum _. exact Hsum.
  - assert (Hlast : forall R, last (response_lines R) = Some (lit "CONFIDENCE: " ++ confidence R)).
    { intros R. unfold response_lines. rewrite !app_assoc. apply last_snoc. }
    pose proof (Hlast R1) as L1. rewrite Hlines, Hlast in L1.
    injection L1 as L1. symmetry. exact L1.
Qed.

(** X19: writing then reading composes to the identity on entries:
    when every scenario can be rendered and its line encoded as utf-8,
    the lines read back from the file decode, one by one and in order,
    to the entries written. *)
Theorem file_round_trip
    (scenarios : list (gmap str pyval)) (entries : list pyval) (w : world) :
  Forall2 written_as scenarios entries ->
  exists f,
    generate scenarios w = (World (Some f) (console w), Ok tt) /\
    List.map json_loads (readlines f) = List.map Ok entries.
Proof.
  intros Hall. exists (concat (lines_of entries)). split.
  - unfold generate. rewrite (write_entries_ok _ _ Hall). reflexivity.
  - rewrite (lines_of_readlines scenarios entries Hall). unfold lines_of.
    rewrite List.map_map. apply List.map_ext_in. intros e He.
    destruct (written_as_shape scenarios entries Hall e He) as (i & o & ->).
    apply loads_example_line.
Qed.

(** ** The script on a corpus of records *)

Lemma represents_scenario_of (R : AnomalyRecord) : represents (scenario_of R) R.
Proof. repeat split; vm_compute; reflexivity. Qed.

Lemma four_blocks_text (R : AnomalyRecord) :
  valid R = true -> single_line_texts R = true -> four_blocks R (response_text R).
Proof.
  intros Hv Hsl. unfold four_blocks. rewrite (response_text_lines R Hv Hsl).
  split; [reflexivity|]. split; [apply response_lines_not_blank|].
  apply response_text_end. exact Hv.
Qed.

Lemma main_on_records (scenarios : list (gmap str pyval)) (Rs : list AnomalyRecord) (w : world) :
  Forall2 represents scenarios Rs ->
  Forall (fun R => valid R = true /\ bounded_ints R = true /\ encodable_texts R = true) Rs ->
  exists f,
    main scenarios w =
      (World (Some f)
         (console w ++ [PGenerated (length Rs); PValidationHeader] ++
          reports_from 0 (List.map response_text Rs) ++ [PVerdict true]),
       Ok true) /\
    length (readlines f) = length Rs.
Proof.
  intros Hrep Hok.
  pose proof (written_as_records scenarios Rs Hrep Hok) as Hall.
  set (entries := List.map (fun R => example_of (prompt_text R) (response_text R)) Rs) in *.
  destruct (main_on_entries scenarios entries w Hall) as (outs & Hb & _ & Hmain).
  assert (Houts : outs = List.map response_text Rs).
  { clear -Hrep Hb. revert outs Hb.
    induction Hrep as [|s R ss Rs' [_ Hs] _ IH]; intros outs Hb.
    - inversion Hb. reflexivity.
    - inversion Hb as [|? out ? outs' Hout Hrest]; subst.
      rewrite (build_output_text s R Hs) in Hout. apply Ok_inj in Hout. subst out.
      cbn [List.map]. rewrite (IH _ Hrest). reflexivity. }
  exists (concat (lines_of entries)). rewrite Hmain, Houts.
  rewrite (Forall2_length _ _ _ Hrep). split; [reflexivity|].
  rewrite (lines_of_readlines scenarios entries Hall). unfold lines_of.
  rewrite length_map, <- (Forall2_length _ _ _ Hall). exact (Forall2_length _ _ _ Hrep).
Qed.

End Further.

(** * The theorems on concrete inputs *)

Section Instances.
Import Corpus.
#[local] Existing Instance text_builtins.

Ltac by_evaluation := vm_compute; reflexivity.
Ltac fields_by_evaluation := repeat split; vm_compute; reflexivity.

(** The model, run. *)

Example small_response :
  build_output (scenario_of record_small) = Ok (lit "SUMMARY: slow
CAUSES:
- load
- gc
RECOMMENDATIONS:
- scale
- tune
CONFIDENCE: low").
Proof. by_evaluation. Qed.

Example trailing_lf_response :
  build_output (scenario_of record_trailing_lf) = Ok (lit "SUMMARY: slow
CAUSES:
- load
- gc

RECOMMENDATIONS:
- scale
- tune
CONFIDENCE: low").
Proof. by_evaluation. Qed.

Example two_line_cause_response :
  build_output (scenario_of record_two_line_cause) = Ok (lit "SUMMARY: slow
CAUSES:
- load
- spike
- gc
RECOMMENDATIONS:
- scale
- tune
CONFIDENCE: low").
Proof. by_evaluation. Qed.

Example small_attributes :
  json_dumps true (Some 2) (VDict (attributes record_small)) =
  lit "{
  " ++ [DQ] ++ lit "http.status_code" ++ [DQ] ++ lit ": 200
}".
Proof. by_evaluation. Qed.

Example small_prompt_head :
  exists rest,
    build_instruction (scenario_of record_small) =
    Ok (lit "You are an expert in distributed systems and observability. Analyze this performance anomaly:

## Anomaly Details
- Service: api
- Operation: GET /
- Duration: 12.5ms (expected: 3.0ms " ++ [plus_minus] ++ lit " 1.5ms)
- Deviation: 6.33" ++ [sigma] ++ lit " (standard deviations from mean)
- Severity: SEV2 (Major)

## Span Attributes
" ++ rest).
Proof. eexists. by_evaluation. Qed.

(** Control characters and quotes are escaped; with [ensure_ascii]
    off a sigma is written as it is, with it on as an escape. *)
Example escapes_raw :
  json_dumps false None (VStr ([sigma; LF; DQ; 1%N])) =
  [DQ; sigma] ++ lit "\n" ++ [BSL; DQ] ++ lit "\u0001" ++ [DQ].
Proof. by_evaluation. Qed.

Example escapes_ascii :
  json_dumps true None (VStr [sigma; 128512%N]) =
  [DQ] ++ lit "\u03c3\ud83d\ude00" ++ [DQ].
Proof. by_evaluation. Qed.

Example loads_escapes :
  json_loads ([DQ] ++ lit "\u03c3\ud83d\ude00\n" ++ [DQ]) =
  Ok (VStr [sigma; 128512%N; LF]).
Proof. by_evaluation. Qed.

Example loads_nested :
  json_loads (lit " {" ++ [DQ; 97%N; DQ] ++ lit " : [1, -20, true, null, {}] } ") =
  Ok (VDict [([97%N], VList [VInt 1; VInt (-20); VBool true; VNone; VDict []])]).
Proof. by_evaluation. Qed.

Example loads_rejects_raw_line_feed :
  json_loads ([DQ; LF; DQ]) = Raise JSONDecodeError.
Proof. by_evaluation. Qed.

(** The first scenario of the corpus: the response begins with the
    summary, has three bullet lines under each marker and ends with
    the confidence. *)
Example scenario_0_response :
  exists out,
    build_output scenario_0 = Ok out /\
    startswith (lit "SUMMARY: The pg-pool.connect operation took 276ms") out = true /\
    length (bullets_under (lit "CAUSES:") out) = 3 /\
    length (bullets_under (lit "RECOMMENDATIONS:") out) = 3 /\
    List.last (split_lines out) [] = lit "CONFIDENCE: high".
Proof. eexists. split; [by_evaluation|]. repeat split; by_evaluation. Qed.

(** C1 as stated fails: the record is valid, its second cause ends in
    a line feed, and the rendered text has a blank line between the
    causes and the recommendations marker. *)
Lemma build_output_blank_line_counterexample :
  represents (scenario_of record_trailing_lf) record_trailing_lf /\
  valid record_trailing_lf = true /\
  ~ (exists out, build_output (scenario_of record_trailing_lf) = Ok out /\
                 four_blocks record_trailing_lf out).
Proof.
  split; [fields_by_evaluation|]. split; [by_evaluation|].
  intros (out & Hout & _ & Hblank & _).
  vm_compute in Hout. injection Hout as <-.
  apply Hblank. vm_compute.
  repeat first [left; reflexivity | right].
Qed.

Lemma build_output_four_blocks_witness :
  exists out, build_output scenario_0 = Ok out /\ four_blocks record_0 out.
Proof.
  apply build_output_four_blocks.
  - fields_by_evaluation.
  - by_evaluation.
  - by_evaluation.
Defined.

Lemma rendered_response_passes_validator_witness :
  exists out,
    build_output scenario_0 = Ok out /\
    py_in (lit "SUMMARY:") (VStr out) = Ok true /\
    py_in (lit "CAUSES:") (VStr out) = Ok true /\
    py_in (lit "RECOMMENDATIONS:") (VStr out) = Ok true /\
    py_in (lit "CONFIDENCE:") (VStr out) = Ok true /\
    forall i instruction,
      check_line i (json_dumps false None (example_of instruction out) ++ [LF]) =
      Ok (true, PReport i true (length out) true true true true).
Proof.
  apply (rendered_response_passes_validator scenario_0 record_0).
  fields_by_evaluation.
Defined.

(** C3 as stated fails: the record is valid and has two causes, the
    first of which spans two lines; three bullet lines stand under the
    causes marker. *)
Lemma build_output_bullets_counterexample :
  represents (scenario_of record_two_line_cause) record_two_line_cause /\
  valid record_two_line_cause = true /\
  ~ (exists out,
       build_output (scenario_of record_two_line_cause) = Ok out /\
       bullets_match (lit "CAUSES:") (causes record_two_line_cause) out /\
       bullets_match (lit "RECOMMENDATIONS:") (recommendations record_two_line_cause) out).
Proof.
  split; [fields_by_evaluation|]. split; [by_evaluation|].
  intros (out & Hout & [Hcount _] & _).
  vm_compute in Hout. injection Hout as <-.
  vm_compute in Hcount. discriminate Hcount.
Qed.

Lemma build_output_bullets_witness :
  exists out,
    build_output scenario_0 = Ok out /\
    bullets_match (lit "CAUSES:") (causes record_0) out /\
    bullets_match (lit "RECOMMENDATIONS:") (recommendations record_0) out.
Proof.
  apply build_output_bullets.
  - fields_by_evaluation.
  - by_evaluation.
  - by_evaluation.
Defined.

(** C5 as stated fails: the record is valid, one of its attributes is
    an integer of 5001 digits, and [json.dumps] raises [ValueError]:
    there is no instruction. *)
Lemma build_instruction_template_counterexample :
  represents (scenario_of record_huge_attribute) record_huge_attribute /\
  valid record_huge_attribute = true /\
  build_instruction (scenario_of record_huge_attribute) = Raise ValueError /\
  ~ (exists text, build_instruction (scenario_of record_huge_attribute) = Ok text).
Proof.
  split; [fields_by_evaluation|]. split; [by_evaluation|].
  assert (E : build_instruction (scenario_of record_huge_attribute) = Raise ValueError)
    by by_evaluation.
  split; [exact E|]. intros [text Htext]. rewrite E in Htext. discriminate Htext.
Qed.

Lemma build_instruction_template_witness :
  exists text,
    build_instruction scenario_0 = Ok text /\
    str_contains (lit "- Severity: SEV3 (Warning)") text = true /\
    str_contains (lit "  " ++ [DQ] ++ lit "db.system" ++ [DQ] ++ lit ": " ++
                  [DQ] ++ lit "postgresql" ++ [DQ] ++ lit ",") text = true.
Proof.
  eexists. split.
  - apply (build_instruction_template scenario_0 record_0).
    + fields_by_evaluation.
    + by_evaluation.
    + by_evaluation.
  - split; by_evaluation.
Defined.

(** C6 as stated fails: the corpus is one valid record whose summary
    holds a lone surrogate code point; the utf-8 codec of the file
    refuses the line, generation raises and the file has no line.  So
    it does on a valid record with an integer attribute of 5001 digits,
    which cannot be rendered. *)
Lemma generation_preserves_order_counterexample :
  (Forall2 represents [scenario_of record_surrogate] [record_surrogate] /\
   valid record_surrogate = true /\
   generate [scenario_of record_surrogate] (World None []) =
     (World (Some []) [], Raise UnicodeEncodeError) /\
   ~ (exists f,
        generate [scenario_of record_surrogate] (World None []) =
          (World (Some f) [], Ok tt) /\
        length (readlines f) = 1)) /\
  (Forall2 represents [scenario_of record_huge_attribute] [record_huge_attribute] /\
   valid record_huge_attribute = true /\
   generate [scenario_of record_huge_attribute] (World None []) =
     (World (Some []) [], Raise ValueError) /\
   ~ (exists f,
        generate [scenario_of record_huge_attribute] (World None []) =
          (World (Some f) [], Ok tt) /\
        length (readlines f) = 1)).
Proof.
  split.
  - split; [apply List.Forall2_cons; [fields_by_evaluation|apply List.Forall2_nil]|].
    split; [by_evaluation|].
    assert (E : generate [scenario_of record_surrogate] (World None []) =
                (World (Some []) [], Raise UnicodeEncodeError)) by by_evaluation.
    split; [exact E|]. intros (f & Hf & _). rewrite E in Hf. discriminate Hf.
  - split; [apply List.Forall2_cons; [fields_by_evaluation|apply List.Forall2_nil]|].
    split; [by_evaluation|].
    assert (E : generate [scenario_of record_huge_attribute] (World None []) =
                (World (Some []) [], Raise ValueError)) by by_evaluation.
    split; [exact E|]. intros (f & Hf & _). rewrite E in Hf. discriminate Hf.
Qed.

Lemma generation_preserves_order_witness :
  exists f,
    generate [scenario_0; scenario_of record_small] (World None []) =
      (World (Some f) [], Ok tt) /\
    length (readlines f) = 2 /\
    forall n R, [record_0; record_small] !! n = Some R ->
      readlines f !! n =
      Some (json_dumps false None (example_of (prompt_text R) (response_text R)) ++ [LF]).
Proof.
  apply (generation_preserves_order [scenario_0; scenario_of record_small]
           [record_0; record_small] (World None [])).
  - apply List.Forall2_cons; [fields_by_evaluation|].
    apply List.Forall2_cons; [fields_by_evaluation|]. apply List.Forall2_nil.
  - apply List.Forall_cons; [fields_by_evaluation|].
    apply List.Forall_cons; [fields_by_evaluation|]. apply List.Forall_nil.
Defined.


(** C8 as stated fails: the record is valid and has every field, one
    of its attributes is an integer of 4301 digits, and the prompt
    renderer raises [ValueError]. *)
Lemma renderers_fail_closed_counterexample :
  represents (scenario_of record_4301_digits) record_4301_digits /\
  valid record_4301_digits = true /\
  (forall k, In k (prompt_keys ++ response_keys) ->
     is_Some (scenario_of record_4301_digits !! k)) /\
  build_instruction (scenario_of record_4301_digits) = Raise ValueError /\
  ~ (exists instruction output,
       build_instruction (scenario_of record_4301_digits) = Ok instruction /\
       build_output (scenario_of record_4301_digits) = Ok output).
Proof.
  split; [fields_by_evaluation|]. split; [by_evaluation|].
  split.
  { intros k Hk. cbn [In prompt_keys response_keys app] in Hk.
    repeat (destruct Hk as [<-|Hk]; [eexists; by_evaluation|]). destruct Hk. }
  assert (E : build_instruction (scenario_of record_4301_digits) = Raise ValueError)
    by by_evaluation.
  split; [exact E|]. intros (i & o & Hi & _). rewrite E in Hi. discriminate Hi.
Qed.

Lemma renderers_fail_closed_witness :
  (exists e, build_instruction (delete (lit "duration") scenario_0) = Raise e) /\
  (exists e, build_output (delete (lit "summary") scenario_0) = Raise e) /\
  (exists instruction output,
     build_instruction scenario_0 = Ok instruction /\ build_output scenario_0 = Ok output).
Proof.
  split; [|split].
  - apply (proj1 (renderers_fail_closed (delete (lit "duration") scenario_0) record_0)
             (lit "duration")).
    + vm_compute. tauto.
    + by_evaluation.
  - apply (proj1 (proj2 (renderers_fail_closed (delete (lit "summary") scenario_0) record_0))
             (lit "summary")).
    + vm_compute. tauto.
    + by_evaluation.
  - apply (proj2 (proj2 (renderers_fail_closed scenario_0 record_0))).
    + fields_by_evaluation.
    + by_evaluation.
    + by_evaluation.
Defined.

Lemma renderers_noninterference_witness :
  build_instruction (scenario_of record_small) =
    build_instruction (scenario_of record_other_response) /\
  build_output (scenario_of record_small) =
    build_output (scenario_of record_other_prompt).
Proof.
  split.
  - apply (proj1 (renderers_noninterference (scenario_of record_small)
                    (scenario_of record_other_response))).
    intros k Hk. cbn [In prompt_keys] in Hk.
    repeat (destruct Hk as [<-|Hk]; [by_evaluation|]). destruct Hk.
  - apply (proj2 (renderers_noninterference (scenario_of record_small)
                    (scenario_of record_other_prompt))).
    intros k Hk. cbn [In response_keys] in Hk.
    repeat (destruct Hk as [<-|Hk]; [by_evaluation|]). destruct Hk.
Defined.

(** ** Further properties on concrete inputs *)

Lemma build_instruction_first_missing_witness :
  build_instruction (delete (lit "duration") (delete (lit "severity") scenario_0)) =
  Raise (KeyError (lit "duration")).
Proof.
  apply (build_instruction_first_missing _ [lit "service"; lit "operation"]
           [lit "expected_mean"; lit "expected_std"; lit "deviation"; lit "severity";
            lit "severity_name"; lit "attributes"] (lit "duration")).
  - reflexivity.
  - intros k' Hk'. cbn [In] in Hk'.
    repeat (destruct Hk' as [<-|Hk'];
            [eexists; eexists; split; by_evaluation|]).
    destruct Hk'.
  - by_evaluation.
Defined.

Lemma build_instruction_formats_in_order_witness :
  build_instruction
    (<[lit "service" := VInt int_5001_digits]> (delete (lit "operation") scenario_0)) =
  Raise ValueError.
Proof.
  apply (build_instruction_formats_in_order _ int_5001_digits); by_evaluation.
Defined.

(** An integer of 4300 digits is converted, one of 4301 is not. *)
Example digits_4300 :
  exists text,
    build_instruction (scenario_of record_4300_digits) = Ok text /\
    exceeds_max_str_digits int_4300_digits = false /\
    exceeds_max_str_digits (int_4300_digits + 1) = true.
Proof. eexists. split; [by_evaluation|]. split; by_evaluation. Qed.

(** Lists nested deeper than the interpreter has room for. *)
Example nested_attributes :
  py_json_dumps true (Some 2) (Nat.iter 9 (fun v => VList [v]) (VInt 1)) =
    Ok (json_dumps true (Some 2) (Nat.iter 9 (fun v => VList [v]) (VInt 1))) /\
  py_json_dumps true (Some 2) (Nat.iter 10 (fun v => VList [v]) (VInt 1)) =
    Raise RecursionError.
Proof. split; by_evaluation. Qed.

Lemma build_output_empty_block_witness :
  exists out,
    build_output (<[lit "causes" := VList []]> scenario_0) = Ok out /\
    In [] (split_lines out).
Proof.
  eexists. split; [by_evaluation|].
  apply (build_output_empty_block (<[lit "causes" := VList []]> scenario_0)).
  - left. by_evaluation.
  - by_evaluation.
Defined.


Lemma serialization_injective_witness :
  lit "prompt" = lit "prompt" /\ complete_output = complete_output.
Proof.
  apply (serialization_injective (lit "prompt") complete_output (lit "prompt") complete_output).
  reflexivity.
Defined.

Lemma generation_stops_at_failure_witness :
  exists f,
    main ([scenario_0] ++ delete (lit "summary") scenario_0 :: [scenario_of record_small])
      (World None []) =
      (World (Some f) [], Raise (KeyError (lit "summary"))) /\
    length (readlines f) = 1.
Proof.
  destruct (generation_stops_at_failure [scenario_0] [scenario_of record_small]
              (delete (lit "summary") scenario_0)
              [example_of (prompt_text record_0) (response_text record_0)]
              (KeyError (lit "summary")) (World None [])) as [Hmain Hlines].
  - apply List.Forall2_cons; [fields_by_evaluation|]. apply List.Forall2_nil.
  - left. by_evaluation.
  - eexists. split; [exact Hmain|]. rewrite Hlines. reflexivity.
Defined.

Lemma script_succeeds_witness :
  exists outs,
    Forall2 (fun s out => build_output s = Ok out)
      [scenario_0; scenario_of record_two_line_cause] outs /\
    forallb has_all_markers outs = true /\
    main [scenario_0; scenario_of record_two_line_cause] (World None []) =
      (World
         (Some (concat (lines_of
            [example_of (prompt_text record_0) (response_text record_0);
             example_of (prompt_text record_two_line_cause)
               (response_text record_two_line_cause)])))
         ([] ++ [PGenerated 2; PValidationHeader] ++ reports_from 0 outs ++ [PVerdict true]),
       Ok true).
Proof.
  apply (script_succeeds [scenario_0; scenario_of record_two_line_cause]
           [example_of (prompt_text record_0) (response_text record_0);
            example_of (prompt_text record_two_line_cause)
              (response_text record_two_line_cause)] (World None [])).
  apply List.Forall2_cons; [fields_by_evaluation|].
  apply List.Forall2_cons; [fields_by_evaluation|]. apply List.Forall2_nil.
Defined.

Lemma prompt_passes_validator_witness :
  exists text,
    build_instruction scenario_0 = Ok text /\
    (exists head, text = head ++ response_skeleton) /\
    has_all_markers text = true /\
    forall i instruction,
      check_line i (json_dumps false None (example_of instruction text) ++ [LF]) =
      Ok (true, report_of i text).
Proof.
  eexists. split; [by_evaluation|].
  apply (prompt_passes_validator scenario_0). by_evaluation.
Defined.


Lemma prompt_attributes_are_ascii_witness :
  Forall (fun c => (c < 128)%N)
    (json_dumps true (Some 2)
       (VDict [(lit "count", VInt (-5)); (lit "unit" ++ [sigma], VStr [sigma; 128512%N]);
               (lit "flag", VBool true); (lit "none", VNone)])) /\
  (exists a b,
     json_dumps true (Some 2)
       (VDict [(lit "count", VInt (-5)); (lit "unit" ++ [sigma], VStr [sigma; 128512%N]);
               (lit "flag", VBool true); (lit "none", VNone)]) =
     a ++ lit "  " ++ ([DQ] ++ lit "unit\u03c3" ++ [DQ]) ++ lit ": " ++
     ([DQ] ++ lit "\u03c3\ud83d\ude00" ++ [DQ]) ++ b) /\
  json_loads ([DQ] ++ lit "unit\u03c3" ++ [DQ]) = Ok (VStr (lit "unit" ++ [sigma])) /\
  json_loads ([DQ] ++ lit "\u03c3\ud83d\ude00" ++ [DQ]) = Ok (VStr [sigma; 128512%N]).
Proof.
  destruct (prompt_attributes_are_ascii
              [(lit "count", VInt (-5)); (lit "unit" ++ [sigma], VStr [sigma; 128512%N]);
               (lit "flag", VBool true); (lit "none", VNone)]) as [Hascii Hlines].
  { by_evaluation. }
  destruct (Hlines (lit "unit" ++ [sigma]) [sigma; 128512%N]) as (Hline & Hk & Ht).
  { right. left. reflexivity. }
  split; [exact Hascii|]. split; [exact Hline|].
  split; [apply Hk; by_evaluation|apply Ht; by_evaluation].
Defined.

Lemma response_determines_fields_witness :
  summary record_small = summary record_other_prompt /\
  causes record_small = causes record_other_prompt /\
  recommendations record_small = recommendations record_other_prompt /\
  confidence record_small = confidence record_other_prompt.
Proof.
  apply (response_determines_fields (scenario_of record_small)
           (scenario_of record_other_prompt)).
  - fields_by_evaluation.
  - fields_by_evaluation.
  - by_evaluation.
  - by_evaluation.
  - by_evaluation.
  - by_evaluation.
  - by_evaluation.
Defined.

Lemma file_round_trip_witness :
  exists f,
    generate [scenario_0; scenario_of record_two_line_cause] (World None []) =
      (World (Some f) [], Ok tt) /\
    List.map json_loads (readlines f) =
    List.map Ok [example_of (prompt_text record_0) (response_text record_0);
                 example_of (prompt_text record_two_line_cause)
                   (response_text record_two_line_cause)].
Proof.
  apply (file_round_trip [scenario_0; scenario_of record_two_line_cause]
           [example_of (prompt_text record_0) (response_text record_0);
            example_of (prompt_text record_two_line_cause)
              (response_text record_two_line_cause)] (World None [])).
  apply List.Forall2_cons; [fields_by_evaluation|].
  apply List.Forall2_cons; [fields_by_evaluation|]. apply List.Forall2_nil.
Defined.

(** X16: without the condition on line feeds the response cannot be
    read back: two valid records with different causes, two for the
    one and three for the other, are rendered to the same response. *)
Theorem response_is_ambiguous_with_line_feeds :
  exists (R1 R2 : AnomalyRecord) (s1 s2 : gmap str pyval),
    represents s1 R1 /\ represents s2 R2 /\
    valid R1 = true /\ valid R2 = true /\
    length (causes R1) = 2 /\ length (causes R2) = 3 /\
    build_output s1 = build_output s2.
Proof.
  exists record_two_line_cause, record_three_causes,
    (scenario_of record_two_line_cause), (scenario_of record_three_causes).
  split; [fields_by_evaluation|]. split; [fields_by_evaluation|].
  repeat split; by_evaluation.
Qed.

(** X17: the corpus of the script keeps the constraints of its data:
    its 22 scenarios carry valid records, each with three causes and
    three recommendations, and no text of theirs holds a line feed. *)
Theorem corpus_is_well_formed :
  length scenarios = 22 /\
  Forall2 represents scenarios records /\
  Forall (fun R => valid R = true /\ single_line_texts R = true /\
                   length (causes R) = 3 /\ length (recommendations R) = 3) records.
Proof.
  split; [reflexivity|]. split.
  - unfold scenarios. induction records as [|R Rs IH]; [constructor|].
    cbn [List.map]. constructor; [apply represents_scenario_of|exact IH].
  - unfold records. repeat (apply List.Forall_cons; [repeat split; by_evaluation|]).
    apply List.Forall_nil.
Qed.

(** X18: the script as it is, on its own corpus: it writes a file of
    22 lines, reports each of them as passing, prints the verdict that
    all samples are valid, and each response has the four-block shape. *)
Theorem script_run_on_corpus (w : world) :
  exists f,
    main scenarios w =
      (World (Some f)
         (console w ++ [PGenerated 22; PValidationHeader] ++
          reports_from 0 (List.map response_text records) ++ [PVerdict true]),
       Ok true) /\
    length (readlines f) = 22 /\
    Forall (fun R => four_blocks R (response_text R)) records.
Proof.
  destruct (main_on_records scenarios records w) as (f & Hmain & Hlen).
  - unfold scenarios. induction records as [|R Rs IH]; [constructor|].
    cbn [List.map]. constructor; [apply represents_scenario_of|exact IH].
  - unfold records. repeat (apply List.Forall_cons; [repeat split; by_evaluation|]).
    apply List.Forall_nil.
  - exists f. split; [exact Hmain|]. split; [exact Hlen|].
    unfold records.
    repeat (apply List.Forall_cons; [apply four_blocks_text; by_evaluation|]).
    apply List.Forall_nil.
Qed.

End Instances.
